(** * multi_query: a shallow embedding of [db.py] and [main.py]

    The program fans one user query out to several configured data stores
    ("stands"), runs the per-stand tasks from a queue, and records the
    outcome of each task in a local SQLite file.  This development embeds
    the adapters of [db.py] (PostgresDB, MongoDB, SQLiteDB, Storage) and the
    dispatcher of [main.py] (validation, fan-out, task execution, pivot)
    as executable Rocq functions and states the specification's claims
    about them.

    Conventions.
    - Python [str] is [string] (a sequence of bytes); the text is taken to
      be ASCII wherever the code looks at single characters or counts
      them ([casefold], [strip], [int], slices, SQL [LENGTH] and
      [SUBSTR]); bytes above 127 pass through unchanged.
    - Python [int] is [Z].
    - A Python [dict] with string keys is an association list in insertion
      order (the order is observable through [values()] and [keys()]).
    - A statement that may raise is a function into [outcome]; a method
      that mutates its object or the world is a state transformer [M]. *)

From stdpp Require Import base option list strings gmap fin_maps pretty sorting.
From Stdlib Require Import ZArith Ascii String Lia.

#[local] Set Warnings "-register-all".
#[local] Open Scope string_scope.
#[local] Open Scope Z_scope.

(** ** Python values, exceptions and the state-and-exception monad *)

Module Py.

(** The values that travel from a backend to the result store.  An
    [ObjectId] is identified with its 24-digit hexadecimal text (what
    [str] returns), a [datetime] with its ISO-8601 text (what
    [isoformat] returns), a [float] with its [repr], [bytes] with their
    content.  [POther] is a value of any other type a driver returns (a
    [Decimal], a [UUID], a [date], a [Decimal128], a [Timestamp], a
    [Regex], ...), kept as the name of its type and its [repr]: the
    program has no case for such a value. *)
Inductive pyvalue : Type :=
| PNone
| PBool (b : bool)
| PInt (z : Z)
| PFloat (repr : string)
| PStr (s : string)
| PList (l : list pyvalue)
| PDict (d : list (string * pyvalue))
| PObjectId (hex : string)
| PDatetime (iso : string)
| PBytes (b : string)
| POther (type_name repr : string).

(** A record is one row or one document: [dict] in the source. *)
Definition record : Type := list (string * pyvalue).

(** Exception classes of the database drivers that the adapters name in
    their [except] clauses, and one class for every other driver error
    ([DataError], [IntegrityError], [InternalError], ...). *)
Inductive driver_error : Type :=
| OperationalError
| ProgrammingError
| ServerSelectionTimeoutError
| OtherDriverError.

Inductive exn : Type :=
| DBError (msg : string)
| DriverError (cls : driver_error) (msg : string)
| TypeError (msg : string)
| ValueError (msg : string)
| JSONDecodeError
| KeyError (key : string)
| IndexError
| StopIteration
| AssertionError (msg : string)
| RecursionError.

Inductive outcome (A : Type) : Type :=
| Ok (a : A)
| Raise (e : exn).

Arguments Ok {A} a.
Arguments Raise {A} e.

(** A computation over a mutable state [S].  The state after a [Raise] is
    kept: what was mutated before the exception stays mutated. *)
Definition M (S A : Type) : Type := S -> outcome A * S.

Definition ret {S A} (a : A) : M S A := fun s => (Ok a, s).

Definition raise {S A} (e : exn) : M S A := fun s => (Raise e, s).

Definition bind {S A B} (c : M S A) (k : A -> M S B) : M S B :=
  fun s =>
    match c s with
    | (Ok a, s') => k a s'
    | (Raise e, s') => (Raise e, s')
    end.

Definition get {S} : M S S := fun s => (Ok s, s).

Definition put {S} (s : S) : M S unit := fun _ => (Ok tt, s).

Definition modify {S} (f : S -> S) : M S unit := fun s => (Ok tt, f s).

(** [try: c  except <classes selected by h>: ...]: the handler [h] returns
    [None] for an exception no clause matches, which then propagates. *)
Definition try_except {S A} (c : M S A) (h : exn -> option (M S A)) : M S A :=
  fun s =>
    match c s with
    | (Ok a, s') => (Ok a, s')
    | (Raise e, s') =>
        match h e with
        | Some k => k s'
        | None => (Raise e, s')
        end
    end.

(** [try: c  finally: f]. *)
Definition try_finally {S A} (c : M S A) (f : M S unit) : M S A :=
  fun s =>
    match c s with
    | (r, s') =>
        match f s' with
        | (Ok _, s'') => (r, s'')
        | (Raise e, s'') => (Raise e, s'')
        end
    end.

(** Run a computation on one component of a larger state. *)
Definition zoom {S T A} (proj : S -> T) (upd : T -> S -> S) (c : M T A) : M S A :=
  fun s => match c (proj s) with (r, t) => (r, upd t s) end.

End Py.

Export Py.

Declare Scope py_scope.
Delimit Scope py_scope with py.
Notation "x <- c ;; k" := (bind c (fun x => k))
  (at level 100, c at next level, right associativity) : py_scope.
Notation "c ;;; k" := (bind c (fun _ => k))
  (at level 100, right associativity) : py_scope.
#[local] Open Scope py_scope.

(** ** Strings: the [str] methods the program calls *)

Module Str.

Definition is_upper (c : ascii) : bool :=
  let n := nat_of_ascii c in (65 <=? n)%nat && (n <=? 90)%nat.

Definition casefold_char (c : ascii) : ascii :=
  if is_upper c then ascii_of_nat (nat_of_ascii c + 32) else c.

(** [s.casefold()] on ASCII text. *)
Fixpoint casefold (s : string) : string :=
  match s with
  | EmptyString => EmptyString
  | String c s' => String (casefold_char c) (casefold s')
  end.

(** [s[:n]]. *)
Fixpoint take (n : nat) (s : string) : string :=
  match n, s with
  | O, _ => EmptyString
  | S _, EmptyString => EmptyString
  | S n', String c s' => String c (take n' s')
  end.

(** [s.startswith(p)]. *)
Fixpoint startswith (s p : string) : bool :=
  match p, s with
  | EmptyString, _ => true
  | String _ _, EmptyString => false
  | String a p', String b s' => if Ascii.eqb a b then startswith s' p' else false
  end.

(** [s.startswith((p1, p2, ...))]. *)
Definition startswith_any (s : string) (ps : list string) : bool :=
  existsb (startswith s) ps.

(** The ASCII characters for which [str.isspace] holds: tab, line feed,
    vertical tab, form feed, carriage return, the four separators
    0x1c-0x1f and the space. *)
Definition isspace (c : ascii) : bool :=
  let n := nat_of_ascii c in
  ((9 <=? n)%nat && (n <=? 13)%nat) || ((28 <=? n)%nat && (n <=? 32)%nat).

Fixpoint lstrip (s : string) : string :=
  match s with
  | EmptyString => EmptyString
  | String c s' => if isspace c then lstrip s' else s
  end.

(** [rstrip] keeps a character when it is not a space or when something
    that is kept follows it. *)
Fixpoint rstrip (s : string) : string :=
  match s with
  | EmptyString => EmptyString
  | String c s' =>
      match rstrip s' with
      | EmptyString => if isspace c then EmptyString else String c EmptyString
      | r => String c r
      end
  end.

(** [s.strip()]. *)
Definition strip (s : string) : string := rstrip (lstrip s).

(** [s.replace(a, b)] for single characters. *)
Fixpoint replace_char (a b : ascii) (s : string) : string :=
  match s with
  | EmptyString => EmptyString
  | String c s' => String (if Ascii.eqb c a then b else c) (replace_char a b s')
  end.

Definition is_digit (c : ascii) : bool :=
  let n := nat_of_ascii c in (48 <=? n)%nat && (n <=? 57)%nat.

Definition digit_value (c : ascii) : Z := Z.of_nat (nat_of_ascii c) - 48.

(** The digits of an integer literal: [digit (["_"] digit)*], read left to
    right with the value so far in [acc]; [after_digit] tells whether an
    underscore may come next. *)
Fixpoint int_digits (s : string) (acc : Z) (after_digit : bool) : option Z :=
  match s with
  | EmptyString => if after_digit then Some acc else None
  | String c s' =>
      if is_digit c then int_digits s' (10 * acc + digit_value c) true
      else if Ascii.eqb c "_" && after_digit then
             match s' with
             | String d _ => if is_digit d then int_digits s' acc false else None
             | EmptyString => None
             end
           else None
  end.

(** [int(s)] in base ten: surrounding white space, an optional sign, then
    digits; [None] stands for [ValueError]. *)
Definition int (s : string) : option Z :=
  match strip s with
  | String "-" ds => Z.opp <$> int_digits ds 0 false
  | String "+" ds => int_digits ds 0 false
  | ds => int_digits ds 0 false
  end.

End Str.

(** ** [json.dumps] *)

Module Json.

Definition quote_char : ascii := "034"%char.
Definition backslash : ascii := "092"%char.

Definition hex_digit (n : nat) : ascii :=
  if (n <? 10)%nat then ascii_of_nat (48 + n) else ascii_of_nat (87 + n).

(** The escape of one character inside a JSON string with
    [ensure_ascii=False]: the quote, the backslash and the control
    characters are escaped, every other byte is kept. *)
Definition escape_char (c : ascii) : string :=
  let n := nat_of_ascii c in
  if Ascii.eqb c quote_char then String backslash (String quote_char EmptyString)
  else if Ascii.eqb c backslash then String backslash (String backslash EmptyString)
  else if (n =? 10)%nat then "\n"
  else if (n =? 13)%nat then "\r"
  else if (n =? 9)%nat then "\t"
  else if (n =? 8)%nat then "\b"
  else if (n =? 12)%nat then "\f"
  else if (n <? 32)%nat then
         "\u00" ++ String (hex_digit (n / 16)) (String (hex_digit (n mod 16)) EmptyString)
  else String c EmptyString.

Fixpoint escape (s : string) : string :=
  match s with
  | EmptyString => EmptyString
  | String c s' => escape_char c ++ escape s'
  end.

Definition quoted (s : string) : string :=
  String quote_char (escape s ++ String quote_char EmptyString).

(** [sep.join(items)]. *)
Fixpoint join (sep : string) (items : list string) : string :=
  match items with
  | [] => EmptyString
  | [x] => x
  | x :: rest => x ++ sep ++ join sep rest
  end.

Definition not_serializable {A} (type_name : string) : outcome A :=
  Raise (TypeError ("Object of type " ++ type_name ++ " is not JSON serializable")).

(** [json.dumps(v, ensure_ascii=False, separators=(",", ":"))].  The
    encoder has no case for [ObjectId], [datetime], [bytes] and the
    values of any other type, and raises [TypeError] on them, at any
    depth. *)
Fixpoint dumps (v : pyvalue) : outcome string :=
  match v with
  | PNone => Ok "null"
  | PBool b => Ok (if b then "true" else "false")
  | PInt z => Ok (pretty z)
  | PFloat r => Ok r
  | PStr s => Ok (quoted s)
  | PList l =>
      let fix items (l : list pyvalue) : outcome (list string) :=
        match l with
        | [] => Ok []
        | x :: l' =>
            match dumps x with
            | Ok s => match items l' with Ok r => Ok (s :: r) | Raise e => Raise e end
            | Raise e => Raise e
            end
        end in
      match items l with
      | Ok r => Ok ("[" ++ join "," r ++ "]")
      | Raise e => Raise e
      end
  | PDict d =>
      let fix members (d : list (string * pyvalue)) : outcome (list string) :=
        match d with
        | [] => Ok []
        | (k, x) :: d' =>
            match dumps x with
            | Ok s =>
                match members d' with
                | Ok r => Ok ((quoted k ++ ":" ++ s) :: r)
                | Raise e => Raise e
                end
            | Raise e => Raise e
            end
        end in
      match members d with
      | Ok r => Ok ("{" ++ join "," r ++ "}")
      | Raise e => Raise e
      end
  | PObjectId _ => not_serializable "ObjectId"
  | PDatetime _ => not_serializable "datetime"
  | PBytes _ => not_serializable "bytes"
  | POther type_name _ => not_serializable type_name
  end.

(** [json.dumps] of a list of records, the argument [save_result] passes. *)
Definition dumps_records (rs : list record) : outcome string :=
  dumps (PList (map PDict rs)).

End Json.

(** ** The world outside the process: database servers and files *)

Module Driver.

(** An open connection (or client) of a driver: the address it was opened
    on and its serial number among the connections opened there. *)
Record handle : Type := { h_addr : string; h_serial : nat }.

(** What a backend answers to one statement. *)
Inductive reply : Type :=
| Rows (rs : list record)
| Fails (cls : driver_error) (msg : string).

(** The behaviour of one backend: whether its [n]-th connection attempt is
    accepted ([None]) or refused, and what its [n]-th statement returns. *)
Record Backend : Type := {
  on_connect : nat -> option (driver_error * string);
  on_execute : nat -> string -> reply
}.

(** What has happened at one address so far. *)
Record Net : Type := {
  attempts : nat;
  opened : nat;
  closed : list nat;
  executed : list (string * Z)
}.

Definition fresh_net : Net :=
  {| attempts := 0; opened := 0; closed := []; executed := [] |}.

Record Env : Type := {
  server : string -> Backend;
  net : gmap string Net;
  slept : list Z
}.

Definition net_at (e : Env) (addr : string) : Net := default fresh_net (net e !! addr).

Definition set_net (addr : string) (n : Net) (e : Env) : Env :=
  {| server := server e; net := <[addr := n]> (net e); slept := slept e |}.

(** [psycopg.connect(dsn)], [sqlite3.connect(database)]: the backend is
    contacted, and accepts or refuses. *)
Definition connect (addr : string) : M Env handle :=
  fun e =>
    let n := net_at e addr in
    match on_connect (server e addr) (attempts n) with
    | None =>
        (Ok {| h_addr := addr; h_serial := opened n |},
         set_net addr {| attempts := S (attempts n); opened := S (opened n);
                         closed := closed n; executed := executed n |} e)
    | Some (cls, msg) =>
        (Raise (DriverError cls msg),
         set_net addr {| attempts := S (attempts n); opened := opened n;
                         closed := closed n; executed := executed n |} e)
    end.

(** [pymongo.MongoClient(host)]: the client object is made without
    contacting the backend, which is first reached by an operation on
    the client; nothing can be refused here.  The client is numbered
    among what was opened at its address, where its [close] is recorded.
    The address is taken to be one the constructor can parse. *)
Definition client (addr : string) : M Env handle :=
  fun e =>
    let n := net_at e addr in
    (Ok {| h_addr := addr; h_serial := opened n |},
     set_net addr {| attempts := attempts n; opened := S (opened n);
                     closed := closed n; executed := executed n |} e).

(** One statement on an open connection followed by [fetchmany(size)] (or
    [find(...).limit(size)]): at most [size] records of the answer. *)
Definition execute (h : handle) (query : string) (size : Z) : M Env (list record) :=
  fun e =>
    let n := net_at e (h_addr h) in
    let e' := set_net (h_addr h)
                {| attempts := attempts n; opened := opened n; closed := closed n;
                   executed := executed n ++ [(query, size)] |} e in
    match on_execute (server e (h_addr h)) (List.length (executed n)) query with
    | Rows rs => (Ok (take (Z.to_nat size) rs), e')
    | Fails cls msg => (Raise (DriverError cls msg), e')
    end.

(** [connection.close()], [client.close()]. *)
Definition close (h : handle) : M Env unit :=
  fun e =>
    let n := net_at e (h_addr h) in
    (Ok tt,
     set_net (h_addr h)
       {| attempts := attempts n; opened := opened n;
          closed := closed n ++ [h_serial h]; executed := executed n |} e).

(** [time.sleep(seconds)]. *)
Definition sleep (seconds : Z) : M Env unit :=
  fun e =>
    (Ok tt,
     {| server := server e; net := net e; slept := slept e ++ [seconds] |}).

End Driver.

Export Driver.

(** A method runs on its object and on what lies outside it: the world
    [Env] for the adapters, the database file for [Storage]. *)
Definition self {T W} : M (T * W) T := fun s => (Ok (fst s), s).

Definition set_self {T W} (f : T -> T) : M (T * W) unit :=
  fun s => (Ok tt, (f (fst s), snd s)).

Definition io {T W A} (c : M W A) : M (T * W) A :=
  zoom snd (fun e s => (fst s, e)) c.

(** [json.loads] on the text of a query.  The parser is the standard
    library's, not the program's: it is a parameter of the development,
    [None] standing for [JSONDecodeError]. *)
Class JsonParser : Type := json_loads : string -> option pyvalue.

(** ** db.py: PostgresDB *)

Module PostgresDB.

Record t : Type := {
  dsn : string;
  connection : option handle;
  reconnects : Z
}.

(** [PostgresDB(dsn)]. *)
Definition new (dsn : string) : t :=
  {| dsn := dsn; connection := None; reconnects := 0 |}.

Definition set_connection (c : option handle) (p : t) : t :=
  {| dsn := dsn p; connection := c; reconnects := reconnects p |}.

Definition set_reconnects (n : Z) (p : t) : t :=
  {| dsn := dsn p; connection := connection p; reconnects := n |}.

Definition connect : M (t * Env) unit :=
  s <- self ;;
  match connection s with
  | Some _ => ret tt
  | None =>
      h <- try_except (io (Driver.connect (dsn s)))
             (fun e =>
                match e with
                | DriverError OperationalError msg =>
                    Some (raise (DBError ("Ошибка соединения с БД: " ++ msg)))
                | _ => None
                end) ;;
      set_self (set_connection (Some h)) ;;;
      set_self (set_reconnects 0)
  end.

Definition reconnect : M (t * Env) unit :=
  s <- self ;;
  if 3 <? reconnects s
  then raise (DBError "Превышено количетсво попыток соединения с БД")
  else
    io (Driver.sleep 5) ;;;
    connect ;;;
    s' <- self ;;
    set_self (set_reconnects (reconnects s' + 1)).

(** [depth] is the number of frames the interpreter still allows: the
    method calls itself, and Python ends a recursion that is too deep
    with [RecursionError]. *)
Fixpoint fetchmany (depth : nat) (query : string) (size : Z) : M (t * Env) (list record) :=
  match depth with
  | O => raise RecursionError
  | S depth' =>
      s <- self ;;
      match connection s with
      | None =>
          reconnect ;;;
          fetchmany depth' query size
      | Some h =>
          try_except (io (Driver.execute h query size))
            (fun e =>
               match e with
               | DriverError OperationalError msg =>
                   if String.eqb msg "the connection is closed"
                   then Some (set_self (set_connection None) ;;;
                              fetchmany depth' query size)
                   else Some (raise (DBError ("Ошибка при запросе к БД: " ++ msg)))
               | DriverError ProgrammingError msg =>
                   Some (raise (DBError ("Ошибка при запросе к БД: " ++ msg)))
               | _ => None
               end)
      end
  end.

Definition close : M (t * Env) unit :=
  s <- self ;;
  match connection s with
  | Some h =>
      io (Driver.close h) ;;;
      set_self (set_connection None)
  | None => ret tt
  end.

Definition required_keys : list string := ["dbname"; "user"; "password"; "host"; "port"].

End PostgresDB.

(** ** db.py: MongoDB *)

Module MongoDB.

Record t : Type := {
  host : string;
  db : string;
  collection : string;
  client : option handle
}.

(** [MongoDB(host, db, collection)]. *)
Definition new (host db collection : string) : t :=
  {| host := host; db := db; collection := collection; client := None |}.

Definition set_client (c : option handle) (m : t) : t :=
  {| host := host m; db := db m; collection := collection m; client := c |}.

Definition connect : M (t * Env) unit :=
  s <- self ;;
  match client s with
  | Some _ => ret tt
  | None =>
      h <- io (Driver.client (host s)) ;;
      set_self (set_client (Some h))
  end.

Fixpoint to_serializable (result : pyvalue) : pyvalue :=
  match result with
  | PDict d =>
      PDict (map (fun kv => match kv with (k, v) => (k, to_serializable v) end) d)
  | PObjectId hex => PStr hex
  | PDatetime iso => PStr iso
  | other => other
  end.

(** [to_serializable] on a document, which is a [dict]: its first branch. *)
Definition to_serializable_doc (r : record) : record :=
  map (fun kv => match kv with (k, v) => (k, to_serializable v) end) r.

Definition fetchmany `{JsonParser} (query : string) (size : Z) : M (t * Env) (list record) :=
  s <- self ;;
  match client s with
  | None => raise (AssertionError "Должен быть указан MongoClient")
  | Some h =>
      try_except
        (match json_loads query with
         | None => raise JSONDecodeError
         | Some _ =>
             cur <- io (Driver.execute h query size) ;;
             ret (map to_serializable_doc cur)
         end)
        (fun e =>
           match e with
           | DriverError ServerSelectionTimeoutError msg =>
               Some (raise (DBError ("Ошибка при запросе к БД: " ++ msg)))
           | _ => None
           end)
  end.

Definition close : M (t * Env) unit :=
  s <- self ;;
  match client s with
  | Some h =>
      io (Driver.close h) ;;;
      set_self (set_client None)
  | None => ret tt
  end.

Definition required_keys : list string := ["host"; "db"; "collection"].

End MongoDB.

(** ** db.py: SQLiteDB *)

Module SQLiteDB.

Record t : Type := {
  database : string;
  connection : option handle
}.

(** [SQLiteDB(database)]. *)
Definition new (database : string) : t :=
  {| database := database; connection := None |}.

Definition set_connection (c : option handle) (d : t) : t :=
  {| database := database d; connection := c |}.

Definition connect : M (t * Env) unit :=
  s <- self ;;
  match connection s with
  | Some _ => ret tt
  | None =>
      h <- try_except (io (Driver.connect (database s)))
             (fun e =>
                match e with
                | DriverError OperationalError msg =>
                    Some (raise (DBError ("Ошибка соединения с БД: " ++ msg)))
                | _ => None
                end) ;;
      set_self (set_connection (Some h))
  end.

Definition close : M (t * Env) unit :=
  s <- self ;;
  match connection s with
  | Some h =>
      io (Driver.close h) ;;;
      set_self (set_connection None)
  | None => ret tt
  end.

Fixpoint fetchmany (depth : nat) (query : string) (size : Z) : M (t * Env) (list record) :=
  match depth with
  | O => raise RecursionError
  | S depth' =>
      s <- self ;;
      match connection s with
      | None =>
          try_except (connect ;;; fetchmany depth' query size)
            (fun e =>
               match e with
               | DBError msg => Some (raise (DBError msg))
               | _ => None
               end)
      | Some h =>
          try_finally
            (try_except (io (Driver.execute h query size))
               (fun e =>
                  match e with
                  | DriverError OperationalError msg =>
                      Some (raise (DBError ("Ошибка при запросе к БД: " ++ msg)))
                  | _ => None
                  end))
            close
      end
  end.

Definition required_keys : list string := ["dbname"].

End SQLiteDB.

(** ** db.py: Storage, the durable store *)

Module Storage.

(** A [Storage] is a [SQLiteDB] (it inherits [connect] and [close]). *)
Definition t : Type := SQLiteDB.t.

(** Table [user_query]; the primary key [id] is the key of the map. *)
Record user_query_row : Type := {
  stands_number : Z;
  syntax : Z;
  created_at : string;
  content : string
}.

(** Table [query_result]; the primary key [id] is the key of the map. *)
Record query_result_row : Type := {
  query_id : Z;
  is_error : Z;
  stand_name : string;
  result_json : string
}.

(** The database file: its two tables, and what the engine takes from its
    host, the value of [CURRENT_TIMESTAMP] and the conversion
    [DATETIME(_, 'localtime')]. *)
Record Db : Type := {
  user_query : gmap Z user_query_row;
  query_result : gmap Z query_result_row;
  current_timestamp : string;
  localtime : string -> string
}.

Definition set_user_query (m : gmap Z user_query_row) (d : Db) : Db :=
  {| user_query := m; query_result := query_result d;
     current_timestamp := current_timestamp d; localtime := localtime d |}.

Definition set_query_result (m : gmap Z query_result_row) (d : Db) : Db :=
  {| user_query := user_query d; query_result := m;
     current_timestamp := current_timestamp d; localtime := localtime d |}.

(** The largest key of a table, [None] for an empty table. *)
Definition max_rowid {A} (m : gmap Z A) : option Z :=
  foldr (fun k acc => Some (match acc with None => k | Some a => Z.max k a end))
    None (map fst (map_to_list m)).

(** The key SQLite gives a row inserted without one: one more than the
    largest key, 1 in an empty table. *)
Definition next_rowid {A} (m : gmap Z A) : Z :=
  match max_rowid m with
  | None => 1
  | Some a => a + 1
  end.

Definition no_connection {A} : M (t * Db) A :=
  raise (AssertionError "Должно присутсвовать соединение с хранилищем").

Definition save_query (syntax : Z) (query : string) (stands_number : Z) : M (t * Db) Z :=
  s <- self ;;
  match SQLiteDB.connection s with
  | None => no_connection
  | Some _ =>
      io (d <- get ;;
          let id := next_rowid (user_query d) in
          put (set_user_query
                 (<[id := {| stands_number := stands_number; syntax := syntax;
                             created_at := current_timestamp d;
                             content := query |}]> (user_query d)) d) ;;;
          ret id)
  end.

Definition save_result (query_id : Z) (is_error : Z) (stand_name : string)
    (result : list record) : M (t * Db) unit :=
  s <- self ;;
  match SQLiteDB.connection s with
  | None => no_connection
  | Some _ =>
      match Json.dumps_records result with
      | Raise e => raise e
      | Ok result_json =>
          io (modify (fun d =>
                set_query_result
                  (<[next_rowid (query_result d) :=
                       {| query_id := query_id; is_error := is_error;
                          stand_name := stand_name;
                          result_json := result_json |}]> (query_result d)) d))
      end
  end.

Definition mark_incomplete (query_id : Z) : M (t * Db) unit :=
  s <- self ;;
  match SQLiteDB.connection s with
  | None => no_connection
  | Some _ =>
      io (modify (fun d =>
            set_user_query
              (alter (fun r => {| stands_number := -1; syntax := syntax r;
                                  created_at := created_at r;
                                  content := content r |})
                 query_id (user_query d)) d))
  end.

(** [COUNT(r.id)] of the left join for the query [id]. *)
Definition count_results (d : Db) (id : Z) : Z :=
  Z.of_nat (size (filter (fun kr => query_id (snd kr) = id) (query_result d))).

Definition newline : ascii := "010"%char.

(** The [content] column of the listing. *)
Definition preview (content : string) : string :=
  if (String.length content <? 50)%nat
  then Str.replace_char newline " " content
  else Str.replace_char newline " " (Str.take 50 content) ++ "...".

(** The [progress] column of the listing, for a query asked of
    [stands_number] stands that has [c] result rows. *)
Definition progress (stands_number c : Z) : string :=
  if stands_number =? -1 then "Заполнена очередь"
  else if 0 <? stands_number - c
       then "Выполняется (" ++ pretty c ++ "/" ++ pretty stands_number ++ ")"
       else "Готово".

(** [ORDER BY id DESC] on the rows of a table. *)
Definition id_desc {A} (a b : Z * A) : Prop := fst b <= fst a.

#[global] Instance id_desc_dec {A} (a b : Z * A) : Decision (id_desc a b).
Proof. unfold id_desc. apply _. Defined.

Definition id_asc {A} (a b : Z * A) : Prop := fst a <= fst b.

#[global] Instance id_asc_dec {A} (a b : Z * A) : Decision (id_asc a b).
Proof. unfold id_asc. apply _. Defined.

Definition latest_row (d : Db) (kq : Z * user_query_row) : Z * string * string * string :=
  (fst kq,
   localtime d (created_at (snd kq)),
   preview (content (snd kq)),
   progress (stands_number (snd kq)) (count_results d (fst kq))).

Definition latest_queries : M (t * Db) (list (Z * string * string * string)) :=
  s <- self ;;
  match SQLiteDB.connection s with
  | None => no_connection
  | Some _ =>
      io (d <- get ;;
          ret (map (latest_row d)
                 (take 25 (merge_sort id_desc (map_to_list (user_query d))))))
  end.

(** The rows come back in the order of their keys. *)
Definition results_by_query_id (id : Z) : M (t * Db) (list (string * string)) :=
  s <- self ;;
  match SQLiteDB.connection s with
  | None => no_connection
  | Some _ =>
      io (d <- get ;;
          ret (map (fun kr => (stand_name (snd kr), result_json (snd kr)))
                 (filter (fun kr => query_id (snd kr) = id)
                    (merge_sort id_asc (map_to_list (query_result d))))))
  end.

(** [fetchone()] returns [None] when no row has the key. *)
Definition query_by_id (id : Z) : M (t * Db) (option (Z * string)) :=
  s <- self ;;
  match SQLiteDB.connection s with
  | None => no_connection
  | Some _ =>
      io (d <- get ;;
          ret ((fun r => (syntax r, content r)) <$> user_query d !! id))
  end.

End Storage.

(** ** db.py: the protocol [DB] and its three implementations *)

(** The deepest recursion the interpreter allows by default. *)
Definition recursion_limit : nat := 1000.

Module DB.

Inductive t : Type :=
| Postgres (p : PostgresDB.t)
| Mongo (m : MongoDB.t)
| SQLite (s : SQLiteDB.t).

(** Run a method of one implementation on the object held in a [DB.t]. *)
Definition dispatch {X A} (inj : X -> t) (x : X) (c : M (X * Env) A) : M (t * Env) A :=
  fun s => match c (x, snd s) with (r, (x', e')) => (r, (inj x', e')) end.

Definition connect : M (t * Env) unit :=
  d <- self ;;
  match d with
  | Postgres p => dispatch Postgres p PostgresDB.connect
  | Mongo m => dispatch Mongo m MongoDB.connect
  | SQLite s => dispatch SQLite s SQLiteDB.connect
  end.

Definition fetchmany `{JsonParser} (query : string) (size : Z) : M (t * Env) (list record) :=
  d <- self ;;
  match d with
  | Postgres p => dispatch Postgres p (PostgresDB.fetchmany recursion_limit query size)
  | Mongo m => dispatch Mongo m (MongoDB.fetchmany query size)
  | SQLite s => dispatch SQLite s (SQLiteDB.fetchmany recursion_limit query size)
  end.

Definition close : M (t * Env) unit :=
  d <- self ;;
  match d with
  | Postgres p => dispatch Postgres p PostgresDB.close
  | Mongo m => dispatch Mongo m MongoDB.close
  | SQLite s => dispatch SQLite s SQLiteDB.close
  end.

(** The underlying connection or client the adapter holds, if any. *)
Definition handle_of (d : t) : option handle :=
  match d with
  | Postgres p => PostgresDB.connection p
  | Mongo m => MongoDB.client m
  | SQLite s => SQLiteDB.connection s
  end.

(** The same adapter holding the connection or client [c]. *)
Definition set_handle (c : option handle) (d : t) : t :=
  match d with
  | Postgres p => Postgres (PostgresDB.set_connection c p)
  | Mongo m => Mongo (MongoDB.set_client c m)
  | SQLite s => SQLite (SQLiteDB.set_connection c s)
  end.

(** The address the adapter connects to. *)
Definition address (d : t) : string :=
  match d with
  | Postgres p => PostgresDB.dsn p
  | Mongo m => MongoDB.host m
  | SQLite s => SQLiteDB.database s
  end.

End DB.

(** ** db.py: [new_db] *)

Module Config.

(** One entry of ["connections"] in [config.json]: a dictionary from keys
    to values.  The values are kept as text, a number such as the port by
    its decimal digits, which is what [str] and an f-string make of it. *)
Definition t : Type := list (string * string).

(** [config[k]], [None] standing for [KeyError]. *)
Fixpoint get (k : string) (config : t) : option string :=
  match config with
  | [] => None
  | (k', v) :: rest => if String.eqb k' k then Some v else get k rest
  end.

(** [config.keys()]. *)
Definition keys (config : t) : list string := map fst config.

(** [config[k]] as a statement that may raise. *)
Definition item (k : string) (config : t) : outcome string :=
  match get k config with
  | Some v => Ok v
  | None => Raise (KeyError k)
  end.

End Config.

(** [required_keys.issubset(config.keys())]. *)
Definition is_correct_config (config : Config.t) (required_keys : list string) : bool :=
  forallb (fun k => bool_decide (k ∈ Config.keys config)) required_keys.

(** Sequencing of statements that may raise and touch no state. *)
Definition and_then {A B} (r : outcome A) (k : A -> outcome B) : outcome B :=
  match r with
  | Ok a => k a
  | Raise e => Raise e
  end.

Definition new_db (config : Config.t) : outcome DB.t :=
  match Config.get "vendor" config with
  | None => Raise (KeyError "Не указан вид БД")
  | Some vendor =>
      if String.eqb vendor "postgres" then
        if negb (is_correct_config config PostgresDB.required_keys)
        then Raise (KeyError "Отсутсвуют необходимые параметры конфига для PostgeSQL")
        else
          and_then (Config.item "dbname" config) (fun dbname =>
          and_then (Config.item "user" config) (fun user =>
          and_then (Config.item "password" config) (fun password =>
          and_then (Config.item "host" config) (fun host =>
          and_then (Config.item "port" config) (fun port =>
          Ok (DB.Postgres
                (PostgresDB.new
                   ("dbname=" ++ dbname ++ " user=" ++ user ++ " password=" ++ password
                    ++ " host=" ++ host ++ " port=" ++ port))))))))
      else if String.eqb vendor "sqlite" then
        if negb (is_correct_config config SQLiteDB.required_keys)
        then Raise (KeyError "Отсутсвуют необходимые параметры конфига для SQLite")
        else
          and_then (Config.item "dbname" config) (fun dbname =>
          Ok (DB.SQLite (SQLiteDB.new dbname)))
      else if String.eqb vendor "mongo" then
        if negb (is_correct_config config MongoDB.required_keys)
        then Raise (KeyError "Отсутсвуют необходимые параметры конфига для MongoDB")
        else
          and_then (Config.item "host" config) (fun host =>
          and_then (Config.item "db" config) (fun db =>
          and_then (Config.item "collection" config) (fun collection =>
          Ok (DB.Mongo (MongoDB.new host db collection)))))
      else Raise (ValueError "Данный вид БД не поддерживается")
  end.

(** ** main.py: the data of the dispatcher *)

Inductive Syntax : Type := SQL | MONGO.

#[global] Instance Syntax_eq_dec : EqDecision Syntax.
Proof. solve_decision. Defined.

(** The integer value of the [IntEnum] member, as stored in [user_query]. *)
Definition Syntax_value (s : Syntax) : Z :=
  match s with
  | SQL => 0
  | MONGO => 1
  end.

Module Stand.

Record t : Type := {
  name : string;
  vendor : string;
  syntax : Syntax;
  db : DB.t;
  checkbox : bool
}.

Definition syntax_map (vendor : string) : option Syntax :=
  if String.eqb vendor "sqlite" then Some SQL
  else if String.eqb vendor "postgres" then Some SQL
  else if String.eqb vendor "mongo" then Some MONGO
  else None.

(** [Stand(name, vendor, db)]; a vendor outside [syntax_map] is a
    [KeyError]. *)
Definition new (name vendor : string) (db : DB.t) : outcome t :=
  match syntax_map vendor with
  | Some s => Ok {| name := name; vendor := vendor; syntax := s; db := db;
                    checkbox := false |}
  | None => Raise (KeyError vendor)
  end.

Definition set_db (d : DB.t) (s : t) : t :=
  {| name := name s; vendor := vendor s; syntax := syntax s; db := d;
     checkbox := checkbox s |}.

Definition set_checkbox (b : bool) (s : t) : t :=
  {| name := name s; vendor := vendor s; syntax := syntax s; db := db s;
     checkbox := b |}.

End Stand.

Module QueryTask.

Record t : Type := {
  stand_name : string;
  query_id : Z;
  query : string;
  size : Z
}.

(** [QueryTask(stand_name, query_id, query, size)]. *)
Definition new (stand_name : string) (query_id : Z) (query : string) (size : Z) : t :=
  {| stand_name := stand_name; query_id := query_id; query := query; size := size |}.

End QueryTask.

(** What [messagebox] has shown the user. *)
Inductive message : Type :=
| showerror (title text : string)
| showinfo (title text : string).

Definition INTERNAL_DB : string := "internal.db".

(** The state of the process: the module globals [stands], [q] and
    [MAX_QUEUE_SIZE], the fields of [Wgui] the dispatcher reads
    ([storage], the limit entry, the query text, the chosen syntax), the
    message boxes shown, the world outside and the file [internal.db]. *)
Record World : Type := {
  stands : list Stand.t;
  q : list QueryTask.t;
  MAX_QUEUE_SIZE : Z;
  storage : Storage.t;
  fetch_size : string;
  entry : string;
  highlight_choice : Syntax;
  messages : list message;
  env : Env;
  internal_db : Storage.Db
}.

Definition set_stands (x : list Stand.t) (w : World) : World :=
  {| stands := x; q := q w; MAX_QUEUE_SIZE := MAX_QUEUE_SIZE w; storage := storage w;
     fetch_size := fetch_size w; entry := entry w;
     highlight_choice := highlight_choice w; messages := messages w; env := env w;
     internal_db := internal_db w |}.

Definition set_q (x : list QueryTask.t) (w : World) : World :=
  {| stands := stands w; q := x; MAX_QUEUE_SIZE := MAX_QUEUE_SIZE w;
     storage := storage w; fetch_size := fetch_size w; entry := entry w;
     highlight_choice := highlight_choice w; messages := messages w; env := env w;
     internal_db := internal_db w |}.

Definition set_storage (x : Storage.t) (w : World) : World :=
  {| stands := stands w; q := q w; MAX_QUEUE_SIZE := MAX_QUEUE_SIZE w; storage := x;
     fetch_size := fetch_size w; entry := entry w;
     highlight_choice := highlight_choice w; messages := messages w; env := env w;
     internal_db := internal_db w |}.

Definition set_messages (x : list message) (w : World) : World :=
  {| stands := stands w; q := q w; MAX_QUEUE_SIZE := MAX_QUEUE_SIZE w;
     storage := storage w; fetch_size := fetch_size w; entry := entry w;
     highlight_choice := highlight_choice w; messages := x; env := env w;
     internal_db := internal_db w |}.

Definition set_env (x : Env) (w : World) : World :=
  {| stands := stands w; q := q w; MAX_QUEUE_SIZE := MAX_QUEUE_SIZE w;
     storage := storage w; fetch_size := fetch_size w; entry := entry w;
     highlight_choice := highlight_choice w; messages := messages w; env := x;
     internal_db := internal_db w |}.

Definition set_internal_db (x : Storage.Db) (w : World) : World :=
  {| stands := stands w; q := q w; MAX_QUEUE_SIZE := MAX_QUEUE_SIZE w;
     storage := storage w; fetch_size := fetch_size w; entry := entry w;
     highlight_choice := highlight_choice w; messages := messages w; env := env w;
     internal_db := x |}.

(** [stands[name]].  The dictionary maps the name of every stand to the
    stand ([stands[name] = Stand(name, ...)]); it is kept as the list of
    its values in insertion order. *)
Fixpoint lookup_stand (name : string) (l : list Stand.t) : option Stand.t :=
  match l with
  | [] => None
  | s :: l' => if String.eqb (Stand.name s) name then Some s else lookup_stand name l'
  end.

Definition stand (name : string) : M World Stand.t :=
  fun w =>
    match lookup_stand name (stands w) with
    | Some s => (Ok s, w)
    | None => (Raise (KeyError name), w)
    end.

(** The adapter of a stand is one object shared by everything that looks
    the stand up: a method run on it leaves its changes in the registry. *)
Fixpoint store_db (name : string) (d : DB.t) (l : list Stand.t) : list Stand.t :=
  match l with
  | [] => []
  | s :: l' =>
      if String.eqb (Stand.name s) name then Stand.set_db d s :: l'
      else s :: store_db name d l'
  end.

Definition on_db {A} (name : string) (c : M (DB.t * Env) A) : M World A :=
  s <- stand name ;;
  zoom (fun w => (Stand.db s, env w))
       (fun de w => set_env (snd de) (set_stands (store_db name (fst de) (stands w)) w))
       c.

(** A method of [Wgui.storage] on the store file. *)
Definition on_storage_db {A} (c : M (Storage.t * Storage.Db) A) : M World A :=
  zoom (fun w => (storage w, internal_db w))
       (fun sd w => set_internal_db (snd sd) (set_storage (fst sd) w))
       c.

(** A local variable [x] holding a fresh object, in scope for [c]. *)
Definition local {T S A} (x : T) (c : M (T * S) A) : M S A :=
  fun s => match c (x, s) with (r, xs) => (r, snd xs) end.

Definition local_env {T A} (c : M (T * Env) A) : M (T * World) A :=
  zoom (fun tw => (fst tw, env (snd tw)))
       (fun te tw => (fst te, set_env (snd te) (snd tw)))
       c.

Definition local_db {T A} (c : M (T * Storage.Db) A) : M (T * World) A :=
  zoom (fun tw => (fst tw, internal_db (snd tw)))
       (fun td tw => (fst td, set_internal_db (snd td) (snd tw)))
       c.

Definition messagebox (m : message) : M World unit :=
  modify (fun w => set_messages (messages w ++ [m]) w).

(** ** main.py: SyntaxHighlighter *)

Module SyntaxHighlighter.

(** [stands[selected].syntax for selected in selected_stands]. *)
Fixpoint syntaxes (selected_stands : list string) : M World (list Syntax) :=
  match selected_stands with
  | [] => ret []
  | selected :: rest =>
      s <- stand selected ;;
      l <- syntaxes rest ;;
      ret (Stand.syntax s :: l)
  end.

Definition data_statements : list string := ["insert "; "update "; "delete "].

Definition schema_statements : list string := ["drop "; "alter "; "create "; "comment "].

Definition is_valid_entry `{JsonParser} (user_entry : string)
    (selected_stands : list string) : M World bool :=
  if (String.length user_entry =? 0)%nat then
    messagebox (showerror "Ошибка" "Заполните поле для запроса") ;;;
    ret false
  else
    l <- syntaxes selected_stands ;;
    let selected_syntaxes := remove_dups l in
    if (1 <? List.length selected_syntaxes)%nat then
      messagebox (showerror "Ошибка" "Выбраны стенды с разными синтаксисами") ;;;
      ret false
    else
      w <- get ;;
      let chosen_syntax := highlight_choice w in
      if negb (bool_decide (chosen_syntax ∈ selected_syntaxes)) then
        messagebox
          (showerror "Ошибка" "Выбранный синтаксис отличается от синтаксиса стендов") ;;;
        ret false
      else
        match chosen_syntax with
        | SQL =>
            let entry_slice := Str.casefold (Str.take 9 user_entry) in
            if Str.startswith_any entry_slice data_statements then
              messagebox
                (showerror "Ошибка" "Редактирование данных не поддерживается") ;;;
              ret false
            else if Str.startswith_any entry_slice schema_statements then
              messagebox
                (showerror "Ошибка" "Редактирование схемы не поддерживается") ;;;
              ret false
            else if String.eqb entry_slice "truncate " then
              messagebox (showerror "Ошибка" "Очистка таблицы не поддерживается") ;;;
              ret false
            else ret true
        | MONGO =>
            match json_loads user_entry with
            | None =>
                messagebox
                  (showerror "Ошибка" "Некорректный синтаксис для поиска") ;;;
                ret false
            | Some _ => ret true
            end
        end.

End SyntaxHighlighter.

(** ** main.py: Wgui *)

Module Wgui.

(** [stands[name] = stand]: the stand of that name is replaced where it
    is, a new name is added at the end. *)
Fixpoint set_stand (s : Stand.t) (l : list Stand.t) : list Stand.t :=
  match l with
  | [] => [s]
  | x :: l' =>
      if String.eqb (Stand.name x) (Stand.name s) then s :: l'
      else x :: set_stand s l'
  end.

(** [str(e)] for the exceptions [create_stands] catches: the message of a
    [ValueError], the [repr] of the message of a [KeyError] (in single
    quotes; the messages of [new_db] hold no quote and no backslash). *)
Definition str_of_config_error (e : exn) : option string :=
  match e with
  | KeyError m => Some ("'" ++ m ++ "'")
  | ValueError m => Some m
  | _ => None
  end.

(** [create_stands], on [config.get("connections", {}).items()]. *)
Fixpoint create_stands (connections : list (string * Config.t)) : M World unit :=
  match connections with
  | [] => ret tt
  | (name, connection) :: rest =>
      match new_db connection with
      | Raise e =>
          match str_of_config_error e with
          | Some text => messagebox (showerror "Ошибка" (name ++ ": " ++ text))
          | None => raise e
          end
      | Ok db =>
          match Config.item "vendor" connection with
          | Raise e => raise e
          | Ok vendor =>
              match Stand.new name vendor db with
              | Raise e => raise e
              | Ok s => modify (fun w => set_stands (set_stand s (stands w)) w)
              end
          end
      end ;;;
      create_stands rest
  end.

Definition select_all : M World unit :=
  modify (fun w => set_stands (map (Stand.set_checkbox true) (stands w)) w).

Definition deselect_all : M World unit :=
  modify (fun w => set_stands (map (Stand.set_checkbox false) (stands w)) w).

Definition is_positive_int (entry_value : string) : bool :=
  match Str.int entry_value with
  | None => false
  | Some n => if n <? 1 then false else true
  end.

(** [(r[0], next(iter(r[1][0].values())))]: the first value of the first
    record of a stand's result.  [r[1][0]] on an empty list is an
    [IndexError], [next] on an empty record a [StopIteration]. *)
Definition pivot_row (r : string * list record) : outcome (string * pyvalue) :=
  match snd r with
  | [] => Raise IndexError
  | first :: _ =>
      match first with
      | [] => Raise StopIteration
      | (_, v) :: _ => Ok (fst r, v)
      end
  end.

(** The list comprehension of [make_pivot]: it stops at the first row
    that raises. *)
Fixpoint pivot_rows (results : list (string * list record)) :
    outcome (list (string * pyvalue)) :=
  match results with
  | [] => Ok []
  | r :: rest =>
      match pivot_row r with
      | Raise e => Raise e
      | Ok x =>
          match pivot_rows rest with
          | Raise e => Raise e
          | Ok xs => Ok (x :: xs)
          end
      end
  end.

(** [None] of the source is [Ok None]. *)
Definition make_pivot (results : list (string * list record)) :
    outcome (option (list (string * pyvalue))) :=
  match results with
  | [] => Ok None
  | first :: _ =>
      match snd first with
      | [only] =>
          if (List.length only =? 1)%nat then
            match pivot_rows results with
            | Ok rows => Ok (Some rows)
            | Raise e => Raise e
            end
          else Ok None
      | _ => Ok None
      end
  end.

(** [json.loads(r[1])] for a stored payload: a list of records. *)
Definition records_of (v : pyvalue) : list record :=
  match v with
  | PList items =>
      omap (fun x => match x with PDict d => Some d | _ => None end) items
  | _ => []
  end.

Fixpoint load_results `{JsonParser} (query_results : list (string * string)) :
    outcome (list (string * list record)) :=
  match query_results with
  | [] => Ok []
  | (name, payload) :: rest =>
      match json_loads payload with
      | None => Raise JSONDecodeError
      | Some v =>
          match load_results rest with
          | Raise e => Raise e
          | Ok rs => Ok ((name, records_of v) :: rs)
          end
      end
  end.

Definition of_outcome {S A} (r : outcome A) : M S A :=
  match r with
  | Ok a => ret a
  | Raise e => raise e
  end.

(** [export_result], as far as the shape of the workbook goes: the names
    of the worksheets it adds, in order.  The cells are not modelled. *)
Definition export_result `{JsonParser} (query_id : Z) : M World (list string) :=
  query_results <- on_storage_db (Storage.results_by_query_id query_id) ;;
  summary <- on_storage_db (Storage.query_by_id query_id) ;;
  match summary with
  | None => raise (TypeError "cannot unpack non-iterable NoneType object")
  | Some (query_syntax, query_content) =>
      results <- of_outcome (load_results query_results) ;;
      if query_syntax =? Syntax_value SQL then
        pivot <- of_outcome (make_pivot results) ;;
        match pivot with
        | Some (_ :: _) => ret ("Запрос" :: "Свод" :: map fst results)
        | _ => ret ("Запрос" :: map fst results)
        end
      else if query_syntax =? Syntax_value MONGO then
        ret ("Запрос" :: map fst results)
      else ret ["Запрос"]
  end.

Definition get_fetch_size : M World Z :=
  w <- get ;;
  let user_fetch_size := fetch_size w in
  if (String.length user_fetch_size =? 0)%nat then
    messagebox (showerror "Ошибка" "Заполните лимит записей") ;;;
    ret (-1)
  else if negb (is_positive_int user_fetch_size) then
    messagebox
      (showerror "Ошибка" "Лимит записей должен быть положительным целым числом") ;;;
    ret (-1)
  else
    match Str.int user_fetch_size with
    | Some n => ret n
    | None => raise (ValueError "invalid literal for int() with base 10")
    end.

(** The text widget returns its content followed by a line feed. *)
Definition get_user_entry `{JsonParser} (selected_stands : list string) : M World string :=
  w <- get ;;
  let user_entry := Str.strip (entry w ++ String Storage.newline EmptyString) in
  ok <- SyntaxHighlighter.is_valid_entry user_entry selected_stands ;;
  if negb ok then ret "" else ret user_entry.

Definition selected_names (l : list Stand.t) : list string :=
  map Stand.name (filter (fun s => Stand.checkbox s = true) l).

(** The loop of [create_tasks] over the selected stands. *)
Fixpoint enqueue (names : list string) (query_id : Z) (user_query : string)
    (user_fetch_size : Z) : M World unit :=
  match names with
  | [] => ret tt
  | stand_name :: rest =>
      w <- get ;;
      if Z.of_nat (List.length (q w)) <? MAX_QUEUE_SIZE w then
        put (set_q (q w ++ [QueryTask.new stand_name query_id user_query
                              user_fetch_size]) w) ;;;
        enqueue rest query_id user_query user_fetch_size
      else
        on_storage_db (Storage.mark_incomplete query_id) ;;;
        messagebox (showinfo "Инфо" "Очередь заполнена, дождитесь выполнения задач")
  end.

Definition create_tasks `{JsonParser} : M World unit :=
  user_fetch_size <- get_fetch_size ;;
  if user_fetch_size <? 1 then ret tt
  else
    w <- get ;;
    let selected_stands := selected_names (stands w) in
    match selected_stands with
    | [] =>
        messagebox
          (showerror "Ошибка" "Выберите адрес(-а) БД перед выполнением запроса")
    | _ :: _ =>
        user_query <- get_user_entry selected_stands ;;
        if (String.length user_query =? 0)%nat then ret tt
        else
          w' <- get ;;
          let syntax := highlight_choice w' in
          query_id <- on_storage_db
                        (Storage.save_query (Syntax_value syntax) user_query
                           (Z.of_nat (List.length selected_stands))) ;;
          enqueue selected_stands query_id user_query user_fetch_size
    end.

End Wgui.

(** ** main.py: the worker *)

Definition error_result (msg : string) : list record := [[("error", PStr msg)]].

Definition execute_query `{JsonParser} (task : QueryTask.t) : M World unit :=
  _ <- stand (QueryTask.stand_name task) ;;
  refused <- try_except (on_db (QueryTask.stand_name task) DB.connect ;;; ret None)
               (fun e =>
                  match e with
                  | DBError msg => Some (ret (Some msg))
                  | _ => None
                  end) ;;
  outcome <- match refused with
             | Some msg => ret (error_result msg, 1)
             | None =>
                 try_except
                   (result <- on_db (QueryTask.stand_name task)
                                (DB.fetchmany (QueryTask.query task)
                                   (QueryTask.size task)) ;;
                    ret (result, 0))
                   (fun e =>
                      match e with
                      | DBError msg => Some (ret (error_result msg, 1))
                      | _ => None
                      end)
             end ;;
  local (SQLiteDB.new INTERNAL_DB)
    (local_env SQLiteDB.connect ;;;
     local_db (Storage.save_result (QueryTask.query_id task) (snd outcome)
                 (QueryTask.stand_name task) (fst outcome)) ;;;
     local_env SQLiteDB.close).

(** One turn of a worker's loop: [q.get()] then [execute_query].  On an
    empty queue the worker blocks; the turn then does nothing. *)
Definition worker_step `{JsonParser} : M World unit :=
  w <- get ;;
  match q w with
  | [] => ret tt
  | query_task :: rest =>
      put (set_q rest w) ;;;
      execute_query query_task
  end.

(** The loop of [shutdown]: [before] are the stands already visited. *)
Fixpoint close_each (before todo : list Stand.t) : M World unit :=
  match todo with
  | [] => ret tt
  | s :: rest =>
      fun w =>
        match DB.close (Stand.db s, env w) with
        | (r, (d, e)) =>
            let w' := set_env e
                        (set_stands (before ++ Stand.set_db d s :: rest) w) in
            match r with
            | Ok _ => close_each (before ++ [Stand.set_db d s]) rest w'
            | Raise x => (Raise x, w')
            end
        end
  end.

(** [shutdown], registered with [atexit]. *)
Definition shutdown : M World unit :=
  w <- get ;;
  close_each [] (stands w).

(** ** Notions of the specification *)

Module Spec.



(** The statements the specification forbids in relational text. *)
Definition forbidden_keywords : list string :=
  ["insert"; "update"; "delete"; "drop"; "alter"; "create"; "comment"; "truncate"].

(** "Case-insensitively, ignoring leading whitespace, the text begins with
    the statement [kw]". *)
Definition begins_with (kw text : string) : bool :=
  Str.startswith (Str.casefold (Str.lstrip text)) kw.

Definition begins_with_forbidden (text : string) : bool :=
  existsb (fun kw => begins_with kw text) forbidden_keywords.

(** "The stand's result is exactly one record with exactly one field". *)
Definition single_scalar (r : string * list record) : bool :=
  match snd r with
  | [[_]] => true
  | _ => false
  end.

(** The syntax class of each of the given stands, looked up by name. *)
Definition syntaxes_of (l : list Stand.t) (names : list string) : list Syntax :=
  omap (fun name => Stand.syntax <$> lookup_stand name l) names.

Definition every_stand_scalar (results : list (string * list record)) : bool :=
  forallb single_scalar results.

(** The two-column table the specification describes for such results. *)
Definition scalar_table (results : list (string * list record)) : list (string * pyvalue) :=
  omap (fun r => match snd r with
                 | [[(_, v)]] => Some (fst r, v)
                 | _ => None
                 end) results.

(** The syntax class of an adapter. *)
Definition class_of (d : DB.t) : Syntax :=
  match d with
  | DB.Postgres _ | DB.SQLite _ => SQL
  | DB.Mongo _ => MONGO
  end.

(** The stand a configuration entry stands for, if [new_db] accepts it:
    unselected, holding the adapter [new_db] built. *)
Definition registered (entry : string * Config.t) : option Stand.t :=
  match new_db entry.2 with
  | Ok d =>
      Some {| Stand.name := entry.1;
              Stand.vendor := default "" (Config.get "vendor" entry.2);
              Stand.syntax := class_of d; Stand.db := d; Stand.checkbox := false |}
  | Raise _ => None
  end.

(** The error box for an entry [new_db] refuses. *)
Definition reported (entry : string * Config.t) : option message :=
  match new_db entry.2 with
  | Raise (KeyError m) => Some (showerror "Ошибка" (entry.1 ++ ": '" ++ m ++ "'"))
  | Raise (ValueError m) => Some (showerror "Ошибка" (entry.1 ++ ": " ++ m))
  | _ => None
  end.

(** The stand without its connection, and the world after the
    connections the stands hold have been closed, one after the other. *)
Definition disconnected (s : Stand.t) : Stand.t :=
  Stand.set_db (DB.set_handle None (Stand.db s)) s.

Definition released (e : Env) (l : list Stand.t) : Env :=
  foldl (fun e s =>
           match DB.handle_of (Stand.db s) with
           | Some h => (Driver.close h e).2
           | None => e
           end) e l.

(** Whether the character [c] occurs in [s]. *)
Fixpoint occurs (c : ascii) (s : string) : bool :=
  match s with
  | EmptyString => false
  | String x s' => Ascii.eqb x c || occurs c s'
  end.

(** A value built from [None], booleans, numbers, text, identifiers,
    dates and mappings of such: it holds no [list], no [bytes] and no
    value of another type at any depth. *)
Fixpoint flat (v : pyvalue) : bool :=
  match v with
  | PList _ | PBytes _ | POther _ _ => false
  | PDict d => forallb (fun kv => match kv with (_, x) => flat x end) d
  | _ => true
  end.

End Spec.

(** ** Sample data: a parser, backends and worlds for the concrete runs *)

Module Sample.

(** A parser that knows the empty filter, enough for the runs below. *)
Definition loads_empty_filter : JsonParser :=
  fun text => if String.eqb text "{}" then Some (PDict []) else None.

(** A backend that accepts every connection and answers every statement
    with [rs]. *)
Definition answering (rs : list record) : Backend :=
  {| on_connect := fun _ => None; on_execute := fun _ _ => Rows rs |}.

(** A backend that refuses every connection. *)
Definition refusing : Backend :=
  {| on_connect := fun _ => Some (OperationalError, "connection refused");
     on_execute := fun _ _ => Fails OperationalError "the connection is closed" |}.

Definition quiet (b : Backend) : Env :=
  {| server := fun _ => b; net := ∅; slept := [] |}.

(** A document with an identifier at the top, a date in a nested mapping
    and identifiers and dates inside arrays. *)
Definition order_doc : record :=
  [("_id", PObjectId "65a1f0c2e4b0a1b2c3d4e5f6");
   ("meta", PDict [("at", PDatetime "2024-01-12T09:30:00")]);
   ("items", PList [PObjectId "65a1f0c2e4b0a1b2c3d4e5f7";
                    PDict [("at", PDatetime "2024-01-12T09:31:00")]])].


(** Results of a count on two stands where stand B returned two rows of
    two columns, and where stand B returned no row. *)
Definition uneven_results : list (string * list record) :=
  [("A", [[("count", PInt 1)]]);
   ("B", [[("x", PInt 7); ("y", PInt 8)]; [("x", PInt 9); ("y", PInt 10)]])].

Definition results_with_empty : list (string * list record) :=
  [("A", [[("count", PInt 1)]]); ("B", [])].

(** A store file with one query asked of three stands and two of its
    results. *)
Definition two_of_three : Storage.Db :=
  {| Storage.user_query :=
       {[ 1 := {| Storage.stands_number := 3; Storage.syntax := 0;
                  Storage.created_at := "2024-01-12 09:30:00";
                  Storage.content := "select count(*) from t" |} ]};
     Storage.query_result :=
       {[ 1 := {| Storage.query_id := 1; Storage.is_error := 0;
                  Storage.stand_name := "A"; Storage.result_json := "[]" |};
          2 := {| Storage.query_id := 1; Storage.is_error := 0;
                  Storage.stand_name := "B"; Storage.result_json := "[]" |} ]};
     Storage.current_timestamp := "2024-01-12 09:31:00";
     Storage.localtime := fun t => t |}.

Definition open_storage : Storage.t :=
  SQLiteDB.set_connection (Some {| h_addr := INTERNAL_DB; h_serial := 0 |})
    (SQLiteDB.new INTERNAL_DB).

Definition empty_store : Storage.Db :=
  {| Storage.user_query := ∅; Storage.query_result := ∅;
     Storage.current_timestamp := "2024-01-12 09:31:00";
     Storage.localtime := fun t => t |}.

(** A selected stand of each vendor. *)
Definition sqlite_stand (name : string) : Stand.t :=
  {| Stand.name := name; Stand.vendor := "sqlite"; Stand.syntax := SQL;
     Stand.db := DB.SQLite (SQLiteDB.new (name ++ ".db")); Stand.checkbox := true |}.

Definition postgres_stand (name : string) : Stand.t :=
  {| Stand.name := name; Stand.vendor := "postgres"; Stand.syntax := SQL;
     Stand.db := DB.Postgres (PostgresDB.new ("host=" ++ name));
     Stand.checkbox := true |}.

Definition mongo_stand (name : string) : Stand.t :=
  {| Stand.name := name; Stand.vendor := "mongo"; Stand.syntax := MONGO;
     Stand.db := DB.Mongo (MongoDB.new ("mongodb://" ++ name) "shop" "orders");
     Stand.checkbox := true |}.

(** A process with the given stands, queue and capacity, the form filled
    with [limit], [text] and [choice], a connected store and a backend
    [b] behind every address. *)
Definition world (l : list Stand.t) (queue : list QueryTask.t) (capacity : Z)
    (limit text : string) (choice : Syntax) (b : Backend) : World :=
  {| stands := l; q := queue; MAX_QUEUE_SIZE := capacity; storage := open_storage;
     fetch_size := limit; entry := text; highlight_choice := choice; messages := [];
     env := quiet b; internal_db := empty_store |}.

Definition relational_world (text : string) : World :=
  world [sqlite_stand "A"] [] 50 "25" text SQL (answering []).


(** A queue of capacity 2 that holds one task of an earlier query, and a
    submission to three stands. *)
Definition earlier_task : QueryTask.t :=
  {| QueryTask.stand_name := "Z"; QueryTask.query_id := 7;
     QueryTask.query := "select 0"; QueryTask.size := 10 |}.

Definition crowded_world : World :=
  world [sqlite_stand "A"; sqlite_stand "B"; sqlite_stand "C"] [earlier_task] 2
    "25" "SELECT 1" SQL (answering []).


(** A backend that accepts connections and fails every statement. *)
Definition failing (cls : driver_error) (msg : string) : Backend :=
  {| on_connect := fun _ => None; on_execute := fun _ _ => Fails cls msg |}.

Definition pg_connected : PostgresDB.t :=
  PostgresDB.set_connection (Some {| h_addr := "host=A"; h_serial := 0 |})
    (PostgresDB.new "host=A").

(** The world after the adapter's first connection to [b]. *)
Definition first_connection (b : Backend) : Env :=
  set_net "host=A" {| attempts := 1; opened := 1; closed := []; executed := [] |}
    (quiet b).

(** The adapter and the world after [k] calls of [fetchmany], one after
    the other, whatever each call returned or raised. *)
Definition after_calls (k : nat) (s : PostgresDB.t * Env) : PostgresDB.t * Env :=
  Nat.iter k (fun s => (PostgresDB.fetchmany recursion_limit "select 1" 25 s).2) s.

Definition never_connected : PostgresDB.t * Env :=
  (PostgresDB.new "host=A", quiet refusing).

(** A world in which the store file opens and every other address is
    served by [b]. *)
Definition serving (b : Backend) : Env :=
  {| server := fun addr => if String.eqb addr INTERNAL_DB then answering [] else b;
     net := ∅; slept := [] |}.

(** A worker's process: one stand, an empty store file, the backend [b]
    behind the stand. *)
Definition worker_world (s : Stand.t) (b : Backend) : World :=
  {| stands := [s]; q := []; MAX_QUEUE_SIZE := 50; storage := open_storage;
     fetch_size := "25"; entry := ""; highlight_choice := Stand.syntax s;
     messages := []; env := serving b; internal_db := empty_store |}.

(** The ["connections"] of a configuration file: a file database, an
    entry of an unknown vendor and a document database. *)
Definition connections : list (string * Config.t) :=
  [("A", [("vendor", "sqlite"); ("dbname", "a.db")]);
   ("B", [("vendor", "oracle"); ("host", "b")]);
   ("C", [("vendor", "mongo"); ("host", "mongodb://c"); ("db", "shop");
          ("collection", "orders")])].

(** A document without arrays: an identifier and a date in a nested
    mapping. *)
Definition flat_doc : record :=
  [("_id", PObjectId "65a1f0c2e4b0a1b2c3d4e5f6");
   ("meta", PDict [("at", PDatetime "2024-01-12T09:30:00")])].

(** A world whose only stand is a document database, the form asking it
    for every document. *)
Definition document_world : World :=
  world [mongo_stand "B"] [] 50 "25" "{}" MONGO (answering []).

End Sample.

(** * Properties *)

(** Unfolds the monad and the methods of the adapters, leaving the calls
    into the drivers in place. *)
Ltac run :=
  cbv [bind try_except try_finally io zoom self set_self ret raise get put modify
       fst snd DB.dispatch DB.connect DB.close DB.set_handle DB.handle_of
       PostgresDB.connect PostgresDB.close PostgresDB.reconnect
       PostgresDB.connection PostgresDB.dsn PostgresDB.reconnects
       PostgresDB.set_connection PostgresDB.set_reconnects
       MongoDB.connect MongoDB.close MongoDB.fetchmany MongoDB.client MongoDB.host
       MongoDB.db MongoDB.collection MongoDB.set_client
       SQLiteDB.connect SQLiteDB.close SQLiteDB.connection SQLiteDB.database
       SQLiteDB.set_connection].

(** ** Adapters: [connect] and [close] *)

Lemma set_handle_id (d : DB.t) : DB.set_handle (DB.handle_of d) d = d.
Proof. destruct d as [[]|[]|[]]; reflexivity. Qed.

Lemma connect_twice (d : DB.t) (e : Env) :
  (DB.connect ;;; DB.connect) (d, e) = DB.connect (d, e).
Proof.
  destruct d as [p|m|s];
    [destruct p as [a [h|] r] | destruct m as [a b c [h|]] | destruct s as [a [h|]]];
    try reflexivity; run;
    destruct (Driver.connect a e) as [[h|[]] e']; try reflexivity;
    destruct cls; reflexivity.
Qed.

(** C9.  For each of the three adapters: [connect] on an adapter that
    holds a connection changes neither the adapter nor the world (no
    connection is opened); [connect] twice is [connect] once; [close]
    returns normally and leaves no handle, and a second [close] returns
    normally and changes nothing. *)
Theorem connect_close_idempotent (d : DB.t) (e : Env) :
  (forall h, DB.connect (DB.set_handle (Some h) d, e)
             = (Ok tt, (DB.set_handle (Some h) d, e))) /\
  (DB.connect ;;; DB.connect) (d, e) = DB.connect (d, e) /\
  (exists e', DB.close (d, e) = (Ok tt, (DB.set_handle None d, e')) /\
              DB.close (DB.set_handle None d, e') = (Ok tt, (DB.set_handle None d, e'))) /\
  DB.handle_of (DB.set_handle None d) = None.
Proof.
  split; [| split; [| split]].
  - intros h. destruct d; reflexivity.
  - apply connect_twice.
  - destruct d as [p|m|s];
      [destruct p as [a [h|] r] | destruct m as [a b c [h|]] | destruct s as [a [h|]]];
      eexists; split; reflexivity.
  - destruct d; reflexivity.
Qed.

(** ** MongoDB: [to_serializable] *)





(** ** Wgui: the pivot *)

Lemma pivot_rows_scalar (results : list (string * list record)) :
  Spec.every_stand_scalar results = true ->
  Wgui.pivot_rows results = Ok (Spec.scalar_table results).
Proof.
  induction results as [|[name rs] results IH]; [reflexivity|].
  cbn. destruct rs as [|[|[k v] [|]] [|]]; try discriminate.
  intros Hall. cbn. rewrite (IH Hall). reflexivity.
Qed.

(** Where every stand returned one record of one field, the pivot is the
    table of the stands' names and values. *)
Lemma make_pivot_scalar (results : list (string * list record)) :
  results <> [] ->
  Spec.every_stand_scalar results = true ->
  Wgui.make_pivot results = Ok (Some (Spec.scalar_table results)).
Proof.
  intros Hne Hall. pose proof (pivot_rows_scalar results Hall) as Hrows.
  destruct results as [|[name rs] results]; [done|].
  unfold Wgui.make_pivot. rewrite Hrows.
  cbn in Hall. destruct rs as [|[|[k v] [|]] [|]]; try discriminate.
  reflexivity.
Qed.

(** The test of [make_pivot] reads the first stand's result only: once
    that is one record of one field, the other results are not examined
    and a pivot is built, or the comprehension raises. *)
Lemma make_pivot_first_only (name : string) (k : string) (v : pyvalue)
    (rest : list (string * list record)) :
  Wgui.make_pivot ((name, [[(k, v)]]) :: rest)
  = match Wgui.pivot_rows rest with
    | Ok rows => Ok (Some ((name, v) :: rows))
    | Raise e => Raise e
    end.
Proof. cbn. destruct (Wgui.pivot_rows rest); reflexivity. Qed.

(** [export_result] on a relational query always adds the sheet of the
    query and one sheet for each stand; the sheet of the pivot is added
    when [make_pivot] returns a table, and an exception of [make_pivot]
    ends the export. *)
Lemma export_result_sheets `{JsonParser} (id : Z) (w : World)
    (query_results : list (string * string)) (content : string)
    (results : list (string * list record)) :
  on_storage_db (Storage.results_by_query_id id) w = (Ok query_results, w) ->
  on_storage_db (Storage.query_by_id id) w = (Ok (Some (Syntax_value SQL, content)), w) ->
  Wgui.load_results query_results = Ok results ->
  Wgui.export_result id w
  = match Wgui.make_pivot results with
    | Ok (Some (_ :: _)) => (Ok ("Запрос" :: "Свод" :: map fst results), w)
    | Ok _ => (Ok ("Запрос" :: map fst results), w)
    | Raise x => (Raise x, w)
    end.
Proof.
  intros Hrows Hquery Hload. unfold Wgui.export_result.
  unfold bind at 1. rewrite Hrows. unfold bind at 1. rewrite Hquery.
  rewrite Hload. unfold bind at 1, Wgui.of_outcome at 1, ret at 1.
  cbn [Syntax_value Z.eqb]. unfold bind at 1.
  destruct (Wgui.make_pivot results) as [[[|x l]|]|x]; reflexivity.
Qed.

(** C7, at the failing inputs.  With stand A holding one count and stand B
    two rows of two columns, not every result is a single one-field
    record, yet the pivot is produced, taking B's first value; with stand
    B holding no row, [make_pivot] raises [IndexError]. *)
Theorem make_pivot_reads_first_stand_only :
  Spec.every_stand_scalar Sample.uneven_results = false /\
  Wgui.make_pivot Sample.uneven_results = Ok (Some [("A", PInt 1); ("B", PInt 7)]) /\
  Spec.every_stand_scalar Sample.results_with_empty = false /\
  Wgui.make_pivot Sample.results_with_empty = Raise IndexError.
Proof. repeat split. Qed.

(** ** Storage: the listing *)

Lemma StronglySorted_take {A} (R : relation A) (l : list A) (n : nat) :
  StronglySorted R l -> StronglySorted R (take n l).
Proof.
  intros Hl. revert n.
  induction Hl as [|x l Hl IH Hx]; intros [|n]; cbn; try constructor.
  - apply IH.
  - apply Forall_take, Hx.
Qed.

Lemma id_desc_strict {A} (l : list (Z * A)) :
  StronglySorted Storage.id_desc l -> NoDup (map fst l) ->
  StronglySorted (fun a b : Z => b < a) (map fst l).
Proof.
  induction 1 as [|x l Hl IH Hx]; cbn; [constructor|].
  intros [Hnot Hnd]%NoDup_cons. constructor; [by apply IH|].
  apply Forall_fmap, Forall_forall. intros y Hy.
  rewrite Forall_forall in Hx. specialize (Hx y Hy). unfold Storage.id_desc in Hx.
  cbn. destruct (decide (y.1 = x.1)) as [E|]; [| lia].
  exfalso. apply Hnot. rewrite <- E. apply list_elem_of_fmap. eauto.
Qed.

#[local] Instance id_desc_total {A} : Total (@Storage.id_desc A).
Proof. intros a b. unfold Storage.id_desc. lia. Qed.

#[local] Instance id_desc_trans {A} : Transitive (@Storage.id_desc A).
Proof. intros a b c. unfold Storage.id_desc. lia. Qed.

Lemma latest_sorted (d : Storage.Db) :
  let rows := take 25 (merge_sort Storage.id_desc (map_to_list (Storage.user_query d))) in
  StronglySorted (fun a b : Z => b < a) (map fst rows) /\
  (List.length rows <= 25)%nat /\
  Forall (fun kq => Storage.user_query d !! kq.1 = Some kq.2) rows.
Proof.
  intros rows.
  assert (Hperm : merge_sort Storage.id_desc (map_to_list (Storage.user_query d))
                  ≡ₚ map_to_list (Storage.user_query d)) by apply merge_sort_Permutation.
  split; [| split].
  - apply id_desc_strict.
    + apply StronglySorted_take, StronglySorted_merge_sort; apply _.
    + assert (Hsub : map fst rows `sublist_of`
                     map fst (merge_sort Storage.id_desc
                                (map_to_list (Storage.user_query d))))
        by (apply fmap_sublist, sublist_take).
      refine (sublist_NoDup _ _ _ Hsub).
      rewrite Hperm. apply NoDup_fst_map_to_list.
  - apply firstn_le_length.
  - apply Forall_take. rewrite Hperm. apply Forall_forall. intros [k v] Hin.
    by apply elem_of_map_to_list in Hin.
Qed.

(** The label by cases on the number [c] of results. *)
Lemma progress_cases (stands_number c : Z) :
  Storage.progress stands_number c
  = if decide (stands_number = -1) then "Заполнена очередь"
    else if decide (c < stands_number)
         then "Выполняется (" ++ pretty c ++ "/" ++ pretty stands_number ++ ")"
         else "Готово".
Proof.
  unfold Storage.progress.
  destruct (Z.eqb_spec stands_number (-1)), (decide (stands_number = -1)); try done.
  destruct (Z.ltb_spec 0 (stands_number - c)), (decide (c < stands_number));
    try done; lia.
Qed.

(** C8.  On a connected store, whatever the tables hold, [latest_queries]
    returns, without changing anything, at most 25 rows whose ids are
    strictly descending; each row is a query of the store, and its label
    is derived from the number [c] of result rows of that query: the
    queue-full label when the stand count is -1, "running (c/n)" when
    [c] is below the stand count [n], and "done" otherwise.  A query
    with 2 of 3 results is listed as running (2/3). *)
Theorem latest_queries_listing (s : Storage.t) (h : handle) (d : Storage.Db) :
  let connected := SQLiteDB.set_connection (Some h) s in
  exists rows,
    Storage.latest_queries (connected, d) = (Ok rows, (connected, d)) /\
    (List.length rows <= 25)%nat /\
    StronglySorted (fun a b : Z => b < a) (map (fun r => r.1.1.1) rows) /\
    Forall (fun r =>
              exists row, Storage.user_query d !! r.1.1.1 = Some row /\
                let n := Storage.stands_number row in
                let c := Z.of_nat (size (filter (fun kr => Storage.query_id kr.2 = r.1.1.1)
                                           (Storage.query_result d))) in
                r.2 = if decide (n = -1) then "Заполнена очередь"
                      else if decide (c < n)
                           then "Выполняется (" ++ pretty c ++ "/" ++ pretty n ++ ")"
                           else "Готово") rows /\
    Storage.latest_queries (Sample.open_storage, Sample.two_of_three)
    = (Ok [(1, "2024-01-12 09:30:00", "select count(*) from t", "Выполняется (2/3)")],
       (Sample.open_storage, Sample.two_of_three)).
Proof.
  intros connected.
  destruct (latest_sorted d) as (Hsorted & Hlen & Hrows).
  eexists. split; [reflexivity|]. split; [| split; [| split]].
  - rewrite length_map. exact Hlen.
  - rewrite <- list_fmap_compose. exact Hsorted.
  - apply Forall_fmap. eapply Forall_impl; [exact Hrows|].
    intros [k row] Hk. exists row. split; [exact Hk|].
    cbn. apply progress_cases.
  - vm_compute. reflexivity.
Qed.

(** ** SyntaxHighlighter: the screening of relational text *)

Lemma length_casefold (s : string) : String.length (Str.casefold s) = String.length s.
Proof. induction s; cbn; congruence. Qed.

Lemma length_str_take (n : nat) (s : string) : (String.length (Str.take n s) <= n)%nat.
Proof. revert s. induction n; intros [|c s]; cbn; try lia. specialize (IHn s). lia. Qed.

Lemma startswith_slice (p : string) (n : nat) (s : string) :
  (String.length p <= n)%nat ->
  Str.startswith (Str.casefold (Str.take n s)) p = Str.startswith (Str.casefold s) p.
Proof.
  revert n s. induction p as [|a p IH]; intros n s Hn.
  - destruct n, s; reflexivity.
  - cbn in Hn. destruct n as [|n]; [lia|]. destruct s as [|c s]; [reflexivity|].
    cbn. destruct (Ascii.eqb a (Str.casefold_char c)); [apply IH; lia | reflexivity].
Qed.

Lemma eqb_startswith (s p : string) :
  (String.length s <= String.length p)%nat -> String.eqb s p = Str.startswith s p.
Proof.
  revert s. induction p as [|a p IH]; intros [|c s] Hlen; cbn in *; try reflexivity; try lia.
  rewrite Ascii.eqb_sym. destruct (Ascii.eqb a c); [apply IH; lia | reflexivity].
Qed.

Lemma startswith_app (s p r : string) :
  Str.startswith s (p ++ r) = true -> Str.startswith s p = true.
Proof.
  revert s. induction p as [|a p IH]; intros s; [destruct s; reflexivity|].
  change (String a p ++ r) with (String a (p ++ r)).
  destruct s as [|c s]; cbn; [done|]. destruct (Ascii.eqb a c); [apply IH | done].
Qed.

Lemma screened_spec (text : string) :
  (let entry_slice := Str.casefold (Str.take 9 text) in
   Str.startswith_any entry_slice SyntaxHighlighter.data_statements
   || Str.startswith_any entry_slice SyntaxHighlighter.schema_statements
   || String.eqb entry_slice "truncate ")
  = existsb (fun kw => Str.startswith (Str.casefold text) (kw ++ " ")) Spec.forbidden_keywords.
Proof.
  unfold Str.startswith_any, SyntaxHighlighter.data_statements,
    SyntaxHighlighter.schema_statements, Spec.forbidden_keywords.
  cbn [existsb]. cbv [String.append].
  rewrite eqb_startswith by (rewrite length_casefold; apply length_str_take).
  rewrite !startswith_slice by (cbn; lia).
  rewrite !orb_false_r, <- !orb_assoc. reflexivity.
Qed.

Lemma syntaxes_run (names : list string) (w : World) :
  (forall n, n ∈ names -> is_Some (lookup_stand n (stands w))) ->
  SyntaxHighlighter.syntaxes names w = (Ok (Spec.syntaxes_of (stands w) names), w).
Proof.
  induction names as [|n names IH]; intros Hall; [reflexivity|].
  destruct (Hall n) as [s Hs]; [left|].
  cbn [SyntaxHighlighter.syntaxes]. unfold bind at 1, stand at 1. rewrite Hs.
  unfold bind at 1. rewrite IH by (intros m Hm; apply Hall; by right).
  unfold Spec.syntaxes_of. cbn [omap list_omap]. rewrite Hs. reflexivity.
Qed.

Lemma remove_dups_constant {A} `{EqDecision A} (x : A) (l : list A) :
  l <> [] -> (forall y, y ∈ l -> y = x) -> remove_dups l = [x].
Proof.
  induction l as [|a l IH]; [done|]. intros _ Hall.
  assert (a = x) as -> by (apply Hall; left).
  destruct l as [|b l]; [reflexivity|].
  change (remove_dups (x :: b :: l))
    with (if decide_rel elem_of x (b :: l)
          then remove_dups (b :: l) else x :: remove_dups (b :: l)).
  destruct (decide_rel elem_of x (b :: l)) as [|Hn].
  - apply IH; [done|]. intros y Hy. apply Hall. by right.
  - exfalso. apply Hn. assert (b = x) as -> by (apply Hall; right; left). left.
Qed.

Lemma syntaxes_of_relational (l : list Stand.t) (names : list string) :
  names <> [] ->
  (forall n, n ∈ names -> Stand.syntax <$> lookup_stand n l = Some SQL) ->
  remove_dups (Spec.syntaxes_of l names) = [SQL].
Proof.
  intros Hne Hall. apply remove_dups_constant.
  - destruct names as [|n names]; [done|]. unfold Spec.syntaxes_of. cbn.
    rewrite (Hall n) by left. done.
  - intros y Hy. unfold Spec.syntaxes_of in Hy. apply list_elem_of_omap in Hy.
    destruct Hy as (n & Hn & Hy). rewrite (Hall n Hn) in Hy. congruence.
Qed.

Lemma is_valid_entry_relational `{JsonParser} (w : World) (names : list string) (text : string) :
  names <> [] ->
  highlight_choice w = SQL ->
  (forall n, n ∈ names -> Stand.syntax <$> lookup_stand n (stands w) = Some SQL) ->
  text <> "" ->
  if existsb (fun kw => Str.startswith (Str.casefold text) (kw ++ " ")) Spec.forbidden_keywords
  then exists m, SyntaxHighlighter.is_valid_entry text names w
                 = (Ok false, set_messages (messages w ++ [m]) w)
  else SyntaxHighlighter.is_valid_entry text names w = (Ok true, w).
Proof.
  intros Hne Hsql Hall Htext. rewrite <- screened_spec. cbv zeta.
  assert (Hrun : SyntaxHighlighter.is_valid_entry text names w
    = let entry_slice := Str.casefold (Str.take 9 text) in
      if Str.startswith_any entry_slice SyntaxHighlighter.data_statements
      then (Ok false, set_messages (messages w ++
              [showerror "Ошибка" "Редактирование данных не поддерживается"]) w)
      else if Str.startswith_any entry_slice SyntaxHighlighter.schema_statements
      then (Ok false, set_messages (messages w ++
              [showerror "Ошибка" "Редактирование схемы не поддерживается"]) w)
      else if String.eqb entry_slice "truncate "
      then (Ok false, set_messages (messages w ++
              [showerror "Ошибка" "Очистка таблицы не поддерживается"]) w)
      else (Ok true, w)).
  { unfold SyntaxHighlighter.is_valid_entry.
    destruct text as [|c text]; [done|]. cbn [String.length Nat.eqb].
    unfold bind at 1. rewrite syntaxes_run.
    2:{ intros n Hn. specialize (Hall n Hn).
        destruct (lookup_stand n (stands w)); [eauto | done]. }
    rewrite (syntaxes_of_relational _ _ Hne Hall). cbn [List.length Nat.ltb Nat.leb].
    unfold bind at 1, get at 1. rewrite Hsql.
    rewrite bool_decide_eq_true_2 by left. cbn [negb]. cbv zeta.
    destruct (Str.startswith_any _ SyntaxHighlighter.data_statements); [reflexivity|].
    destruct (Str.startswith_any _ SyntaxHighlighter.schema_statements); [reflexivity|].
    destruct (String.eqb _ "truncate "); reflexivity. }
  rewrite Hrun. cbv zeta.
  destruct (Str.startswith_any _ SyntaxHighlighter.data_statements); [eexists; reflexivity|].
  destruct (Str.startswith_any _ SyntaxHighlighter.schema_statements); [eexists; reflexivity|].
  destruct (String.eqb _ "truncate "); [eexists; reflexivity | reflexivity].
Qed.


Lemma get_user_entry_run `{JsonParser} (names : list string) (w : World) :
  Wgui.get_user_entry names w
  = let text := Str.strip (entry w ++ String Storage.newline EmptyString) in
    match SyntaxHighlighter.is_valid_entry text names w with
    | (Ok true, w') => (Ok text, w')
    | (Ok false, w') => (Ok "", w')
    | (Raise e, w') => (Raise e, w')
    end.
Proof.
  unfold Wgui.get_user_entry, bind, get. cbv zeta.
  destruct (SyntaxHighlighter.is_valid_entry _ names w) as [[[]|] w']; reflexivity.
Qed.

Lemma is_valid_entry_empty `{JsonParser} (names : list string) (w : World) :
  SyntaxHighlighter.is_valid_entry "" names w
  = (Ok false,
     set_messages (messages w ++ [showerror "Ошибка" "Заполните поле для запроса"]) w).
Proof. reflexivity. Qed.

(** C4, as amended.  For a relational submission (relational syntax
    chosen, every selected stand relational), with [text] the query text
    without its surrounding white space: an empty [text] is rejected; a
    [text] that begins, whatever the case of its letters, with one of
    insert, update, delete, drop, alter, create, comment, truncate
    followed by a space is rejected; a non-empty [text] that begins with
    none of these eight words is accepted and returned.  "DELETE FROM t"
    is rejected and "SELECT 1" is accepted. *)
Theorem relational_text_screening `{JsonParser} (w : World) (names : list string) :
  names <> [] ->
  highlight_choice w = SQL ->
  (forall n, n ∈ names -> Stand.syntax <$> lookup_stand n (stands w) = Some SQL) ->
  let text := Str.strip (entry w ++ String Storage.newline EmptyString) in
  (text = "" -> exists w', Wgui.get_user_entry names w = (Ok "", w')) /\
  (forall kw, kw ∈ Spec.forbidden_keywords ->
     Str.startswith (Str.casefold text) (kw ++ " ") = true ->
     exists w', Wgui.get_user_entry names w = (Ok "", w')) /\
  (text <> "" ->
   (forall kw, kw ∈ Spec.forbidden_keywords ->
      Str.startswith (Str.casefold text) kw = false) ->
   Wgui.get_user_entry names w = (Ok text, w)) /\
  (entry w = "DELETE FROM t" -> exists w', Wgui.get_user_entry names w = (Ok "", w')) /\
  (entry w = "SELECT 1" -> Wgui.get_user_entry names w = (Ok "SELECT 1", w)).
Proof.
  intros Hne Hsql Hall text.
  assert (Hscreen : text <> "" ->
    if existsb (fun kw => Str.startswith (Str.casefold text) (kw ++ " "))
         Spec.forbidden_keywords
    then exists w', Wgui.get_user_entry names w = (Ok "", w')
    else Wgui.get_user_entry names w = (Ok text, w)).
  { intros Htext. rewrite get_user_entry_run. cbv zeta. fold text.
    pose proof (is_valid_entry_relational w names text Hne Hsql Hall Htext) as Hv.
    destruct (existsb _ _).
    - destruct Hv as [m ->]. eauto.
    - rewrite Hv. reflexivity. }
  split; [| split; [| split; [| split]]].
  - intros Hempty. rewrite get_user_entry_run. cbv zeta. fold text.
    rewrite Hempty, is_valid_entry_empty. eauto.
  - intros kw Hkw Hstarts.
    assert (Htext : text <> "").
    { intros E. rewrite E in Hstarts.
      destruct kw; discriminate. }
    specialize (Hscreen Htext).
    destruct (existsb _ _) eqn:Hex; [exact Hscreen|].
    exfalso. apply not_true_iff_false in Hex. apply Hex, existsb_exists.
    exists kw. split; [by apply list_elem_of_In | exact Hstarts].
  - intros Htext Hnone. specialize (Hscreen Htext).
    destruct (existsb _ _) eqn:Hex; [| exact Hscreen].
    exfalso. apply existsb_exists in Hex. destruct Hex as (kw & Hkw & Hstarts).
    apply startswith_app in Hstarts.
    rewrite Hnone in Hstarts by (by apply list_elem_of_In). discriminate.
  - intros Hentry. subst text. rewrite Hentry in Hscreen.
    apply (Hscreen ltac:(discriminate)).
  - intros Hentry. subst text. rewrite Hentry in Hscreen.
    apply (Hscreen ltac:(discriminate)).
Qed.

Lemma relational_text_screening_witness :
  exists w',
    Wgui.get_user_entry (H := Sample.loads_empty_filter) ["A"]
      (Sample.relational_world "DELETE FROM t") = (Ok "", w').
Proof.
  refine (proj1 (proj2 (proj2 (proj2
            (relational_text_screening (H := Sample.loads_empty_filter)
               (Sample.relational_world "DELETE FROM t") ["A"] _ _ _)))) _).
  - discriminate.
  - reflexivity.
  - intros n Hn. apply list_elem_of_singleton in Hn. subst n. reflexivity.
  - reflexivity.
Defined.

(** C4 as stated fails on the empty text: it is rejected, though it
    begins with no statement at all. *)
Lemma empty_text_rejected :
  ~ ((exists w',
        Wgui.get_user_entry (H := Sample.loads_empty_filter) ["A"]
          (Sample.relational_world "") = (Ok "", w'))
     <-> Spec.begins_with_forbidden (entry (Sample.relational_world "")) = true).
Proof.
  intros [Hto _].
  assert (Hno : Spec.begins_with_forbidden (entry (Sample.relational_world "")) = false)
    by reflexivity.
  rewrite Hto in Hno; [discriminate|].
  exists (Wgui.get_user_entry (H := Sample.loads_empty_filter) ["A"]
            (Sample.relational_world "")).2.
  reflexivity.
Qed.

(** The words are recognised by the space that follows them: the same
    statement with a tab after the word passes the screening. *)
Lemma keyword_then_tab_accepted :
  let text := "delete" ++ String "009"%char "from t" in
  Spec.begins_with_forbidden text = true /\
  Wgui.get_user_entry (H := Sample.loads_empty_filter) ["A"] (Sample.relational_world text)
  = (Ok text, Sample.relational_world text).
Proof. split; reflexivity. Qed.

(** ** Wgui: validation of a submission *)

Lemma get_fetch_size_cases (w : World) :
  (exists n, Str.int (fetch_size w) = Some n /\ 1 <= n /\
             Wgui.get_fetch_size w = (Ok n, w)) \/
  ((forall n, Str.int (fetch_size w) = Some n -> n < 1) /\
   exists m, Wgui.get_fetch_size w = (Ok (-1), set_messages (messages w ++ [m]) w)).
Proof.
  unfold Wgui.get_fetch_size, bind, get, Wgui.is_positive_int.
  destruct (fetch_size w) as [|c s] eqn:Hf.
  - right. split; [intros n; discriminate | eexists; reflexivity].
  - cbn [String.length Nat.eqb].
    destruct (Str.int (String c s)) as [n|] eqn:Hint.
    + destruct (Z.ltb_spec n 1).
      * right. split; [intros ? [= <-]; lia | eexists; reflexivity].
      * left. exists n. split; [reflexivity|]. split; [lia|].
        destruct (n <? 1) eqn:E; [lia | reflexivity].
    + right. split; [intros n; discriminate | eexists; reflexivity].
Qed.



Lemma single_class {A} `{EqDecision A} (l : list A) (a b : A) :
  (1 <? List.length (remove_dups l))%nat = false -> a ∈ l -> b ∈ l -> a = b.
Proof.
  intros Hlen Ha%elem_of_remove_dups Hb%elem_of_remove_dups.
  destruct (remove_dups l) as [|x [|y r]]; [by apply not_elem_of_nil in Ha | | discriminate].
  apply list_elem_of_singleton in Ha, Hb. congruence.
Qed.

Lemma is_valid_entry_run `{JsonParser} (text : string) (names : list string) (w : World) :
  (forall n, n ∈ names -> is_Some (lookup_stand n (stands w))) ->
  SyntaxHighlighter.is_valid_entry text names w
  = let no m := (Ok false, set_messages (messages w ++ [m]) w) in
    let classes := remove_dups (Spec.syntaxes_of (stands w) names) in
    let entry_slice := Str.casefold (Str.take 9 text) in
    if (String.length text =? 0)%nat
    then no (showerror "Ошибка" "Заполните поле для запроса")
    else if (1 <? List.length classes)%nat
    then no (showerror "Ошибка" "Выбраны стенды с разными синтаксисами")
    else if negb (bool_decide (highlight_choice w ∈ classes))
    then no (showerror "Ошибка" "Выбранный синтаксис отличается от синтаксиса стендов")
    else match highlight_choice w with
         | SQL =>
             if Str.startswith_any entry_slice SyntaxHighlighter.data_statements
             then no (showerror "Ошибка" "Редактирование данных не поддерживается")
             else if Str.startswith_any entry_slice SyntaxHighlighter.schema_statements
             then no (showerror "Ошибка" "Редактирование схемы не поддерживается")
             else if String.eqb entry_slice "truncate "
             then no (showerror "Ошибка" "Очистка таблицы не поддерживается")
             else (Ok true, w)
         | MONGO =>
             match json_loads text with
             | None => no (showerror "Ошибка" "Некорректный синтаксис для поиска")
             | Some _ => (Ok true, w)
             end
         end.
Proof.
  intros Hfound. unfold SyntaxHighlighter.is_valid_entry. cbv zeta.
  destruct (String.length text =? 0)%nat; [reflexivity|].
  unfold bind at 1. rewrite (syntaxes_run _ _ Hfound).
  destruct (1 <? List.length _)%nat; [reflexivity|].
  unfold bind at 1, get at 1.
  destruct (negb _); [reflexivity|].
  destruct (highlight_choice w).
  - destruct (Str.startswith_any _ SyntaxHighlighter.data_statements); [reflexivity|].
    destruct (Str.startswith_any _ SyntaxHighlighter.schema_statements); [reflexivity|].
    destruct (String.eqb _ "truncate "); reflexivity.
  - destruct (json_loads text); reflexivity.
Qed.

Lemma is_valid_entry_cases `{JsonParser} (text : string) (names : list string) (w : World) :
  (forall n, n ∈ names -> is_Some (lookup_stand n (stands w))) ->
  let classes := Spec.syntaxes_of (stands w) names in
  (SyntaxHighlighter.is_valid_entry text names w = (Ok true, w) /\
   text <> "" /\
   (forall a b, a ∈ classes -> b ∈ classes -> a = b) /\
   highlight_choice w ∈ classes /\
   (highlight_choice w = SQL ->
    existsb (fun kw => Str.startswith (Str.casefold text) (kw ++ " "))
      Spec.forbidden_keywords = false) /\
   (highlight_choice w = MONGO -> is_Some (json_loads text))) \/
  (exists m, SyntaxHighlighter.is_valid_entry text names w
             = (Ok false, set_messages (messages w ++ [m]) w)).
Proof.
  intros Hfound classes. rewrite (is_valid_entry_run _ _ _ Hfound). cbv zeta.
  fold classes.
  destruct text as [|c text]; [right; eexists; reflexivity|].
  cbn [String.length Nat.eqb].
  destruct (1 <? List.length (remove_dups classes))%nat eqn:Hone;
    [right; eexists; reflexivity|].
  destruct (bool_decide (highlight_choice w ∈ remove_dups classes)) eqn:Hin;
    [| right; eexists; reflexivity].
  apply bool_decide_eq_true_1 in Hin. rewrite elem_of_remove_dups in Hin. cbn [negb].
  pose proof (screened_spec (String c text)) as Hscreen. cbv zeta in Hscreen.
  destruct (highlight_choice w) eqn:Hchoice.
  - destruct (Str.startswith_any _ SyntaxHighlighter.data_statements);
      [right; eexists; reflexivity|].
    destruct (Str.startswith_any _ SyntaxHighlighter.schema_statements);
      [right; eexists; reflexivity|].
    destruct (String.eqb _ "truncate "); [right; eexists; reflexivity|].
    left. split; [reflexivity|]. split; [done|].
    split; [intros a b; by apply single_class|]. split; [exact Hin|].
    split; [intros _; by rewrite <- Hscreen | discriminate].
  - destruct (json_loads (String c text)) eqn:Hjson; [| right; eexists; reflexivity].
    left. split; [reflexivity|]. split; [done|].
    split; [intros a b; by apply single_class|]. split; [exact Hin|].
    split; [discriminate | eauto].
Qed.




(** ** Wgui: fan-out into a bounded queue *)

Lemma max_key_upper (l : list Z) (k : Z) :
  k ∈ l ->
  exists a, foldr (fun k acc => Some (match acc with None => k | Some a => Z.max k a end))
              None l = Some a /\ k <= a.
Proof.
  induction l as [|x l IH]; [by intros ?%not_elem_of_nil|].
  intros [->|Hin]%elem_of_cons; cbn.
  - destruct (foldr _ None l); eexists; split; try reflexivity; lia.
  - destruct (IH Hin) as (a & -> & Ha). eexists; split; [reflexivity | lia].
Qed.

Lemma next_rowid_fresh {A} (m : gmap Z A) : m !! Storage.next_rowid m = None.
Proof.
  destruct (m !! Storage.next_rowid m) as [v|] eqn:Hv; [| reflexivity].
  exfalso. apply elem_of_map_to_list in Hv.
  assert (Hk : Storage.next_rowid m ∈ map fst (map_to_list m)).
  { apply list_elem_of_fmap. eexists. split; [| exact Hv]. reflexivity. }
  apply max_key_upper in Hk. destruct Hk as (a & Ha & Hle).
  unfold Storage.next_rowid, Storage.max_rowid in Hle. rewrite Ha in Hle. lia.
Qed.

Lemma enqueue_run (names : list string) (id : Z) (text : string) (n : Z) (w : World)
    (room : nat) :
  SQLiteDB.connection (storage w) <> None ->
  room = Z.to_nat (MAX_QUEUE_SIZE w - Z.of_nat (List.length (q w))) ->
  Wgui.enqueue names id text n w
  = if (List.length names <=? room)%nat
    then (Ok tt, set_q (q w ++ map (fun name => QueryTask.new name id text n) names) w)
    else (Ok tt,
          set_messages
            (messages w ++ [showinfo "Инфо" "Очередь заполнена, дождитесь выполнения задач"])
            (set_internal_db
               (Storage.set_user_query
                  (alter (fun r => {| Storage.stands_number := -1;
                                      Storage.syntax := Storage.syntax r;
                                      Storage.created_at := Storage.created_at r;
                                      Storage.content := Storage.content r |})
                     id (Storage.user_query (internal_db w))) (internal_db w))
               (set_q (q w ++ map (fun name => QueryTask.new name id text n) (take room names)) w))).
Proof.
  revert w room. induction names as [|name names IH]; intros w room Hconn Hroom.
  - cbn. rewrite app_nil_r. destruct w; reflexivity.
  - cbn [Wgui.enqueue]. unfold bind at 1, get at 1.
    destruct (Z.ltb_spec (Z.of_nat (List.length (q w))) (MAX_QUEUE_SIZE w)) as [Hlt|Hge].
    + destruct room as [|room]; [lia|].
      unfold bind at 1, put at 1. rewrite (IH _ room).
      * cbn [q set_q MAX_QUEUE_SIZE messages internal_db List.length Nat.leb take map].
        rewrite <- !app_assoc. reflexivity.
      * exact Hconn.
      * cbn [q set_q MAX_QUEUE_SIZE]. rewrite length_app. cbn [List.length]. lia.
    + assert (room = 0%nat) as -> by lia.
      cbn [List.length Nat.leb take map]. rewrite app_nil_r.
      destruct (SQLiteDB.connection (storage w)) as [h|] eqn:Hc; [| done].
      cbv [bind on_storage_db zoom Storage.mark_incomplete self io modify messagebox
           fst snd ret Storage.no_connection].
      rewrite Hc. destruct w; reflexivity.
Qed.

Lemma save_query_run (syntax : Z) (text : string) (k : Z) (w : World) :
  SQLiteDB.connection (storage w) <> None ->
  on_storage_db (Storage.save_query syntax text k) w
  = (Ok (Storage.next_rowid (Storage.user_query (internal_db w))),
     set_internal_db
       (Storage.set_user_query
          (<[Storage.next_rowid (Storage.user_query (internal_db w)) :=
               {| Storage.stands_number := k; Storage.syntax := syntax;
                  Storage.created_at := Storage.current_timestamp (internal_db w);
                  Storage.content := text |}]> (Storage.user_query (internal_db w)))
          (internal_db w)) w).
Proof.
  intros Hconn.
  destruct (SQLiteDB.connection (storage w)) as [h|] eqn:Hc; [| done].
  cbv [bind on_storage_db zoom Storage.save_query self io modify get put fst snd ret
       Storage.no_connection].
  rewrite Hc. destruct w; reflexivity.
Qed.

(** C2.  For a submission that passes validation (a limit [n] of at least
    1, a non-empty accepted [text]) on a connected store, when the queue
    has room for fewer tasks than there are selected stands: the query
    row is created under a fresh id; tasks are put for the first [room]
    selected stands, in order, behind the tasks already queued, and for
    no other stand; the stand count of the query row becomes -1, no
    other row changes; and the user is told the queue is full. *)
Theorem saturated_queue_cuts_fanout `{JsonParser} (w : World) (n : Z) (text : string) :
  let selected := Wgui.selected_names (stands w) in
  let id := Storage.next_rowid (Storage.user_query (internal_db w)) in
  let room := Z.to_nat (MAX_QUEUE_SIZE w - Z.of_nat (List.length (q w))) in
  Wgui.get_fetch_size w = (Ok n, w) -> 1 <= n ->
  Wgui.get_user_entry selected w = (Ok text, w) -> text <> "" ->
  SQLiteDB.connection (storage w) <> None ->
  (room < List.length selected)%nat ->
  exists w',
    Wgui.create_tasks w = (Ok tt, w') /\
    q w' = (q w ++ map (fun name => QueryTask.new name id text n)
                     (take room selected))%list /\
    Storage.user_query (internal_db w) !! id = None /\
    Storage.user_query (internal_db w') !! id
    = Some {| Storage.stands_number := -1;
              Storage.syntax := Syntax_value (highlight_choice w);
              Storage.created_at := Storage.current_timestamp (internal_db w);
              Storage.content := text |} /\
    (forall k, k <> id ->
       Storage.user_query (internal_db w') !! k = Storage.user_query (internal_db w) !! k) /\
    messages w'
    = (messages w ++ [showinfo "Инфо" "Очередь заполнена, дождитесь выполнения задач"])%list.
Proof.
  intros selected id room Hlimit Hn Hentry Htext Hconn Hroom.
  destruct (Wgui.create_tasks w) as [r w'] eqn:Hrun.
  unfold Wgui.create_tasks in Hrun. unfold bind at 1 in Hrun. rewrite Hlimit in Hrun.
  destruct (Z.ltb_spec n 1); [lia|]. unfold bind at 1, get at 1 in Hrun.
  fold selected in Hrun.
  destruct selected as [|name rest] eqn:Hsel; [cbn in Hroom; lia|].
  unfold bind at 1 in Hrun. rewrite Hentry in Hrun.
  destruct text as [|c text]; [done|]. cbn [String.length Nat.eqb] in Hrun.
  unfold bind at 1, get at 1 in Hrun. unfold bind at 1 in Hrun.
  rewrite (save_query_run _ _ _ _ Hconn) in Hrun.
  rewrite (enqueue_run _ _ _ _ _ room) in Hrun; [| exact Hconn | reflexivity].
  destruct (Nat.leb_spec (List.length (name :: rest)) room); [lia|].
  injection Hrun as <- <-. eexists. split; [reflexivity|].
  cbn [q set_q set_messages set_internal_db internal_db messages
       Storage.user_query Storage.set_user_query].
  split; [reflexivity|]. split; [apply next_rowid_fresh|].
  split; [| split; [| reflexivity]].
  - rewrite lookup_alter_eq, lookup_insert_eq. reflexivity.
  - intros k Hk. rewrite lookup_alter_ne, lookup_insert_ne by done. reflexivity.
Qed.

Lemma saturated_queue_cuts_fanout_witness :
  exists w',
    Wgui.create_tasks (H := Sample.loads_empty_filter) Sample.crowded_world = (Ok tt, w') /\
    q w' = [Sample.earlier_task; QueryTask.new "A" 1 "SELECT 1" 25] /\
    Storage.stands_number <$> Storage.user_query (internal_db w') !! 1 = Some (-1).
Proof.
  assert (Hlimit : Wgui.get_fetch_size Sample.crowded_world
                   = (Ok 25, Sample.crowded_world)) by reflexivity.
  assert (Hn : 1 <= 25) by lia.
  assert (Hentry : Wgui.get_user_entry (H := Sample.loads_empty_filter)
                     (Wgui.selected_names (stands Sample.crowded_world))
                     Sample.crowded_world
                   = (Ok "SELECT 1", Sample.crowded_world)) by reflexivity.
  assert (Htext : "SELECT 1" <> "") by discriminate.
  assert (Hconn : SQLiteDB.connection (storage Sample.crowded_world) <> None)
    by discriminate.
  assert (Hroom : (Z.to_nat (MAX_QUEUE_SIZE Sample.crowded_world
                             - Z.of_nat (List.length (q Sample.crowded_world)))
                   < List.length (Wgui.selected_names (stands Sample.crowded_world)))%nat)
    by (apply Nat.ltb_lt; reflexivity).
  destruct (saturated_queue_cuts_fanout (H := Sample.loads_empty_filter)
              Sample.crowded_world 25 "SELECT 1" Hlimit Hn Hentry Htext Hconn Hroom)
    as (w' & Hrun & Hq & _ & Hrow & _ & _).
  exists w'. split; [exact Hrun|]. split; [exact Hq|].
  change (Storage.stands_number <$>
            Storage.user_query (internal_db w')
            !! Storage.next_rowid (Storage.user_query (internal_db Sample.crowded_world))
          = Some (-1)).
  rewrite Hrow. reflexivity.
Defined.

(** ** PostgresDB: a closed connection, and other errors *)

Lemma net_at_set_net (a : string) (n : Net) (e : Env) : net_at (set_net a n e) a = n.
Proof. unfold net_at, set_net. cbn. by rewrite lookup_insert_eq. Qed.

Lemma fetchmany_connected (d : nat) (query : string) (size : Z) (p : PostgresDB.t)
    (h : handle) (e : Env) :
  PostgresDB.connection p = Some h ->
  PostgresDB.fetchmany (S d) query size (p, e)
  = match Driver.execute h query size e with
    | (Ok rs, e1) => (Ok rs, (p, e1))
    | (Raise (DriverError OperationalError msg), e1) =>
        if String.eqb msg "the connection is closed"
        then PostgresDB.fetchmany d query size (PostgresDB.set_connection None p, e1)
        else (Raise (DBError ("Ошибка при запросе к БД: " ++ msg)), (p, e1))
    | (Raise (DriverError ProgrammingError msg), e1) =>
        (Raise (DBError ("Ошибка при запросе к БД: " ++ msg)), (p, e1))
    | (Raise x, e1) => (Raise x, (p, e1))
    end.
Proof.
  destruct p as [a c r]. cbn [PostgresDB.connection]. intros ->.
  cbn [PostgresDB.fetchmany]. run.
  destruct (Driver.execute h query size e) as [[rs|x] e1]; [reflexivity|].
  destruct x as [| [] msg | | | | | | | |]; try reflexivity.
  destruct (String.eqb msg "the connection is closed"); reflexivity.
Qed.

Lemma reconnect_run (p : PostgresDB.t) (e : Env) :
  PostgresDB.connection p = None ->
  PostgresDB.reconnect (p, e)
  = if 3 <? PostgresDB.reconnects p
    then (Raise (DBError "Превышено количетсво попыток соединения с БД"), (p, e))
    else match Driver.connect (PostgresDB.dsn p) (Driver.sleep 5 e).2 with
         | (Ok h, e2) =>
             (Ok tt, ({| PostgresDB.dsn := PostgresDB.dsn p;
                         PostgresDB.connection := Some h;
                         PostgresDB.reconnects := 1 |}, e2))
         | (Raise (DriverError OperationalError msg), e2) =>
             (Raise (DBError ("Ошибка соединения с БД: " ++ msg)), (p, e2))
         | (Raise x, e2) => (Raise x, (p, e2))
         end.
Proof.
  destruct p as [a c r]. cbn [PostgresDB.connection PostgresDB.reconnects PostgresDB.dsn].
  intros ->. run. destruct (3 <? r); [reflexivity|].
  cbv [Driver.sleep]. cbn [snd].
  destruct (Driver.connect _ _) as [[h|x] e2]; [reflexivity|].
  destruct x as [| [] msg | | | | | | | |]; reflexivity.
Qed.

Lemma fetchmany_disconnected (d : nat) (query : string) (size : Z) (p : PostgresDB.t)
    (e : Env) :
  PostgresDB.connection p = None ->
  PostgresDB.fetchmany (S d) query size (p, e)
  = match PostgresDB.reconnect (p, e) with
    | (Ok _, s1) => PostgresDB.fetchmany d query size s1
    | (Raise x, s1) => (Raise x, s1)
    end.
Proof.
  intros Hc. cbn [PostgresDB.fetchmany]. unfold bind at 1, self at 1. cbn [fst].
  rewrite Hc. unfold bind at 1. destruct (PostgresDB.reconnect (p, e)) as [[[]|x] s1]; reflexivity.
Qed.

Lemma execute_run (h : handle) (query : string) (size : Z) (e : Env) :
  Driver.execute h query size e
  = (match on_execute (server e (h_addr h))
             (List.length (executed (net_at e (h_addr h)))) query with
     | Rows rs => Ok (take (Z.to_nat size) rs)
     | Fails cls msg => Raise (DriverError cls msg)
     end,
     set_net (h_addr h)
       {| attempts := attempts (net_at e (h_addr h));
          opened := opened (net_at e (h_addr h));
          closed := closed (net_at e (h_addr h));
          executed := executed (net_at e (h_addr h)) ++ [(query, size)] |} e).
Proof. unfold Driver.execute. destruct (on_execute _ _ _); reflexivity. Qed.

Lemma connect_run (addr : string) (e : Env) :
  Driver.connect addr e
  = match on_connect (server e addr) (attempts (net_at e addr)) with
    | None =>
        (Ok {| h_addr := addr; h_serial := opened (net_at e addr) |},
         set_net addr {| attempts := S (attempts (net_at e addr));
                         opened := S (opened (net_at e addr));
                         closed := closed (net_at e addr);
                         executed := executed (net_at e addr) |} e)
    | Some (cls, msg) =>
        (Raise (DriverError cls msg),
         set_net addr {| attempts := S (attempts (net_at e addr));
                         opened := opened (net_at e addr);
                         closed := closed (net_at e addr);
                         executed := executed (net_at e addr) |} e)
    end.
Proof. reflexivity. Qed.

Lemma server_set_net (a : string) (n : Net) (e : Env) : server (set_net a n e) = server e.
Proof. reflexivity. Qed.

Lemma slept_set_net (a : string) (n : Net) (e : Env) : slept (set_net a n e) = slept e.
Proof. reflexivity. Qed.

Lemma sleep_run (seconds : Z) (e : Env) :
  server (Driver.sleep seconds e).2 = server e /\
  (forall a, net_at (Driver.sleep seconds e).2 a = net_at e a) /\
  slept (Driver.sleep seconds e).2 = (slept e ++ [seconds])%list.
Proof. repeat split. Qed.






(** ** PostgresDB: the retry counter *)

Lemma refused_call (d : nat) (query : string) (size : Z) (p : PostgresDB.t) (e : Env)
    (msg : string) :
  PostgresDB.connection p = None ->
  PostgresDB.reconnects p <= 3 ->
  on_connect (server e (PostgresDB.dsn p)) (attempts (net_at e (PostgresDB.dsn p)))
  = Some (OperationalError, msg) ->
  PostgresDB.fetchmany (S d) query size (p, e)
  = (Raise (DBError ("Ошибка соединения с БД: " ++ msg)),
     (p, set_net (PostgresDB.dsn p)
           {| attempts := S (attempts (net_at e (PostgresDB.dsn p)));
              opened := opened (net_at e (PostgresDB.dsn p));
              closed := closed (net_at e (PostgresDB.dsn p));
              executed := executed (net_at e (PostgresDB.dsn p)) |}
           (Driver.sleep 5 e).2)).
Proof.
  intros Hc Hcount Hrefused.
  rewrite (fetchmany_disconnected _ _ _ _ _ Hc), (reconnect_run _ _ Hc).
  destruct (Z.ltb_spec 3 (PostgresDB.reconnects p)); [lia|].
  destruct (sleep_run 5 e) as (Hserver & Hnet & _).
  rewrite connect_run, Hserver, Hnet, Hrefused. reflexivity.
Qed.

Lemma after_calls_refusing (k : nat) :
  let s := Sample.after_calls k Sample.never_connected in
  s.1 = PostgresDB.new "host=A" /\
  server s.2 = (fun _ => Sample.refusing) /\
  attempts (net_at s.2 "host=A") = k /\
  slept s.2 = replicate k 5.
Proof.
  induction k as [|k IH]; [repeat split|].
  cbn zeta in *. destruct IH as (Hp & Hserver & Hattempts & Hslept).
  change (Sample.after_calls (S k) Sample.never_connected)
    with ((PostgresDB.fetchmany recursion_limit "select 1" 25
             (Sample.after_calls k Sample.never_connected)).2).
  destruct (Sample.after_calls k Sample.never_connected) as [p e]. cbn [fst snd] in *.
  subst p. change recursion_limit with (S (Nat.pred recursion_limit)).
  rewrite (refused_call _ _ _ _ _ "connection refused");
    [| reflexivity | cbn; lia | by rewrite Hserver].
  cbn [snd fst PostgresDB.dsn PostgresDB.new].
  split; [reflexivity|]. split; [exact Hserver|]. split.
  - rewrite net_at_set_net. cbn. by rewrite Hattempts.
  - rewrite slept_set_net. cbn. rewrite Hslept.
    clear. induction k; [reflexivity|]. cbn. by rewrite IHk.
Qed.

Lemma limit_message_differs {A} (prefix msg : string) :
  prefix = "Ошибка при запросе к БД: " \/ prefix = "Ошибка соединения с БД: " ->
  @Raise A (DBError (prefix ++ msg))
  <> Raise (DBError "Превышено количетсво попыток соединения с БД").
Proof. intros [-> | ->]; cbv [String.append]; discriminate. Qed.

Lemma reconnects_at_most_one (depth : nat) (query : string) (size : Z)
    (p : PostgresDB.t) (e : Env) :
  0 <= PostgresDB.reconnects p <= 1 ->
  0 <= PostgresDB.reconnects (PostgresDB.fetchmany depth query size (p, e)).2.1 <= 1 /\
  (PostgresDB.fetchmany depth query size (p, e)).1
  <> Raise (DBError "Превышено количетсво попыток соединения с БД").
Proof.
  revert p e. induction depth as [|d IH]; intros p e Hp; [split; [exact Hp | discriminate]|].
  destruct (PostgresDB.connection p) as [h|] eqn:Hc.
  - rewrite (fetchmany_connected _ _ _ _ _ _ Hc), execute_run.
    destruct (on_execute _ _ _) as [rs | cls msg]; [split; [exact Hp | discriminate]|].
    destruct cls; try (split; [exact Hp | by apply limit_message_differs; left]);
      try (split; [exact Hp | discriminate]).
    destruct (String.eqb msg "the connection is closed").
    + apply IH. by destruct p.
    + split; [exact Hp|]. by apply limit_message_differs; left.
  - rewrite (fetchmany_disconnected _ _ _ _ _ Hc), (reconnect_run _ _ Hc).
    destruct (Z.ltb_spec 3 (PostgresDB.reconnects p)); [lia|].
    rewrite connect_run.
    destruct (on_connect _ _) as [[cls msg]|].
    + destruct cls; try (split; [exact Hp | by apply limit_message_differs; right]);
        (split; [exact Hp | discriminate]).
    + apply IH. cbn. lia.
Qed.

(** C5, at the failing input.  Against a backend that refuses every
    connection, each of any number [k] of successive calls of
    [fetchmany] on a never-connected adapter sleeps, tries to connect
    and raises the plain connection error; the retry counter is still 0
    after [k] failed attempts.  In general, from a counter of 0 or 1 no
    call leaves the counter above 1 or raises the "attempts exceeded"
    error: the guard [reconnects > 3] cannot fire. *)
Theorem retry_limit_never_reached :
  (forall k,
     let s := Sample.after_calls k Sample.never_connected in
     PostgresDB.fetchmany recursion_limit "select 1" 25 s
     = (Raise (DBError "Ошибка соединения с БД: connection refused"),
        Sample.after_calls (S k) Sample.never_connected) /\
     PostgresDB.reconnects s.1 = 0 /\
     attempts (net_at s.2 "host=A") = k /\
     slept s.2 = replicate k 5) /\
  (forall depth query size p e,
     0 <= PostgresDB.reconnects p <= 1 ->
     0 <= PostgresDB.reconnects (PostgresDB.fetchmany depth query size (p, e)).2.1 <= 1 /\
     (PostgresDB.fetchmany depth query size (p, e)).1
     <> Raise (DBError "Превышено количетсво попыток соединения с БД")).
Proof.
  split; [| apply reconnects_at_most_one].
  intros k s. destruct (after_calls_refusing k) as (Hp & Hserver & Hattempts & Hslept).
  fold s in Hp, Hserver, Hattempts, Hslept.
  split; [| split; [by rewrite Hp | split; assumption]].
  change (Sample.after_calls (S k) Sample.never_connected)
    with ((PostgresDB.fetchmany recursion_limit "select 1" 25 s).2).
  destruct s as [p e]. cbn [fst snd] in *. subst p.
  change recursion_limit with (S (Nat.pred recursion_limit)).
  rewrite (refused_call _ _ _ _ _ "connection refused");
    [reflexivity | reflexivity | cbn; lia | by rewrite Hserver].
Qed.

(** ** The worker: one result row for one task *)

Lemma on_db_frame {A} (name : string) (c : M (DB.t * Env) A) (w w1 : World) (r : outcome A) :
  on_db name c w = (r, w1) ->
  internal_db w1 = internal_db w /\ q w1 = q w /\ messages w1 = messages w /\
  storage w1 = storage w.
Proof.
  unfold on_db, bind, stand, zoom.
  destruct (lookup_stand name (stands w)) as [s|]; [| by intros [= _ <-]].
  destruct (c _) as [r' [d e]]. by intros [= _ <-].
Qed.

Lemma error_result_dumps (msg : string) :
  Json.dumps_records (error_result msg)
  = Ok ("[" ++ ("{" ++ (Json.quoted "error" ++ ":" ++ Json.quoted msg) ++ "}") ++ "]").
Proof. reflexivity. Qed.

(** The last four statements of [execute_query]: a fresh [Storage], its
    [connect], [save_result] and [close]. *)
Lemma persist_run (id flag : Z) (name : string) (result : list record) (w : World) :
  on_connect (server (env w) INTERNAL_DB) (attempts (net_at (env w) INTERNAL_DB)) = None ->
  exists e1 e2,
    local (SQLiteDB.new INTERNAL_DB)
      (local_env SQLiteDB.connect ;;;
       local_db (Storage.save_result id flag name result) ;;;
       local_env SQLiteDB.close) w
    = match Json.dumps_records result with
      | Ok text =>
          (Ok tt,
           set_env e2
             (set_internal_db
                (Storage.set_query_result
                   (<[Storage.next_rowid (Storage.query_result (internal_db w)) :=
                        {| Storage.query_id := id; Storage.is_error := flag;
                           Storage.stand_name := name;
                           Storage.result_json := text |}]>
                      (Storage.query_result (internal_db w)))
                   (internal_db w)) w))
      | Raise x => (Raise x, set_env e1 w)
      end.
Proof.
  intros Hopen.
  cbv [local local_env local_db zoom bind self set_self io ret raise modify fst snd
       SQLiteDB.connect SQLiteDB.close SQLiteDB.new SQLiteDB.connection SQLiteDB.database
       SQLiteDB.set_connection try_except Storage.save_result Storage.no_connection].
  rewrite connect_run, Hopen. cbn [fst snd env set_env internal_db set_internal_db].
  destruct (Json.dumps_records result) as [text|x].
  - exists (env w). eexists. cbv [Driver.close]. destruct w; reflexivity.
  - eexists. exists (env w). destruct w; reflexivity.
Qed.

Lemma execute_query_run `{JsonParser} (task : QueryTask.t) (w : World) :
  is_Some (lookup_stand (QueryTask.stand_name task) (stands w)) ->
  execute_query task w
  = let persist outcome :=
      local (SQLiteDB.new INTERNAL_DB)
        (local_env SQLiteDB.connect ;;;
         local_db (Storage.save_result (QueryTask.query_id task) (snd outcome)
                     (QueryTask.stand_name task) (fst outcome)) ;;;
         local_env SQLiteDB.close) in
    match on_db (QueryTask.stand_name task) DB.connect w with
    | (Raise (DBError msg), w1) => persist (error_result msg, 1) w1
    | (Raise x, w1) => (Raise x, w1)
    | (Ok _, w1) =>
        match on_db (QueryTask.stand_name task)
                (DB.fetchmany (QueryTask.query task) (QueryTask.size task)) w1 with
        | (Ok result, w2) => persist (result, 0) w2
        | (Raise (DBError msg), w2) => persist (error_result msg, 1) w2
        | (Raise x, w2) => (Raise x, w2)
        end
    end.
Proof.
  intros [s Hs]. unfold execute_query. unfold bind at 1, stand at 1. rewrite Hs.
  unfold bind at 1, try_except at 1, bind at 1. cbv zeta.
  destruct (on_db (QueryTask.stand_name task) DB.connect w) as [[[]|x] w1].
  - unfold ret at 1. unfold bind at 1, try_except at 1, bind at 1.
    destruct (on_db (QueryTask.stand_name task) _ w1) as [[result|x] w2].
    + reflexivity.
    + destruct x; reflexivity.
  - destruct x; reflexivity.
Qed.

(** What [execute_query] leaves in the store, by outcome of the adapter,
    provided the store file opens: one new result row with the error
    flag set and the error record when [connect] or [fetchmany] raises
    [DBError]; one new row with the flag clear and the records when
    [fetchmany] returns records that [json.dumps] accepts; and no row,
    with the encoder's exception leaving the task, when it returns
    records that [json.dumps] refuses. *)
Lemma execute_query_records_outcome `{JsonParser} (task : QueryTask.t) (w : World) :
  let name := QueryTask.stand_name task in
  let fetch := DB.fetchmany (QueryTask.query task) (QueryTask.size task) in
  let opens (w1 : World) :=
    on_connect (server (env w1) INTERNAL_DB) (attempts (net_at (env w1) INTERNAL_DB))
    = None in
  let next := Storage.next_rowid (Storage.query_result (internal_db w)) in
  let recorded (flag : Z) (text : string) (w' : World) :=
    Storage.query_result (internal_db w) !! next = None /\
    Storage.query_result (internal_db w')
    = <[next := {| Storage.query_id := QueryTask.query_id task;
                   Storage.is_error := flag; Storage.stand_name := name;
                   Storage.result_json := text |}]>
        (Storage.query_result (internal_db w)) in
  is_Some (lookup_stand name (stands w)) ->
  (forall msg w1,
     on_db name DB.connect w = (Raise (DBError msg), w1) -> opens w1 ->
     exists text w',
       Json.dumps_records (error_result msg) = Ok text /\
       execute_query task w = (Ok tt, w') /\ recorded 1 text w') /\
  (forall w1 msg w2,
     on_db name DB.connect w = (Ok tt, w1) ->
     on_db name fetch w1 = (Raise (DBError msg), w2) -> opens w2 ->
     exists text w',
       Json.dumps_records (error_result msg) = Ok text /\
       execute_query task w = (Ok tt, w') /\ recorded 1 text w') /\
  (forall w1 result w2 text,
     on_db name DB.connect w = (Ok tt, w1) ->
     on_db name fetch w1 = (Ok result, w2) ->
     Json.dumps_records result = Ok text -> opens w2 ->
     exists w', execute_query task w = (Ok tt, w') /\ recorded 0 text w') /\
  (forall w1 result w2 x,
     on_db name DB.connect w = (Ok tt, w1) ->
     on_db name fetch w1 = (Ok result, w2) ->
     Json.dumps_records result = Raise x -> opens w2 ->
     exists w', execute_query task w = (Raise x, w') /\
                internal_db w' = internal_db w).
Proof.
  intros name fetch opens next recorded Hstand.
  pose proof (execute_query_run task w Hstand) as Hrun. cbv zeta in Hrun.
  fold name fetch in Hrun.
  split; [| split; [| split]].
  - intros msg w1 Hconnect Hopen. rewrite Hconnect in Hrun.
    destruct (on_db_frame _ _ _ _ _ Hconnect) as (Hdb & _).
    destruct (persist_run (QueryTask.query_id task) 1 name (error_result msg) w1 Hopen)
      as (e1 & e2 & Hpersist).
    cbn [fst snd] in Hrun. rewrite Hpersist, error_result_dumps in Hrun.
    eexists _, _. split; [apply error_result_dumps|]. split; [exact Hrun|].
    subst recorded next. cbn. rewrite Hdb. split; [apply next_rowid_fresh | reflexivity].
  - intros w1 msg w2 Hconnect Hfetch Hopen. rewrite Hconnect, Hfetch in Hrun.
    destruct (on_db_frame _ _ _ _ _ Hconnect) as (Hdb1 & _).
    destruct (on_db_frame _ _ _ _ _ Hfetch) as (Hdb2 & _).
    destruct (persist_run (QueryTask.query_id task) 1 name (error_result msg) w2 Hopen)
      as (e1 & e2 & Hpersist).
    cbn [fst snd] in Hrun. rewrite Hpersist, error_result_dumps in Hrun.
    eexists _, _. split; [apply error_result_dumps|]. split; [exact Hrun|].
    subst recorded next. cbn. rewrite Hdb2, Hdb1.
    split; [apply next_rowid_fresh | reflexivity].
  - intros w1 result w2 text Hconnect Hfetch Hdumps Hopen.
    rewrite Hconnect, Hfetch in Hrun.
    destruct (on_db_frame _ _ _ _ _ Hconnect) as (Hdb1 & _).
    destruct (on_db_frame _ _ _ _ _ Hfetch) as (Hdb2 & _).
    destruct (persist_run (QueryTask.query_id task) 0 name result w2 Hopen)
      as (e1 & e2 & Hpersist).
    cbn [fst snd] in Hrun. rewrite Hpersist, Hdumps in Hrun.
    eexists. split; [exact Hrun|].
    subst recorded next. cbn. rewrite Hdb2, Hdb1.
    split; [apply next_rowid_fresh | reflexivity].
  - intros w1 result w2 x Hconnect Hfetch Hdumps Hopen.
    rewrite Hconnect, Hfetch in Hrun.
    destruct (on_db_frame _ _ _ _ _ Hconnect) as (Hdb1 & _).
    destruct (on_db_frame _ _ _ _ _ Hfetch) as (Hdb2 & _).
    destruct (persist_run (QueryTask.query_id task) 0 name result w2 Hopen)
      as (e1 & e2 & Hpersist).
    cbn [fst snd] in Hrun. rewrite Hpersist, Hdumps in Hrun.
    eexists. split; [exact Hrun|]. cbn. by rewrite Hdb2, Hdb1.
Qed.

(** C1, at the failing inputs.  A relational stand whose backend returns
    a row with a timestamp, and a document stand whose backend returns a
    document with an identifier inside an array: in both runs
    [fetchmany] succeeds, [json.dumps] raises [TypeError] inside
    [save_result], the exception leaves [execute_query], and the result
    table is as empty as before. *)
Theorem execute_query_loses_unserializable_result :
  (let w := Sample.worker_world (Sample.postgres_stand "A")
              (Sample.answering [[("now", PDatetime "2024-01-12T09:30:00+00:00")]]) in
   let run := execute_query (H := Sample.loads_empty_filter)
                (QueryTask.new "A" 1 "select now()" 25) w in
   run.1 = Raise (TypeError "Object of type datetime is not JSON serializable") /\
   Storage.query_result (internal_db run.2) = ∅) /\
  (let w := Sample.worker_world (Sample.mongo_stand "A")
              (Sample.answering [Sample.order_doc]) in
   let run := execute_query (H := Sample.loads_empty_filter)
                (QueryTask.new "A" 1 "{}" 25) w in
   run.1 = Raise (TypeError "Object of type ObjectId is not JSON serializable") /\
   Storage.query_result (internal_db run.2) = ∅).
Proof. split; split; vm_compute; reflexivity. Qed.

(** The same worker on rows that [json.dumps] accepts, and on a backend
    that refuses the connection: one row each time. *)
Lemma execute_query_sample_runs :
  (let w := Sample.worker_world (Sample.postgres_stand "A")
              (Sample.answering [[("n", PInt 1)]]) in
   let run := execute_query (H := Sample.loads_empty_filter)
                (QueryTask.new "A" 1 "select 1 as n" 25) w in
   run.1 = Ok tt /\
   map_to_list (Storage.query_result (internal_db run.2))
   = [(1, {| Storage.query_id := 1; Storage.is_error := 0; Storage.stand_name := "A";
             Storage.result_json :=
               "[{" ++ Json.quoted "n" ++ ":1}]" |})]) /\
  (let w := Sample.worker_world (Sample.postgres_stand "A") Sample.refusing in
   let run := execute_query (H := Sample.loads_empty_filter)
                (QueryTask.new "A" 1 "select 1 as n" 25) w in
   run.1 = Ok tt /\
   map_to_list (Storage.query_result (internal_db run.2))
   = [(1, {| Storage.query_id := 1; Storage.is_error := 1; Storage.stand_name := "A";
             Storage.result_json :=
               "[{" ++ Json.quoted "error" ++ ":"
               ++ Json.quoted "Ошибка соединения с БД: connection refused" ++ "}]" |})]).
Proof. split; split; vm_compute; reflexivity. Qed.

(** * Further properties of the code *)

(** ** [new_db] and the registry of stands *)

Lemma config_get_key (k : string) (config : Config.t) :
  k ∈ Config.keys config -> is_Some (Config.get k config).
Proof.
  induction config as [|[k' v] config IH]; [by intros ?%not_elem_of_nil|].
  cbn. destruct (String.eqb_spec k' k) as [->|Hne]; [eauto|].
  intros [?|?]%elem_of_cons; [congruence | by apply IH].
Qed.

Lemma config_get_elem (k v : string) (config : Config.t) :
  Config.get k config = Some v -> k ∈ Config.keys config.
Proof.
  induction config as [|[k' v'] config IH]; [done|].
  cbn. destruct (String.eqb_spec k' k) as [->|Hne]; [left|].
  intros H. right. by apply IH.
Qed.

Lemma is_correct_config_spec (config : Config.t) (required : list string) :
  is_correct_config config required = true <-> required ⊆ Config.keys config.
Proof.
  unfold is_correct_config. rewrite forallb_forall. split.
  - intros Hall k Hk. apply list_elem_of_In in Hk. specialize (Hall k Hk).
    by apply bool_decide_eq_true_1 in Hall.
  - intros Hsub k Hk. apply bool_decide_eq_true_2, Hsub. by apply list_elem_of_In.
Qed.

Lemma config_item_key (k : string) (config : Config.t) :
  k ∈ Config.keys config -> exists v, Config.item k config = Ok v /\ Config.get k config = Some v.
Proof.
  intros Hk. destruct (config_get_key k config Hk) as [v Hv].
  exists v. unfold Config.item. by rewrite Hv.
Qed.

(** X1.  What [new_db] makes of a configuration entry.  When it returns
    an adapter, the adapter is not connected, the entry names the vendor
    of that adapter and holds every key the vendor requires, and the
    adapter's address is built from the entry's values (for PostgreSQL
    the five fields of the connection string, in order).  It raises
    [KeyError] only when the vendor is missing or a required key of the
    named vendor is missing, [ValueError] only when the vendor is none of
    the three, and nothing else. *)
Theorem new_db_outcome (config : Config.t) :
  match new_db config with
  | Ok d =>
      DB.handle_of d = None /\
      match d with
      | DB.Postgres p =>
          Config.get "vendor" config = Some "postgres" /\
          PostgresDB.required_keys ⊆ Config.keys config /\
          exists dbname user password host port,
            Config.get "dbname" config = Some dbname /\
            Config.get "user" config = Some user /\
            Config.get "password" config = Some password /\
            Config.get "host" config = Some host /\
            Config.get "port" config = Some port /\
            PostgresDB.dsn p
            = "dbname=" ++ dbname ++ " user=" ++ user ++ " password=" ++ password
              ++ " host=" ++ host ++ " port=" ++ port
      | DB.SQLite s =>
          Config.get "vendor" config = Some "sqlite" /\
          SQLiteDB.required_keys ⊆ Config.keys config /\
          Config.get "dbname" config = Some (SQLiteDB.database s)
      | DB.Mongo m =>
          Config.get "vendor" config = Some "mongo" /\
          MongoDB.required_keys ⊆ Config.keys config /\
          Config.get "host" config = Some (MongoDB.host m) /\
          Config.get "db" config = Some (MongoDB.db m) /\
          Config.get "collection" config = Some (MongoDB.collection m)
      end
  | Raise (KeyError _) =>
      Config.get "vendor" config = None \/
      (Config.get "vendor" config = Some "postgres" /\
       ~ PostgresDB.required_keys ⊆ Config.keys config) \/
      (Config.get "vendor" config = Some "sqlite" /\
       ~ SQLiteDB.required_keys ⊆ Config.keys config) \/
      (Config.get "vendor" config = Some "mongo" /\
       ~ MongoDB.required_keys ⊆ Config.keys config)
  | Raise (ValueError _) =>
      exists vendor, Config.get "vendor" config = Some vendor /\
                     vendor <> "postgres" /\ vendor <> "sqlite" /\ vendor <> "mongo"
  | Raise _ => False
  end.
Proof.
  unfold new_db. destruct (Config.get "vendor" config) as [vendor|] eqn:Hv; [| by left].
  destruct (String.eqb_spec vendor "postgres") as [->|Hpg].
  { destruct (is_correct_config config PostgresDB.required_keys) eqn:Hc; cbn [negb].
    - apply is_correct_config_spec in Hc.
      destruct (config_item_key "dbname" config) as (v1 & -> & H1);
        [apply Hc, list_elem_of_In; cbn; auto 10|].
      destruct (config_item_key "user" config) as (v2 & -> & H2);
        [apply Hc, list_elem_of_In; cbn; auto 10|].
      destruct (config_item_key "password" config) as (v3 & -> & H3);
        [apply Hc, list_elem_of_In; cbn; auto 10|].
      destruct (config_item_key "host" config) as (v4 & -> & H4);
        [apply Hc, list_elem_of_In; cbn; auto 10|].
      destruct (config_item_key "port" config) as (v5 & -> & H5);
        [apply Hc, list_elem_of_In; cbn; auto 10|].
      cbn. split; [done|]. split; [done|]. split; [done|].
      exists v1, v2, v3, v4, v5. done.
    - right; left. split; [done|]. intros Hsub. apply is_correct_config_spec in Hsub. congruence. }
  destruct (String.eqb_spec vendor "sqlite") as [->|Hsq].
  { destruct (is_correct_config config SQLiteDB.required_keys) eqn:Hc; cbn [negb].
    - apply is_correct_config_spec in Hc.
      destruct (config_item_key "dbname" config) as (v1 & -> & Hg);
        [apply Hc, list_elem_of_In; cbn; auto 10|].
      cbn. done.
    - right; right; left. split; [done|]. intros Hsub.
      apply is_correct_config_spec in Hsub. congruence. }
  destruct (String.eqb_spec vendor "mongo") as [->|Hmg].
  { destruct (is_correct_config config MongoDB.required_keys) eqn:Hc; cbn [negb].
    - apply is_correct_config_spec in Hc.
      destruct (config_item_key "host" config) as (v1 & -> & Hg1);
        [apply Hc, list_elem_of_In; cbn; auto 10|].
      destruct (config_item_key "db" config) as (v2 & -> & Hg2);
        [apply Hc, list_elem_of_In; cbn; auto 10|].
      destruct (config_item_key "collection" config) as (v3 & -> & Hg3);
        [apply Hc, list_elem_of_In; cbn; auto 10|].
      cbn. done.
    - right; right; right. split; [done|]. intros Hsub.
      apply is_correct_config_spec in Hsub. congruence. }
  exists vendor. done.
Qed.

Lemma new_db_kind (config : Config.t) (d : DB.t) :
  new_db config = Ok d ->
  exists vendor, Config.get "vendor" config = Some vendor /\
                 Stand.syntax_map vendor = Some (Spec.class_of d).
Proof.
  unfold new_db. destruct (Config.get "vendor" config) as [vendor|]; [| done].
  unfold and_then.
  destruct (String.eqb_spec vendor "postgres") as [->|_].
  { repeat (match goal with |- context [match ?x with _ => _ end] => destruct x end; try done).
    intros [= <-]. eauto. }
  destruct (String.eqb_spec vendor "sqlite") as [->|_].
  { repeat (match goal with |- context [match ?x with _ => _ end] => destruct x end; try done).
    intros [= <-]. eauto. }
  destruct (String.eqb_spec vendor "mongo") as [->|_]; [| done].
  repeat (match goal with |- context [match ?x with _ => _ end] => destruct x end; try done).
  intros [= <-]. eauto.
Qed.

Lemma config_item_cases (k : string) (config : Config.t) :
  (exists v, Config.item k config = Ok v) \/ Config.item k config = Raise (KeyError k).
Proof. unfold Config.item. destruct (Config.get k config); eauto. Qed.

Lemma new_db_raises (config : Config.t) (e : exn) :
  new_db config = Raise e -> (exists m, e = KeyError m) \/ (exists m, e = ValueError m).
Proof.
  unfold new_db, and_then.
  destruct (Config.get "vendor" config) as [vendor|]; [| intros [= <-]; eauto].
  repeat match goal with
         | |- context [Config.item ?k config] =>
             destruct (config_item_cases k config) as [[? ->] | ->]
         | |- context [if ?b then _ else _] => destruct b
         end; intros [= <-]; eauto.
Qed.

Lemma set_stand_new (s : Stand.t) (l : list Stand.t) :
  Stand.name s ∉ map Stand.name l -> Wgui.set_stand s l = (l ++ [s])%list.
Proof.
  induction l as [|x l IH]; [done|]. cbn. intros Hnot.
  destruct (String.eqb_spec (Stand.name x) (Stand.name s)) as [E|_].
  - exfalso. apply Hnot. rewrite E. left.
  - rewrite IH; [done|]. intros Hin. apply Hnot. by right.
Qed.

(** X2.  [create_stands] on entries whose names are distinct and new:
    every entry [new_db] accepts becomes a stand, unselected, behind the
    stands already there and in the order of the file; every entry it
    refuses is reported in one error box that names the entry, in the
    same order; a refused entry does not stop the entries after it. *)
Theorem create_stands_registry (connections : list (string * Config.t)) (w : World) :
  NoDup (map Stand.name (stands w) ++ map fst connections) ->
  Wgui.create_stands connections w
  = (Ok tt,
     set_messages (messages w ++ omap Spec.reported connections)
       (set_stands (stands w ++ omap Spec.registered connections) w)).
Proof.
  revert w. induction connections as [|[name c] rest IH]; intros w Hnd.
  - cbn. rewrite !app_nil_r. by destruct w.
  - cbn [Wgui.create_stands]. unfold bind at 1.
    apply NoDup_app in Hnd as (Hnd1 & Hdisj & Hnd2). cbn in Hnd2.
    apply NoDup_cons in Hnd2 as [Hname Hnd2].
    unfold Spec.registered at 1, Spec.reported at 1.
    cbn [omap list_omap fst snd]. fold (omap Spec.registered rest) (omap Spec.reported rest).
    destruct (new_db c) as [d|e] eqn:Hdb.
    + destruct (new_db_kind c d Hdb) as (vendor & Hv & Hsx).
      unfold Config.item, Stand.new. rewrite Hv, Hsx. cbn [default].
      unfold modify at 1. rewrite set_stand_new.
      2:{ intros Hin. eapply Hdisj; [exact Hin|]. cbn. left. }
      rewrite IH.
      * cbn [stands set_stands messages set_messages]. rewrite <- app_assoc. reflexivity.
      * cbn [stands set_stands]. rewrite fmap_app. cbn. rewrite <- app_assoc. cbn.
        apply NoDup_app. split; [done|]. split.
        -- intros x Hx Hin. apply elem_of_cons in Hin as [->|Hin].
           ++ eapply Hdisj; [exact Hx|]. cbn. left.
           ++ eapply Hdisj; [exact Hx|]. cbn. by right.
        -- by apply NoDup_cons.
    + destruct (new_db_raises c e Hdb) as [[m ->] | [m ->]]; cbn.
      * unfold messagebox, modify. rewrite IH.
        -- cbn [stands set_stands messages set_messages]. rewrite <- app_assoc.
           reflexivity.
        -- cbn. apply NoDup_app. split; [done|]. split; [| done].
           intros x Hx Hin. eapply Hdisj; [exact Hx|]. cbn. by right.
      * unfold messagebox, modify. rewrite IH.
        -- cbn [stands set_stands messages set_messages]. rewrite <- app_assoc.
           reflexivity.
        -- cbn. apply NoDup_app. split; [done|]. split; [| done].
           intros x Hx Hin. eapply Hdisj; [exact Hx|]. cbn. by right.
Qed.

Lemma create_stands_registry_witness :
  let w := Sample.world [Sample.postgres_stand "P"] [] 50 "25" "" SQL (Sample.answering []) in
  map Stand.name (stands (Wgui.create_stands Sample.connections w).2) = ["P"; "A"; "C"] /\
  messages (Wgui.create_stands Sample.connections w).2
  = [showerror "Ошибка" "B: Данный вид БД не поддерживается"].
Proof.
  cbv zeta.
  rewrite (create_stands_registry Sample.connections
             (Sample.world [Sample.postgres_stand "P"] [] 50 "25" "" SQL
                (Sample.answering []))).
  - split; reflexivity.
  - apply (bool_decide_unpack _). reflexivity.
Defined.

(** ** [shutdown] *)

Lemma db_close_run (d : DB.t) (e : Env) :
  DB.close (d, e)
  = (Ok tt, (DB.set_handle None d,
             match DB.handle_of d with
             | Some h => (Driver.close h e).2
             | None => e
             end)).
Proof.
  destruct d as [p|m|s];
    [destruct p as [a [h|] r] | destruct m as [a b c [h|]] | destruct s as [a [h|]]];
    reflexivity.
Qed.

Lemma close_each_run (todo before : list Stand.t) (w : World) :
  close_each before todo w
  = (Ok tt,
     match todo with
     | [] => w
     | _ :: _ =>
         set_env (Spec.released (env w) todo)
           (set_stands (before ++ map Spec.disconnected todo) w)
     end).
Proof.
  revert before w. induction todo as [|s rest IH]; intros before w; [reflexivity|].
  cbn [close_each]. rewrite db_close_run. rewrite IH.
  destruct rest as [|s' rest]; [reflexivity|].
  cbn [env set_env stands set_stands map Spec.released foldl].
  rewrite <- app_assoc. reflexivity.
Qed.

Lemma net_at_set_net_other (a b : string) (n : Net) (e : Env) :
  a <> b -> net_at (set_net a n e) b = net_at e b.
Proof. intros Hne. unfold net_at, set_net. cbn. by rewrite lookup_insert_ne. Qed.

Lemma closed_after_close (h : handle) (e : Env) (a : string) (x : nat) :
  x ∈ closed (net_at e a) \/ (a = h_addr h /\ x = h_serial h) ->
  x ∈ closed (net_at (Driver.close h e).2 a).
Proof.
  unfold Driver.close. cbn [snd]. destruct (decide (h_addr h = a)) as [<-|Hne].
  - rewrite net_at_set_net. cbn. rewrite elem_of_app, list_elem_of_singleton. tauto.
  - rewrite net_at_set_net_other by done. intros [?|[-> _]]; done.
Qed.

Lemma closed_released (l : list Stand.t) (e : Env) (a : string) (x : nat) :
  x ∈ closed (net_at e a) -> x ∈ closed (net_at (Spec.released e l) a).
Proof.
  revert e. induction l as [|s l IH]; intros e Hx; [exact Hx|].
  cbn. apply IH. destruct (DB.handle_of (Stand.db s)); [| exact Hx].
  apply closed_after_close. by left.
Qed.

Lemma handle_of_set_handle (c : option handle) (d : DB.t) :
  DB.handle_of (DB.set_handle c d) = c.
Proof. by destruct d. Qed.

Lemma released_disconnected (l : list Stand.t) (e : Env) :
  Spec.released e (map Spec.disconnected l) = e.
Proof.
  revert e. induction l as [|x l IH]; intros e; [reflexivity|].
  cbn. rewrite handle_of_set_handle. apply IH.
Qed.

Lemma closed_of_member (l : list Stand.t) (e : Env) (s : Stand.t) (h : handle) :
  s ∈ l -> DB.handle_of (Stand.db s) = Some h ->
  h_serial h ∈ closed (net_at (Spec.released e l) (h_addr h)).
Proof.
  intros Hs Hh. revert e. induction l as [|x l IH]; intros e;
    [by apply not_elem_of_nil in Hs|].
  cbn. apply elem_of_cons in Hs as [<-|Hs]; [| by apply IH].
  rewrite Hh. apply closed_released, closed_after_close. by right.
Qed.

Lemma shutdown_run (w : World) :
  shutdown w
  = (Ok tt,
     match stands w with
     | [] => w
     | _ :: _ =>
         set_env (Spec.released (env w) (stands w))
           (set_stands (map Spec.disconnected (stands w)) w)
     end).
Proof. unfold shutdown, bind, get. rewrite close_each_run. by destruct (stands w). Qed.

(** X3.  [shutdown] never raises; afterwards no stand holds a connection,
    every connection a stand held has been closed at its address, the
    stands are otherwise what they were, the queue, the store and the
    messages are untouched, and a second [shutdown] closes nothing. *)
Theorem shutdown_closes_every_adapter (w : World) :
  exists w',
    shutdown w = (Ok tt, w') /\
    stands w' = map Spec.disconnected (stands w) /\
    Forall (fun s => DB.handle_of (Stand.db s) = None) (stands w') /\
    (forall s h, s ∈ stands w -> DB.handle_of (Stand.db s) = Some h ->
                 h_serial h ∈ closed (net_at (env w') (h_addr h))) /\
    q w' = q w /\ internal_db w' = internal_db w /\ messages w' = messages w /\
    env (shutdown w').2 = env w'.
Proof.
  rewrite shutdown_run. destruct (stands w) as [|s0 rest] eqn:Hst.
  - exists w. rewrite shutdown_run, Hst. repeat split; try done.
    intros s h Hs. by apply not_elem_of_nil in Hs.
  - eexists. split; [reflexivity|].
    cbn [stands set_stands set_env env q internal_db messages].
    split; [reflexivity|]. split; [| split; [| repeat split]].
    + apply Forall_fmap, Forall_forall. intros s _. cbn. apply handle_of_set_handle.
    + intros s h Hs Hh. by apply closed_of_member with s.
    + rewrite shutdown_run. cbn [stands set_stands set_env env map snd].
      fold (map Spec.disconnected (s0 :: rest)).
      apply (released_disconnected (s0 :: rest)).
Qed.

(** ** Storage: round trips *)

(** X4.  On a connected store, [save_query] returns an id no query had,
    [query_by_id] of that id then returns the syntax and the text that
    were saved, every other id answers as before, the table has one row
    more and the results are untouched. *)
Theorem save_query_then_query_by_id (s : Storage.t) (h : handle) (d : Storage.Db)
    (syntax : Z) (text : string) (k : Z) :
  let connected := SQLiteDB.set_connection (Some h) s in
  exists id d',
    Storage.save_query syntax text k (connected, d) = (Ok id, (connected, d')) /\
    Storage.user_query d !! id = None /\
    Storage.query_by_id id (connected, d') = (Ok (Some (syntax, text)), (connected, d')) /\
    (forall other, other <> id ->
       (Storage.query_by_id other (connected, d')).1
       = (Storage.query_by_id other (connected, d)).1) /\
    size (Storage.user_query d') = S (size (Storage.user_query d)) /\
    Storage.query_result d' = Storage.query_result d.
Proof.
  intros connected. eexists _, _. split; [reflexivity|].
  split; [apply next_rowid_fresh|]. split; [| split; [| split]].
  - cbv [Storage.query_by_id bind self io zoom get ret fst snd]. cbn.
    rewrite lookup_insert_eq. reflexivity.
  - intros other Hne. cbv [Storage.query_by_id bind self io zoom get ret fst snd]. cbn.
    rewrite lookup_insert_ne by done. reflexivity.
  - cbn. apply map_size_insert_None, next_rowid_fresh.
  - reflexivity.
Qed.

Lemma count_results_insert (d : Storage.Db) (row : Storage.query_result_row) (id : Z) :
  Storage.count_results
    (Storage.set_query_result
       (<[Storage.next_rowid (Storage.query_result d) := row]> (Storage.query_result d)) d)
    id
  = Storage.count_results d id + (if decide (id = Storage.query_id row) then 1 else 0).
Proof.
  unfold Storage.count_results. cbn [Storage.query_result Storage.set_query_result].
  pose proof (next_rowid_fresh (Storage.query_result d)) as Hfresh.
  destruct (decide (id = Storage.query_id row)) as [->|Hne].
  - rewrite map_filter_insert_True by reflexivity.
    rewrite map_size_insert_None; [lia|].
    apply map_lookup_filter_None_2. by left.
  - rewrite map_filter_insert_not'; [lia | cbn; congruence |].
    intros y Hy. congruence.
Qed.

(** X5.  On a connected store, a [save_result] whose records [json.dumps]
    accepts raises the number of results counted for its query by one,
    leaves the count of every other query as it was, and touches no
    query row. *)
Theorem save_result_counts_once (s : Storage.t) (h : handle) (d : Storage.Db)
    (query_id flag : Z) (name : string) (result : list record) (text : string) :
  Json.dumps_records result = Ok text ->
  let connected := SQLiteDB.set_connection (Some h) s in
  exists d',
    Storage.save_result query_id flag name result (connected, d)
    = (Ok tt, (connected, d')) /\
    (forall id, Storage.count_results d' id
                = Storage.count_results d id + (if decide (id = query_id) then 1 else 0)) /\
    size (Storage.query_result d') = S (size (Storage.query_result d)) /\
    Storage.user_query d' = Storage.user_query d.
Proof.
  intros Hdumps connected.
  unfold Storage.save_result.
  cbv [bind self get ret fst snd SQLiteDB.connection SQLiteDB.set_connection connected].
  rewrite Hdumps.
  eexists. split; [reflexivity|]. split; [| split; [| reflexivity]].
  - intros id. apply (count_results_insert d).
  - cbn. apply map_size_insert_None, next_rowid_fresh.
Qed.

Lemma save_result_counts_once_witness :
  exists d',
    Storage.save_result 1 0 "C" [] (Sample.open_storage, Sample.two_of_three)
    = (Ok tt, (Sample.open_storage, d')) /\
    Storage.count_results d' 1 = 3 /\ Storage.count_results d' 2 = 0.
Proof.
  destruct (save_result_counts_once (SQLiteDB.new INTERNAL_DB)
              {| h_addr := INTERNAL_DB; h_serial := 0 |} Sample.two_of_three
              1 0 "C" [] "[]" eq_refl) as (d' & Hrun & Hcount & _).
  exists d'. split; [exact Hrun|]. rewrite !Hcount. split; reflexivity.
Defined.

(** X6.  On a connected store, [mark_incomplete] sets the stand count of
    the query to -1 and keeps its other columns, changes nothing for an
    id no query has, leaves every other query and all results as they
    were; doing it twice is doing it once; and the listing labels such
    a query as queue-full however many results it has. *)
Theorem mark_incomplete_terminal (s : Storage.t) (h : handle) (d : Storage.Db) (id : Z) :
  let connected := SQLiteDB.set_connection (Some h) s in
  exists d',
    Storage.mark_incomplete id (connected, d) = (Ok tt, (connected, d')) /\
    Storage.mark_incomplete id (connected, d') = (Ok tt, (connected, d')) /\
    (forall row, Storage.user_query d !! id = Some row ->
       exists row', Storage.user_query d' !! id = Some row' /\
         Storage.stands_number row' = -1 /\
         Storage.syntax row' = Storage.syntax row /\
         Storage.created_at row' = Storage.created_at row /\
         Storage.content row' = Storage.content row /\
         forall c, Storage.progress (Storage.stands_number row') c = "Заполнена очередь") /\
    (Storage.user_query d !! id = None -> d' = d) /\
    (forall other, other <> id ->
       Storage.user_query d' !! other = Storage.user_query d !! other) /\
    Storage.query_result d' = Storage.query_result d.
Proof.
  intros connected. eexists. split; [reflexivity|].
  cbn [Storage.user_query Storage.set_user_query Storage.query_result fst snd].
  split; [| split; [| split; [| split; [| reflexivity]]]].
  - cbv [Storage.mark_incomplete bind self io zoom modify ret fst snd]. cbn.
    unfold Storage.set_user_query. cbn.
    match goal with
    | |- context [alter ?f id (alter ?f id ?m)] =>
        replace (alter f id (alter f id m)) with (alter f id m); [reflexivity|]
    end.
    apply map_eq. intros i. destruct (decide (i = id)) as [->|Hne].
    + rewrite !lookup_alter_eq. by destruct (Storage.user_query d !! id).
    + rewrite !lookup_alter_ne by done. reflexivity.
  - intros row Hrow. eexists. split.
    + rewrite lookup_alter_eq. rewrite Hrow. reflexivity.
    + cbn. repeat split.
  - intros Hnone. destruct d as [uq qr ts lt]. unfold Storage.set_user_query. cbn in *.
    f_equal. apply map_eq. intros i. destruct (decide (i = id)) as [->|Hne].
    + by rewrite lookup_alter_eq, Hnone.
    + by rewrite lookup_alter_ne.
  - intros other Hne. by rewrite lookup_alter_ne.
Qed.

(** ** Storage: the order of rows *)

#[local] Instance id_asc_total {A} : Total (@Storage.id_asc A).
Proof. intros a b. unfold Storage.id_asc. lia. Qed.

#[local] Instance id_asc_trans {A} : Transitive (@Storage.id_asc A).
Proof. intros a b c. unfold Storage.id_asc. lia. Qed.

Lemma next_rowid_above {A} (m : gmap Z A) (k : Z) (v : A) :
  m !! k = Some v -> k < Storage.next_rowid m.
Proof.
  intros Hv. apply elem_of_map_to_list in Hv.
  assert (Hk : k ∈ map fst (map_to_list m)).
  { apply list_elem_of_fmap. eexists. split; [| exact Hv]. reflexivity. }
  apply max_key_upper in Hk. destruct Hk as (a & Ha & Hle).
  unfold Storage.next_rowid, Storage.max_rowid. rewrite Ha. lia.
Qed.

Lemma same_key_same_row {A} (l : list (Z * A)) (x y : Z * A) :
  NoDup (map fst l) -> x ∈ l -> y ∈ l -> x.1 = y.1 -> x = y.
Proof.
  induction l as [|z l IH]; [by intros _ ?%not_elem_of_nil|].
  cbn. intros [Hnot Hnd]%NoDup_cons Hx Hy E.
  apply elem_of_cons in Hx. apply elem_of_cons in Hy.
  destruct Hx as [->|Hx], Hy as [->|Hy]; try reflexivity.
  - exfalso. apply Hnot. rewrite E. apply list_elem_of_fmap. eauto.
  - exfalso. apply Hnot. rewrite <- E. apply list_elem_of_fmap. eauto.
  - by apply IH.
Qed.

Lemma id_asc_sorted_unique {A} (l1 l2 : list (Z * A)) :
  StronglySorted Storage.id_asc l1 -> StronglySorted Storage.id_asc l2 ->
  l1 ≡ₚ l2 -> NoDup (map fst l1) -> l1 = l2.
Proof.
  intros H1. revert l2. induction H1 as [|x l1 Hl1 IH Hx]; intros l2 H2 Hperm Hnd.
  - by apply Permutation_nil_l in Hperm.
  - destruct H2 as [|y l2 Hl2 Hy]; [by apply Permutation_nil_r in Hperm|].
    assert (x = y) as <-.
    { assert (Hyin : y ∈ x :: l1) by (rewrite Hperm; left).
      assert (Hxin : x ∈ y :: l2) by (rewrite <- Hperm; left).
      apply (same_key_same_row (x :: l1)); [exact Hnd | left | exact Hyin |].
      rewrite Forall_forall in Hx, Hy.
      apply elem_of_cons in Hyin. apply elem_of_cons in Hxin.
      destruct Hyin as [->|Hyin]; [reflexivity|].
      destruct Hxin as [->|Hxin]; [reflexivity|].
      specialize (Hx _ Hyin). specialize (Hy _ Hxin).
      unfold Storage.id_asc in Hx, Hy. lia. }
    f_equal. apply IH; [exact Hl2 | by apply Permutation_cons_inv in Hperm |].
    cbn in Hnd. by apply NoDup_cons in Hnd as [_ ?].
Qed.

Lemma sorted_rows_insert {A} (m : gmap Z A) (v : A) :
  merge_sort Storage.id_asc (map_to_list (<[Storage.next_rowid m := v]> m))
  = (merge_sort Storage.id_asc (map_to_list m) ++ [(Storage.next_rowid m, v)])%list.
Proof.
  pose proof (merge_sort_Permutation (@Storage.id_asc A) (map_to_list m)) as Hperm.
  apply id_asc_sorted_unique.
  - apply StronglySorted_merge_sort; apply _.
  - apply StronglySorted_app_2.
    + intros [k x] y Hk ->%list_elem_of_singleton.
      rewrite Hperm in Hk. apply elem_of_map_to_list in Hk.
      apply next_rowid_above in Hk. unfold Storage.id_asc. cbn. lia.
    + apply StronglySorted_merge_sort; apply _.
    + repeat constructor.
  - rewrite merge_sort_Permutation.
    rewrite map_to_list_insert by apply next_rowid_fresh.
    rewrite Hperm. apply Permutation_cons_append.
  - rewrite merge_sort_Permutation. apply NoDup_fst_map_to_list.
Qed.

Lemma results_rows_insert (d : Storage.Db) (row : Storage.query_result_row) (id : Z) :
  let listed (m : gmap Z Storage.query_result_row) :=
    map (fun kr : Z * Storage.query_result_row =>
           (Storage.stand_name (snd kr), Storage.result_json (snd kr)))
      (filter (fun kr : Z * Storage.query_result_row => Storage.query_id (snd kr) = id)
         (merge_sort Storage.id_asc (map_to_list m))) in
  listed (<[Storage.next_rowid (Storage.query_result d) := row]> (Storage.query_result d))
  = (listed (Storage.query_result d)
     ++ if decide (id = Storage.query_id row)
        then [(Storage.stand_name row, Storage.result_json row)] else [])%list.
Proof.
  intros listed. unfold listed. rewrite sorted_rows_insert.
  rewrite filter_app. change (@map) with (@fmap list _). rewrite fmap_app. f_equal.
  destruct (decide (id = Storage.query_id row)) as [->|Hne].
  - rewrite filter_cons_True by reflexivity. reflexivity.
  - rewrite filter_cons_False by (cbn; congruence). reflexivity.
Qed.

(** X7.  On a connected store, after a [save_result] whose records
    [json.dumps] accepts, [results_by_query_id] of its query returns what
    it returned before followed by the stand's name and the encoded
    records; for any other query it returns what it returned before. *)
Theorem save_result_then_results_by_query_id (s : Storage.t) (h : handle) (d : Storage.Db)
    (query_id flag : Z) (name : string) (result : list record) (text : string) :
  Json.dumps_records result = Ok text ->
  let connected := SQLiteDB.set_connection (Some h) s in
  exists d',
    Storage.save_result query_id flag name result (connected, d)
    = (Ok tt, (connected, d')) /\
    forall id, exists before,
      Storage.results_by_query_id id (connected, d) = (Ok before, (connected, d)) /\
      Storage.results_by_query_id id (connected, d')
      = (Ok (before ++ if decide (id = query_id) then [(name, text)] else [])%list,
         (connected, d')).
Proof.
  intros Hdumps connected.
  unfold Storage.save_result.
  cbv [bind self get ret fst snd SQLiteDB.connection SQLiteDB.set_connection connected].
  rewrite Hdumps.
  eexists. split; [reflexivity|]. intros id. eexists. split; [reflexivity|].
  cbn [snd].
  pose proof (results_rows_insert d
                {| Storage.query_id := query_id; Storage.is_error := flag;
                   Storage.stand_name := name; Storage.result_json := text |} id) as Hrows.
  cbn zeta in Hrows. cbn [Storage.query_id Storage.stand_name Storage.result_json] in Hrows.
  rewrite <- Hrows. reflexivity.
Qed.

Lemma save_result_then_results_by_query_id_witness :
  exists d',
    Storage.save_result 1 0 "C" [] (Sample.open_storage, Sample.two_of_three)
    = (Ok tt, (Sample.open_storage, d')) /\
    Storage.results_by_query_id 1 (Sample.open_storage, d')
    = (Ok [("A", "[]"); ("B", "[]"); ("C", "[]")], (Sample.open_storage, d')).
Proof.
  destruct (save_result_then_results_by_query_id (SQLiteDB.new INTERNAL_DB)
              {| h_addr := INTERNAL_DB; h_serial := 0 |} Sample.two_of_three
              1 0 "C" [] "[]" eq_refl) as (d' & Hrun & Hlist).
  exists d'. split; [exact Hrun|].
  destruct (Hlist 1) as (before & Hbefore & Hafter).
  assert (Hrun0 : Storage.results_by_query_id 1 (Sample.open_storage, Sample.two_of_three)
                  = (Ok [("A", "[]"); ("B", "[]")],
                     (Sample.open_storage, Sample.two_of_three)))
    by (vm_compute; reflexivity).
  pose proof (eq_trans (eq_sym Hbefore) Hrun0) as E. injection E as ->.
  exact Hafter.
Defined.

Lemma replace_char_length (a b : ascii) (s : string) :
  String.length (Str.replace_char a b s) = String.length s.
Proof. induction s; cbn; congruence. Qed.

Lemma occurs_app (c : ascii) (s r : string) :
  Spec.occurs c (s ++ r) = Spec.occurs c s || Spec.occurs c r.
Proof.
  induction s as [|x s IH]; [reflexivity|].
  change (String x s ++ r) with (String x (s ++ r)). cbn. rewrite IH. by rewrite orb_assoc.
Qed.

Lemma replace_char_occurs (a b : ascii) (s : string) :
  a <> b -> Spec.occurs a (Str.replace_char a b s) = false.
Proof.
  intros Hne. induction s as [|x s IH]; [reflexivity|]. cbn. rewrite IH, orb_false_r.
  destruct (Ascii.eqb x a) eqn:E; [| exact E].
  apply Ascii.eqb_neq. congruence.
Qed.

Lemma string_length_app (s r : string) :
  String.length (s ++ r) = (String.length s + String.length r)%nat.
Proof.
  induction s as [|x s IH]; [reflexivity|].
  change (String x s ++ r) with (String x (s ++ r)). cbn. by rewrite IH.
Qed.

Lemma preview_short (content : string) :
  (String.length (Storage.preview content) <= 53)%nat /\
  Spec.occurs Storage.newline (Storage.preview content) = false.
Proof.
  unfold Storage.preview. destruct (String.length content <? 50)%nat eqn:E.
  - apply Nat.ltb_lt in E. rewrite replace_char_length. split; [lia|].
    by apply replace_char_occurs.
  - rewrite string_length_app, replace_char_length, occurs_app.
    pose proof (length_str_take 50 content). split; [change (String.length "...") with 3%nat; lia|].
    rewrite replace_char_occurs by done. reflexivity.
Qed.

(** X8.  On a connected store, [latest_queries] lists 25 queries, or all
    of them when there are fewer; a query that is not listed has an id
    below every listed id; and the text shown for a query has at most 53
    characters and no line feed. *)
Theorem latest_queries_newest (s : Storage.t) (h : handle) (d : Storage.Db) :
  let connected := SQLiteDB.set_connection (Some h) s in
  exists rows,
    Storage.latest_queries (connected, d) = (Ok rows, (connected, d)) /\
    List.length rows = Nat.min 25 (size (Storage.user_query d)) /\
    (forall id row, Storage.user_query d !! id = Some row ->
       id ∈ map (fun r => r.1.1.1) rows \/
       Forall (fun r => id < r.1.1.1) rows) /\
    Forall (fun r => (String.length r.1.2 <= 53)%nat /\
                     Spec.occurs Storage.newline r.1.2 = false) rows.
Proof.
  intros connected.
  set (sorted := merge_sort Storage.id_desc (map_to_list (Storage.user_query d))).
  exists (map (Storage.latest_row d) (take 25 sorted)). split; [reflexivity|].
  assert (Hperm : sorted ≡ₚ map_to_list (Storage.user_query d))
    by apply merge_sort_Permutation.
  assert (Hsorted : StronglySorted Storage.id_desc sorted)
    by (apply StronglySorted_merge_sort; apply _).
  split; [| split].
  - rewrite length_map, length_take, Hperm, length_map_to_list. lia.
  - intros id row Hrow. apply elem_of_map_to_list in Hrow. rewrite <- Hperm in Hrow.
    rewrite <- (take_drop 25 sorted) in Hrow. apply elem_of_app in Hrow.
    destruct Hrow as [Hin|Hin].
    + left. rewrite <- list_fmap_compose. apply list_elem_of_fmap.
      exists (id, row). split; [reflexivity | exact Hin].
    + right. apply Forall_fmap, Forall_forall. intros x Hx. cbn.
      rewrite <- (take_drop 25 sorted) in Hsorted.
      pose proof (StronglySorted_app_1_elem_of _ _ _ _ _ Hsorted Hx Hin) as Hle.
      unfold Storage.id_desc in Hle. cbn in Hle.
      destruct (decide (id = x.1)) as [->|Hne]; [| lia].
      exfalso.
      assert (Hnd : NoDup (map fst (take 25 sorted ++ drop 25 sorted)%list)).
      { rewrite take_drop, Hperm. apply NoDup_fst_map_to_list. }
      rewrite fmap_app in Hnd. apply NoDup_app in Hnd as (_ & Hdisj & _).
      apply (Hdisj x.1); apply list_elem_of_fmap.
      * exists x. split; [reflexivity | exact Hx].
      * exists (x.1, row). split; [reflexivity | exact Hin].
  - apply Forall_fmap, Forall_forall. intros x _. cbn. apply preview_short.
Qed.

(** ** A refused connection; what the encoder accepts *)

(** X9.  [connect] on an adapter that is not connected, at a backend that
    refuses connections.  The relational adapters make one attempt, open
    nothing and stay as they were; they raise [DBError] with the
    backend's message for an operational error and let any other driver
    error through.  The document adapter does not reach the backend: it
    returns normally and holds a new client, no attempt having been
    made. *)
Theorem connect_refused (d : DB.t) (e : Env) (cls : driver_error) (msg : string) :
  DB.handle_of d = None ->
  on_connect (server e (DB.address d)) (attempts (net_at e (DB.address d)))
  = Some (cls, msg) ->
  let run := DB.connect (d, e) in
  let before := net_at e (DB.address d) in
  match d with
  | DB.Mongo _ =>
      run.1 = Ok tt /\
      run.2.1
      = DB.set_handle (Some {| h_addr := DB.address d; h_serial := opened before |}) d /\
      net_at run.2.2 (DB.address d)
      = {| attempts := attempts before; opened := S (opened before);
           closed := closed before; executed := executed before |}
  | _ =>
      run.1 = Raise (match cls with
                     | OperationalError => DBError ("Ошибка соединения с БД: " ++ msg)
                     | _ => DriverError cls msg
                     end) /\
      run.2.1 = d /\
      net_at run.2.2 (DB.address d)
      = {| attempts := S (attempts before); opened := opened before;
           closed := closed before; executed := executed before |}
  end.
Proof.
  intros Hh Hrefused.
  destruct d as [p|m|s];
    [destruct p as [a c r] | destruct m as [a b c0 c] | destruct s as [a c]];
    cbn in Hh, Hrefused; subst c.
  - run. rewrite connect_run, Hrefused. cbn [DB.address PostgresDB.dsn].
    destruct cls; cbn; rewrite net_at_set_net; repeat split.
  - run. cbv [Driver.client]. cbn [DB.address MongoDB.host].
    rewrite net_at_set_net. repeat split.
  - run. rewrite connect_run, Hrefused. cbn [DB.address SQLiteDB.database].
    destruct cls; cbn; rewrite net_at_set_net; repeat split.
Qed.

Lemma connect_refused_witness :
  (DB.connect (DB.Postgres (PostgresDB.new "host=A"), Sample.quiet Sample.refusing)).1
  = Raise (DBError "Ошибка соединения с БД: connection refused") /\
  (DB.connect (DB.Mongo (MongoDB.new "mongodb://c" "shop" "orders"),
               Sample.quiet Sample.refusing)).1
  = Ok tt.
Proof.
  split.
  - destruct (connect_refused (DB.Postgres (PostgresDB.new "host=A"))
                (Sample.quiet Sample.refusing) OperationalError "connection refused"
                eq_refl eq_refl) as [Hrun _].
    exact Hrun.
  - destruct (connect_refused (DB.Mongo (MongoDB.new "mongodb://c" "shop" "orders"))
                (Sample.quiet Sample.refusing) OperationalError "connection refused"
                eq_refl eq_refl) as [Hrun _].
    exact Hrun.
Defined.

Lemma dumps_dict (d : list (string * pyvalue)) :
  Forall (fun kv => exists s, Json.dumps kv.2 = Ok s) d ->
  exists text, Json.dumps (PDict d) = Ok text.
Proof.
  induction 1 as [|[k x] d [s Hs] _ IH]; [cbn; eauto|].
  destruct IH as [text IH]. cbn [Json.dumps] in IH |- *. cbn [snd] in Hs. rewrite Hs.
  match type of IH with
  | match ?m with Ok _ => _ | Raise _ => _ end = _ => destruct m as [r|]; [| discriminate]
  end.
  eauto.
Qed.

Lemma dumps_list (l : list pyvalue) :
  Forall (fun x => exists s, Json.dumps x = Ok s) l ->
  exists text, Json.dumps (PList l) = Ok text.
Proof.
  induction 1 as [|x l [s Hs] _ IH]; [cbn; eauto|].
  destruct IH as [text IH]. cbn [Json.dumps] in IH |- *. rewrite Hs.
  match type of IH with
  | match ?m with Ok _ => _ | Raise _ => _ end = _ => destruct m as [r|]; [| discriminate]
  end.
  eauto.
Qed.

Lemma dumps_flat (v : pyvalue) :
  Spec.flat v = true -> exists text, Json.dumps (MongoDB.to_serializable v) = Ok text.
Proof.
  revert v. fix IH 1. intros v. destruct v as [| b | z | r | s | l | d | hex | iso | bs | tn rp];
    cbn [Spec.flat MongoDB.to_serializable]; try discriminate; try (intros _; cbn; eauto; fail).
  intros Hd. apply dumps_dict.
  induction d as [|[k x] d IHd]; [constructor|].
  cbn in Hd. apply andb_true_iff in Hd as [Hx Hrest].
  cbn [map]. constructor; [apply (IH x Hx) | apply (IHd Hrest)].
Qed.

(** X10.  Documents built from [None], booleans, numbers, text,
    identifiers, dates and mappings of such (no array, no binary value
    and no value of any other type at any depth) are, after
    [to_serializable], accepted by the [json.dumps] of [save_result]. *)
Theorem flat_documents_are_storable (docs : list record) :
  Forall (fun doc => Spec.flat (PDict doc) = true) docs ->
  exists text,
    Json.dumps_records (map MongoDB.to_serializable_doc docs) = Ok text.
Proof.
  intros Hdocs. unfold Json.dumps_records. apply dumps_list.
  rewrite map_map. apply Forall_map. eapply Forall_impl; [exact Hdocs|].
  intros doc Hdoc. apply (dumps_flat (PDict doc) Hdoc).
Qed.

Lemma flat_documents_are_storable_witness :
  Spec.flat (PDict Sample.flat_doc) = true /\
  exists text,
    Json.dumps_records (map MongoDB.to_serializable_doc [Sample.flat_doc]) = Ok text.
Proof.
  split; [reflexivity|].
  apply (flat_documents_are_storable [Sample.flat_doc]).
  repeat constructor.
Defined.

(** ** [fetchmany] of the three adapters *)

Lemma sqlite_fetchmany_connected (k : nat) (query : string) (size : Z) (d : SQLiteDB.t)
    (h : handle) (e : Env) :
  SQLiteDB.connection d = Some h ->
  SQLiteDB.fetchmany (S k) query size (d, e)
  = (match on_execute (server e (h_addr h))
             (List.length (executed (net_at e (h_addr h)))) query with
     | Rows rs => Ok (take (Z.to_nat size) rs)
     | Fails OperationalError msg => Raise (DBError ("Ошибка при запросе к БД: " ++ msg))
     | Fails cls msg => Raise (DriverError cls msg)
     end,
     (SQLiteDB.set_connection None d,
      set_net (h_addr h)
        {| attempts := attempts (net_at e (h_addr h));
           opened := opened (net_at e (h_addr h));
           closed := closed (net_at e (h_addr h)) ++ [h_serial h];
           executed := executed (net_at e (h_addr h)) ++ [(query, size)] |} e)).
Proof.
  destruct d as [a c]. cbn [SQLiteDB.connection]. intros ->.
  cbn [SQLiteDB.fetchmany]. run. rewrite execute_run.
  assert (Hclose : forall e1 : Env,
            e1 = set_net (h_addr h)
                   {| attempts := attempts (net_at e (h_addr h));
                      opened := opened (net_at e (h_addr h));
                      closed := closed (net_at e (h_addr h));
                      executed := executed (net_at e (h_addr h)) ++ [(query, size)] |} e ->
            Driver.close h e1
            = (Ok tt,
               set_net (h_addr h)
                 {| attempts := attempts (net_at e (h_addr h));
                    opened := opened (net_at e (h_addr h));
                    closed := closed (net_at e (h_addr h)) ++ [h_serial h];
                    executed := executed (net_at e (h_addr h)) ++ [(query, size)] |} e)).
  { intros e1 ->. unfold Driver.close. rewrite net_at_set_net. cbn.
    unfold set_net. cbn. by rewrite insert_insert_eq. }
  destruct (on_execute _ _ _) as [rs | cls msg].
  - rewrite (Hclose _ eq_refl). reflexivity.
  - destruct cls; rewrite (Hclose _ eq_refl); reflexivity.
Qed.

Lemma sqlite_fetchmany_disconnected (k : nat) (query : string) (size : Z) (d : SQLiteDB.t)
    (e : Env) :
  SQLiteDB.connection d = None ->
  SQLiteDB.fetchmany (S k) query size (d, e)
  = match on_connect (server e (SQLiteDB.database d))
            (attempts (net_at e (SQLiteDB.database d))) with
    | None =>
        SQLiteDB.fetchmany k query size
          (SQLiteDB.set_connection
             (Some {| h_addr := SQLiteDB.database d;
                      h_serial := opened (net_at e (SQLiteDB.database d)) |}) d,
           (Driver.connect (SQLiteDB.database d) e).2)
    | Some (OperationalError, msg) =>
        (Raise (DBError ("Ошибка соединения с БД: " ++ msg)),
         (d, (Driver.connect (SQLiteDB.database d) e).2))
    | Some (cls, msg) =>
        (Raise (DriverError cls msg), (d, (Driver.connect (SQLiteDB.database d) e).2))
    end.
Proof.
  destruct d as [a c]. cbn [SQLiteDB.connection SQLiteDB.database]. intros ->.
  cbn [SQLiteDB.fetchmany]. run. rewrite connect_run.
  destruct (on_connect _ _) as [[cls msg]|].
  - destruct cls; reflexivity.
  - cbn [snd]. destruct (SQLiteDB.fetchmany k query size _) as [[rs|x] s1]; [reflexivity|].
    destruct x; reflexivity.
Qed.

(** X11.  [SQLiteDB.fetchmany], called with room for two frames, whatever
    the backend does: it does not end in [RecursionError]; afterwards
    the adapter holds no connection; it opens at most one connection;
    and it closes the connection it held or, when it held none, every
    connection it opened. *)
Theorem sqlite_fetchmany_releases (depth : nat) (query : string) (size : Z)
    (d : SQLiteDB.t) (e : Env) :
  (2 <= depth)%nat ->
  let run := SQLiteDB.fetchmany depth query size (d, e) in
  let addr := match SQLiteDB.connection d with
              | Some h => h_addr h
              | None => SQLiteDB.database d
              end in
  let before := net_at e addr in
  let after := net_at run.2.2 addr in
  SQLiteDB.connection run.2.1 = None /\
  SQLiteDB.database run.2.1 = SQLiteDB.database d /\
  run.1 <> Raise RecursionError /\
  (opened after <= S (opened before))%nat /\
  closed after
  = (closed before
     ++ match SQLiteDB.connection d with
        | Some h => [h_serial h]
        | None => seq (opened before) (opened after - opened before)
        end)%list.
Proof.
  intros Hdepth. destruct depth as [|[|k]]; [lia | lia |].
  destruct (SQLiteDB.connection d) as [h|] eqn:Hc; cbn zeta.
  - rewrite (sqlite_fetchmany_connected _ _ _ _ _ _ Hc). cbn [fst snd].
    rewrite net_at_set_net. cbn.
    repeat split; try lia.
    destruct (on_execute _ _ _) as [rs | [] msg]; discriminate.
  - rewrite (sqlite_fetchmany_disconnected _ _ _ _ _ Hc), connect_run.
    destruct (on_connect _ _) as [[cls msg]|].
    + assert (Hsame : forall x : exn, x <> RecursionError ->
                (let run := (Raise x : outcome (list record),
                             (d, set_net (SQLiteDB.database d)
                                   {| attempts := S (attempts (net_at e (SQLiteDB.database d)));
                                      opened := opened (net_at e (SQLiteDB.database d));
                                      closed := closed (net_at e (SQLiteDB.database d));
                                      executed := executed (net_at e (SQLiteDB.database d)) |}
                                   e)) in
                 SQLiteDB.connection run.2.1 = None /\
                 SQLiteDB.database run.2.1 = SQLiteDB.database d /\
                 run.1 <> Raise RecursionError /\
                 (opened (net_at run.2.2 (SQLiteDB.database d))
                  <= S (opened (net_at e (SQLiteDB.database d))))%nat /\
                 closed (net_at run.2.2 (SQLiteDB.database d))
                 = (closed (net_at e (SQLiteDB.database d))
                    ++ seq (opened (net_at e (SQLiteDB.database d)))
                         (opened (net_at run.2.2 (SQLiteDB.database d))
                          - opened (net_at e (SQLiteDB.database d))))%list)).
      { intros x Hx. cbn. rewrite net_at_set_net. cbn.
        rewrite Nat.sub_diag. cbn. rewrite app_nil_r.
        repeat split; try lia; try assumption. congruence. }
      destruct cls; apply Hsame; discriminate.
    + cbn [snd].
      rewrite (sqlite_fetchmany_connected k query size
                 (SQLiteDB.set_connection
                    (Some {| h_addr := SQLiteDB.database d;
                             h_serial := opened (net_at e (SQLiteDB.database d)) |}) d)
                 {| h_addr := SQLiteDB.database d;
                    h_serial := opened (net_at e (SQLiteDB.database d)) |} _ eq_refl).
      cbn [fst snd h_addr h_serial]. rewrite !net_at_set_net. cbn.
      repeat split; try lia.
      * destruct (on_execute _ _ _) as [rs | [] msg]; discriminate.
      * replace (S (opened (net_at e (SQLiteDB.database d)))
                 - opened (net_at e (SQLiteDB.database d)))%nat with 1%nat by lia.
        reflexivity.
Qed.

Lemma sqlite_fetchmany_releases_witness :
  let run := SQLiteDB.fetchmany recursion_limit "select 1" 25
               (SQLiteDB.new "a.db", Sample.quiet (Sample.answering [])) in
  SQLiteDB.connection run.2.1 = None /\
  closed (net_at run.2.2 "a.db") = [0%nat].
Proof.
  assert (Hdepth : (2 <= recursion_limit)%nat) by (apply Nat.leb_le; reflexivity).
  destruct (sqlite_fetchmany_releases recursion_limit "select 1" 25
              (SQLiteDB.new "a.db") (Sample.quiet (Sample.answering [])) Hdepth)
    as (Hconn & _ & _ & _ & Hclosed).
  split; [exact Hconn|]. vm_compute. reflexivity.
Defined.

(** X12.  [PostgresDB.fetchmany] against a backend that accepts every
    connection and answers the statement with "the connection is closed"
    every time: whatever depth of recursion is allowed, the call ends in
    [RecursionError], never in [DBError], and each frame it used either
    ran the statement or slept before reconnecting. *)
Theorem postgres_fetchmany_unbounded_retry (query : string) (size : Z) (addr : string)
    (b : Backend) :
  (forall n, on_connect b n = None) ->
  (forall n, on_execute b n query = Fails OperationalError "the connection is closed") ->
  forall (depth : nat) (p : PostgresDB.t) (e : Env),
    PostgresDB.dsn p = addr ->
    server e addr = b ->
    (forall h, PostgresDB.connection p = Some h -> h_addr h = addr) ->
    PostgresDB.reconnects p <= 3 ->
    let run := PostgresDB.fetchmany depth query size (p, e) in
    run.1 = Raise RecursionError /\
    (List.length (executed (net_at run.2.2 addr)) + List.length (slept run.2.2)
     = List.length (executed (net_at e addr)) + List.length (slept e) + depth)%nat.
Proof.
  intros Hconnect Hexecute depth.
  induction depth as [|k IH]; intros p e Hdsn Hserver Hh Hcount; cbn zeta.
  - cbn. split; [reflexivity | lia].
  - destruct (PostgresDB.connection p) as [h|] eqn:Hc.
    + rewrite (fetchmany_connected _ _ _ _ _ _ Hc), execute_run.
      rewrite (Hh h eq_refl), Hserver, Hexecute.
      change (String.eqb "the connection is closed" "the connection is closed") with true.
      cbv iota beta.
      match goal with
      | |- context [PostgresDB.fetchmany k query size (?p1, ?e1)] =>
          specialize (IH p1 e1)
      end.
      cbn zeta in IH.
      destruct IH as [Hr Hn].
      * by destruct p.
      * rewrite server_set_net. exact Hserver.
      * destruct p; cbn; discriminate.
      * by destruct p.
      * split; [exact Hr|]. rewrite Hn, net_at_set_net, slept_set_net. cbn.
        rewrite length_app. cbn. lia.
    + rewrite (fetchmany_disconnected _ _ _ _ _ Hc), (reconnect_run _ _ Hc).
      destruct (Z.ltb_spec 3 (PostgresDB.reconnects p)); [lia|].
      destruct (sleep_run 5 e) as (Hs & Hnet & Hslept).
      rewrite connect_run, Hdsn, Hs, Hserver, Hconnect, Hnet.
      match goal with
      | |- context [PostgresDB.fetchmany k query size (?p1, ?e1)] =>
          specialize (IH p1 e1)
      end.
      cbn zeta in IH.
      destruct IH as [Hr Hn].
      * reflexivity.
      * rewrite server_set_net, Hs. exact Hserver.
      * cbn. intros h' [= <-]. reflexivity.
      * cbn. lia.
      * split; [exact Hr|]. rewrite Hn, net_at_set_net, slept_set_net, Hslept. cbn.
        rewrite length_app. cbn. lia.
Qed.

Lemma postgres_fetchmany_unbounded_retry_witness :
  (PostgresDB.fetchmany recursion_limit "select 1" 25
     (Sample.pg_connected,
      Sample.first_connection
        (Sample.failing OperationalError "the connection is closed"))).1
  = Raise RecursionError.
Proof.
  assert (Hconnect : forall n,
            on_connect (Sample.failing OperationalError "the connection is closed") n
            = None) by reflexivity.
  assert (Hexecute : forall n,
            on_execute (Sample.failing OperationalError "the connection is closed") n
              "select 1"
            = Fails OperationalError "the connection is closed") by reflexivity.
  assert (Hh : forall h, PostgresDB.connection Sample.pg_connected = Some h ->
                         h_addr h = "host=A") by (intros h [= <-]; reflexivity).
  assert (Hcount : PostgresDB.reconnects Sample.pg_connected <= 3) by (cbn; lia).
  exact (proj1 (postgres_fetchmany_unbounded_retry "select 1" 25 "host=A"
                  (Sample.failing OperationalError "the connection is closed")
                  Hconnect Hexecute recursion_limit Sample.pg_connected
                  (Sample.first_connection
                     (Sample.failing OperationalError "the connection is closed"))
                  eq_refl eq_refl Hh Hcount)).
Defined.

(** X13.  [MongoDB.fetchmany] never changes the adapter.  Without a client
    it raises [AssertionError]; with a client and a text [json.loads]
    refuses it raises [JSONDecodeError]; in both cases the backend is
    not contacted.  Otherwise the statement runs once: rows come back
    through [to_serializable], cut to the limit; a server selection
    timeout becomes [DBError] with the backend's message; any other
    driver error passes unchanged. *)
Theorem mongo_fetchmany_outcomes `{JsonParser} (m : MongoDB.t) (e : Env)
    (query : string) (size : Z) :
  let run := MongoDB.fetchmany query size (m, e) in
  run.2.1 = m /\
  (MongoDB.client m = None ->
   run = (Raise (AssertionError "Должен быть указан MongoClient"), (m, e))) /\
  (forall h, MongoDB.client m = Some h -> json_loads query = None ->
     run = (Raise JSONDecodeError, (m, e))) /\
  (forall h, MongoDB.client m = Some h -> is_Some (json_loads query) ->
     let n := net_at e (h_addr h) in
     run.2.2 = set_net (h_addr h)
                 {| attempts := attempts n; opened := opened n; closed := closed n;
                    executed := executed n ++ [(query, size)] |} e /\
     run.1 = match on_execute (server e (h_addr h)) (List.length (executed n)) query with
             | Rows rs => Ok (map MongoDB.to_serializable_doc (take (Z.to_nat size) rs))
             | Fails ServerSelectionTimeoutError msg =>
                 Raise (DBError ("Ошибка при запросе к БД: " ++ msg))
             | Fails cls msg => Raise (DriverError cls msg)
             end).
Proof.
  destruct m as [a b c [h|]]; cbn zeta.
  - assert (Hrun : MongoDB.fetchmany query size
                     ({| MongoDB.host := a; MongoDB.db := b; MongoDB.collection := c;
                         MongoDB.client := Some h |}, e)
                   = match json_loads query with
                     | None => (Raise JSONDecodeError,
                                ({| MongoDB.host := a; MongoDB.db := b;
                                    MongoDB.collection := c; MongoDB.client := Some h |}, e))
                     | Some _ =>
                         (match on_execute (server e (h_addr h))
                                  (List.length (executed (net_at e (h_addr h)))) query with
                          | Rows rs =>
                              Ok (map MongoDB.to_serializable_doc (take (Z.to_nat size) rs))
                          | Fails ServerSelectionTimeoutError msg =>
                              Raise (DBError ("Ошибка при запросе к БД: " ++ msg))
                          | Fails cls msg => Raise (DriverError cls msg)
                          end,
                          ({| MongoDB.host := a; MongoDB.db := b;
                              MongoDB.collection := c; MongoDB.client := Some h |},
                           set_net (h_addr h)
                             {| attempts := attempts (net_at e (h_addr h));
                                opened := opened (net_at e (h_addr h));
                                closed := closed (net_at e (h_addr h));
                                executed := executed (net_at e (h_addr h))
                                            ++ [(query, size)] |} e))
                     end).
    { run. destruct (json_loads query); [| reflexivity].
      rewrite execute_run. destruct (on_execute _ _ _) as [rs | [] msg]; reflexivity. }
    rewrite Hrun. split; [| split; [| split]].
    + destruct (json_loads query); reflexivity.
    + discriminate.
    + intros h' _ ->. reflexivity.
    + intros h' [= <-] [v Hv]. rewrite Hv. split; reflexivity.
  - split; [reflexivity|]. split; [reflexivity|]. split; discriminate.
Qed.

(** ** The worker *)

Lemma store_db_names (name : string) (d : DB.t) (l : list Stand.t) :
  map Stand.name (store_db name d l) = map Stand.name l.
Proof.
  induction l as [|s l IH]; [reflexivity|]. cbn.
  destruct (String.eqb (Stand.name s) name); cbn; [reflexivity | by rewrite IH].
Qed.

Lemma on_db_names {A} (name : string) (c : M (DB.t * Env) A) (w w1 : World) (r : outcome A) :
  on_db name c w = (r, w1) ->
  map Stand.name (stands w1) = map Stand.name (stands w).
Proof.
  unfold on_db, bind, stand, zoom.
  destruct (lookup_stand name (stands w)) as [s|]; [| by intros [= _ <-]].
  destruct (c _) as [r' [d e]]. intros [= _ <-]. cbn. apply store_db_names.
Qed.

(** The last four statements of [execute_query], whatever the store file
    does. *)
Lemma persist_frame (id flag : Z) (name : string) (result : list record) (w : World) :
  let run := local (SQLiteDB.new INTERNAL_DB)
               (local_env SQLiteDB.connect ;;;
                local_db (Storage.save_result id flag name result) ;;;
                local_env SQLiteDB.close) w in
  q run.2 = q w /\ messages run.2 = messages w /\ storage run.2 = storage w /\
  stands run.2 = stands w /\
  Storage.user_query (internal_db run.2) = Storage.user_query (internal_db w) /\
  (Storage.query_result (internal_db run.2) = Storage.query_result (internal_db w) \/
   exists text,
     run.1 = Ok tt /\ Json.dumps_records result = Ok text /\
     Storage.query_result (internal_db run.2)
     = <[Storage.next_rowid (Storage.query_result (internal_db w)) :=
           {| Storage.query_id := id; Storage.is_error := flag;
              Storage.stand_name := name; Storage.result_json := text |}]>
         (Storage.query_result (internal_db w))).
Proof.
  cbv [local local_env local_db zoom bind self set_self io ret raise modify fst snd
       SQLiteDB.connect SQLiteDB.close SQLiteDB.new SQLiteDB.connection SQLiteDB.database
       SQLiteDB.set_connection try_except Storage.save_result Storage.no_connection].
  rewrite connect_run.
  destruct (on_connect _ _) as [[cls msg]|].
  - destruct cls; cbn; repeat split; by left.
  - cbn [fst snd env set_env internal_db set_internal_db].
    destruct (Json.dumps_records result) as [text|x].
    + cbv [Driver.close]. cbn. repeat split. right. exists text. repeat split.
    + cbn. repeat split. by left.
Qed.

(** X14.  One turn of a worker takes the first task off the queue and
    nothing else; it shows no message, changes no query row and no
    stand's name; it adds at most one result row, and that row carries
    the task's query id and stand name and an error flag of 0 or 1.  A
    task for a stand that does not exist raises [KeyError] and leaves
    everything but the queue as it was. *)
Theorem worker_step_frame `{JsonParser} (w : World) :
  let run := worker_step w in
  q run.2 = tail (q w) /\
  messages run.2 = messages w /\
  storage run.2 = storage w /\
  map Stand.name (stands run.2) = map Stand.name (stands w) /\
  Storage.user_query (internal_db run.2) = Storage.user_query (internal_db w) /\
  (Storage.query_result (internal_db run.2) = Storage.query_result (internal_db w) \/
   exists task flag text,
     head (q w) = Some task /\ run.1 = Ok tt /\ (flag = 0 \/ flag = 1) /\
     Storage.query_result (internal_db run.2)
     = <[Storage.next_rowid (Storage.query_result (internal_db w)) :=
           {| Storage.query_id := QueryTask.query_id task; Storage.is_error := flag;
              Storage.stand_name := QueryTask.stand_name task;
              Storage.result_json := text |}]>
         (Storage.query_result (internal_db w))) /\
  (forall task, head (q w) = Some task ->
     lookup_stand (QueryTask.stand_name task) (stands w) = None ->
     run = (Raise (KeyError (QueryTask.stand_name task)), set_q (tail (q w)) w)).
Proof.
  cbn zeta.
  assert (Hrun : worker_step w
                 = match q w with
                   | [] => (Ok tt, w)
                   | task :: rest => execute_query task (set_q rest w)
                   end).
  { unfold worker_step. unfold bind at 1, get at 1. destruct (q w); [reflexivity|].
    unfold bind at 1, put at 1. reflexivity. }
  rewrite Hrun. clear Hrun.
  destruct (q w) as [|task rest] eqn:Hq.
  - cbn. rewrite Hq. repeat split; try by left. discriminate.
  - cbn [tail head].
    set (w0 := set_q rest w).
    change (messages w) with (messages w0). change (storage w) with (storage w0).
    change (stands w) with (stands w0). change (internal_db w) with (internal_db w0).
    change rest with (q w0) at 1.
    clearbody w0. clear Hq w.
    destruct (lookup_stand (QueryTask.stand_name task) (stands w0)) as [s|] eqn:Hs.
    + rewrite execute_query_run by eauto. cbv zeta.
      assert (Hpersist : forall flag result w2,
                (flag = 0 \/ flag = 1) ->
                q w2 = q w0 -> messages w2 = messages w0 -> storage w2 = storage w0 ->
                map Stand.name (stands w2) = map Stand.name (stands w0) ->
                internal_db w2 = internal_db w0 ->
                let run := local (SQLiteDB.new INTERNAL_DB)
                             (local_env SQLiteDB.connect ;;;
                              local_db (Storage.save_result (QueryTask.query_id task) flag
                                          (QueryTask.stand_name task) result) ;;;
                              local_env SQLiteDB.close) w2 in
                q run.2 = q w0 /\ messages run.2 = messages w0 /\
                storage run.2 = storage w0 /\
                map Stand.name (stands run.2) = map Stand.name (stands w0) /\
                Storage.user_query (internal_db run.2) = Storage.user_query (internal_db w0) /\
                (Storage.query_result (internal_db run.2)
                 = Storage.query_result (internal_db w0) \/
                 exists task' flag' text,
                   Some task = Some task' /\ run.1 = Ok tt /\ (flag' = 0 \/ flag' = 1) /\
                   Storage.query_result (internal_db run.2)
                   = <[Storage.next_rowid (Storage.query_result (internal_db w0)) :=
                         {| Storage.query_id := QueryTask.query_id task';
                            Storage.is_error := flag';
                            Storage.stand_name := QueryTask.stand_name task';
                            Storage.result_json := text |}]>
                       (Storage.query_result (internal_db w0))) /\
                (forall task', Some task = Some task' ->
                   lookup_stand (QueryTask.stand_name task') (stands w0) = None ->
                   run = (Raise (KeyError (QueryTask.stand_name task')), w0))).
      { intros flag result w2 Hflag Hq2 Hm2 Hs2 Hn2 Hdb2.
        pose proof (persist_frame (QueryTask.query_id task) flag
                      (QueryTask.stand_name task) result w2) as Hp.
        cbv zeta in *. destruct Hp as (Pq & Pm & Ps & Pst & Pu & Pr).
        rewrite Pq, Pm, Ps, Pst, Pu, Hq2, Hm2, Hs2, Hn2, Hdb2.
        repeat split.
        - destruct Pr as [Pr | (text & Hok & _ & Pr)].
          + left. by rewrite Pr, Hdb2.
          + right. exists task, flag, text. rewrite Pr, Hdb2. by repeat split.
        - intros task' [= <-]. congruence. }
      assert (Hstop : forall x w2,
                q w2 = q w0 -> messages w2 = messages w0 -> storage w2 = storage w0 ->
                map Stand.name (stands w2) = map Stand.name (stands w0) ->
                internal_db w2 = internal_db w0 ->
                let run := (Raise x : outcome unit, w2) in
                q run.2 = q w0 /\ messages run.2 = messages w0 /\
                storage run.2 = storage w0 /\
                map Stand.name (stands run.2) = map Stand.name (stands w0) /\
                Storage.user_query (internal_db run.2) = Storage.user_query (internal_db w0) /\
                (Storage.query_result (internal_db run.2)
                 = Storage.query_result (internal_db w0) \/
                 exists task' flag' text,
                   Some task = Some task' /\ run.1 = Ok tt /\ (flag' = 0 \/ flag' = 1) /\
                   Storage.query_result (internal_db run.2)
                   = <[Storage.next_rowid (Storage.query_result (internal_db w0)) :=
                         {| Storage.query_id := QueryTask.query_id task';
                            Storage.is_error := flag';
                            Storage.stand_name := QueryTask.stand_name task';
                            Storage.result_json := text |}]>
                       (Storage.query_result (internal_db w0))) /\
                (forall task', Some task = Some task' ->
                   lookup_stand (QueryTask.stand_name task') (stands w0) = None ->
                   run = (Raise (KeyError (QueryTask.stand_name task')), w0))).
      { intros x w2 Hq2 Hm2 Hs2 Hn2 Hdb2. cbn. rewrite Hdb2.
        repeat split; try assumption; [by left|].
        intros task' [= <-]. congruence. }
      destruct (on_db (QueryTask.stand_name task) DB.connect w0) as [r1 w1] eqn:H1.
      pose proof (on_db_frame _ _ _ _ _ H1) as (Hdb1 & Hq1 & Hm1 & Hs1).
      pose proof (on_db_names _ _ _ _ _ H1) as Hn1.
      destruct r1 as [[]|x].
      * destruct (on_db (QueryTask.stand_name task) _ w1) as [r2 w2] eqn:H2.
        pose proof (on_db_frame _ _ _ _ _ H2) as (Hdb2 & Hq2 & Hm2 & Hs2).
        pose proof (on_db_names _ _ _ _ _ H2) as Hn2.
        destruct r2 as [result|x].
        -- apply Hpersist; [by left | congruence ..].
        -- destruct x; try (apply Hstop; congruence).
           apply Hpersist; [by right | congruence ..].
      * destruct x; try (apply Hstop; congruence).
        apply Hpersist; [by right | congruence ..].
    + assert (Hrun : execute_query task w0
                     = (Raise (KeyError (QueryTask.stand_name task)), w0)).
      { unfold execute_query. unfold bind at 1, stand at 1. rewrite Hs. reflexivity. }
      rewrite Hrun. cbn. repeat split; try by left.
      intros task' [= <-] _. reflexivity.
Qed.

(** ** The form *)

(** X15.  [get_fetch_size] never raises.  It returns the number in the
    limit field, unchanged world, exactly when [is_positive_int] accepts
    the field, and that number is at least 1; otherwise it returns -1
    after showing one error box. *)
Theorem get_fetch_size_never_raises (w : World) :
  exists r w',
    Wgui.get_fetch_size w = (Ok r, w') /\
    (1 <= r <-> Wgui.is_positive_int (fetch_size w) = true) /\
    (1 <= r -> Str.int (fetch_size w) = Some r /\ w' = w) /\
    (~ 1 <= r ->
     r = -1 /\ exists text, w' = set_messages (messages w ++ [showerror "Ошибка" text]) w).
Proof.
  unfold Wgui.get_fetch_size. unfold bind at 1, get at 1. cbv zeta.
  unfold Wgui.is_positive_int.
  destruct (fetch_size w) as [|c s] eqn:Hf.
  - eexists _, _. split; [reflexivity|]. cbn.
    split; [split; [lia | discriminate]|]. split; [lia|].
    intros _. split; [reflexivity|]. eauto.
  - cbn [String.length Nat.eqb].
    destruct (Str.int (String c s)) as [n|] eqn:Hint.
    + destruct (Z.ltb_spec n 1) as [Hlt|Hge]; cbn [negb].
      * eexists _, _. split; [reflexivity|].
        split; [split; [lia | discriminate]|]. split; [lia|].
        intros _. split; [reflexivity|]. eauto.
      * eexists _, _. split; [reflexivity|].
        split; [split; [reflexivity | lia]|]. split; [by intros _ | lia].
    + cbn [negb]. eexists _, _. split; [reflexivity|].
      split; [split; [lia | discriminate]|]. split; [lia|].
      intros _. split; [reflexivity|]. eauto.
Qed.

(** X16.  With the document syntax chosen and every selected stand known,
    [is_valid_entry] accepts a text exactly when the text is not empty,
    at least one stand is selected, every selected stand is a document
    stand and [json.loads] parses the text; no word of the text is
    screened.  A text that is not accepted costs one error box and
    changes nothing else. *)
Theorem document_text_screening `{JsonParser} (text : string) (names : list string)
    (w : World) :
  (forall n, n ∈ names -> is_Some (lookup_stand n (stands w))) ->
  highlight_choice w = MONGO ->
  let classes := Spec.syntaxes_of (stands w) names in
  let run := SyntaxHighlighter.is_valid_entry text names w in
  (run = (Ok true, w) <->
   text <> "" /\ classes <> [] /\ (forall c, c ∈ classes -> c = MONGO) /\
   is_Some (json_loads text)) /\
  (run <> (Ok true, w) ->
   exists m, run = (Ok false, set_messages (messages w ++ [showerror "Ошибка" m]) w)).
Proof.
  intros Hnames Hchoice classes run. unfold run.
  rewrite (is_valid_entry_run _ _ _ Hnames). cbv zeta. fold classes. rewrite Hchoice.
  destruct text as [|c text].
  { cbn [String.length Nat.eqb]. split.
    - split; [discriminate | by intros (? & _)].
    - intros _. eauto. }
  cbn [String.length Nat.eqb].
  destruct (1 <? List.length (remove_dups classes))%nat eqn:Hone.
  { split.
    - split; [discriminate|]. intros (_ & Hne & Hall & _). exfalso.
      rewrite (remove_dups_constant MONGO classes Hne Hall) in Hone. discriminate.
    - intros _. eauto. }
  destruct (bool_decide (MONGO ∈ remove_dups classes)) eqn:Hin; cbn [negb].
  2:{ split.
      - split; [discriminate|]. intros (_ & Hne & Hall & _). exfalso.
        rewrite (remove_dups_constant MONGO classes Hne Hall) in Hin.
        apply bool_decide_eq_false in Hin. apply Hin. left.
      - intros _. eauto. }
  apply bool_decide_eq_true in Hin. apply (proj1 (elem_of_remove_dups _ _)) in Hin.
  destruct (json_loads (String c text)) as [v|] eqn:Hv.
  - split; [| done]. split; [| reflexivity]. intros _.
    split; [discriminate|]. split; [by intros E; rewrite E in Hin; inversion Hin|].
    split; [| eauto].
    intros x Hx. apply (single_class classes x MONGO Hone Hx Hin).
  - split.
    + split; [discriminate|]. intros (_ & _ & _ & [? ?]). discriminate.
    + intros _. eauto.
Qed.

Lemma document_text_screening_witness :
  SyntaxHighlighter.is_valid_entry (H := Sample.loads_empty_filter) "{}" ["B"]
    Sample.document_world
  = (Ok true, Sample.document_world).
Proof.
  assert (Hnames : forall n, n ∈ ["B"] ->
            is_Some (lookup_stand n (stands Sample.document_world))).
  { intros n ->%list_elem_of_singleton. eexists. reflexivity. }
  assert (Hchoice : highlight_choice Sample.document_world = MONGO) by reflexivity.
  destruct (document_text_screening (H := Sample.loads_empty_filter) "{}" ["B"]
              Sample.document_world Hnames Hchoice) as [Hiff _].
  apply Hiff. split; [discriminate|]. split; [discriminate|].
  split; [| eexists; reflexivity].
  intros c ->%list_elem_of_singleton. reflexivity.
Defined.

(** X17.  For a submission that passes validation on a connected store,
    when the queue has room for every selected stand: the query row is
    created under a fresh id with the number of selected stands; one
    task per selected stand is queued, in order, behind the tasks
    already there; no other query row, no result, no stand changes and
    no message is shown. *)
Theorem create_tasks_enqueues_all `{JsonParser} (w : World) (n : Z) (text : string) :
  let selected := Wgui.selected_names (stands w) in
  let id := Storage.next_rowid (Storage.user_query (internal_db w)) in
  let room := Z.to_nat (MAX_QUEUE_SIZE w - Z.of_nat (List.length (q w))) in
  Wgui.get_fetch_size w = (Ok n, w) -> 1 <= n ->
  Wgui.get_user_entry selected w = (Ok text, w) -> text <> "" ->
  SQLiteDB.connection (storage w) <> None ->
  (List.length selected <= room)%nat ->
  exists w',
    Wgui.create_tasks w = (Ok tt, w') /\
    q w' = (q w ++ map (fun name => QueryTask.new name id text n) selected)%list /\
    Storage.user_query (internal_db w) !! id = None /\
    Storage.user_query (internal_db w') !! id
    = Some {| Storage.stands_number := Z.of_nat (List.length selected);
              Storage.syntax := Syntax_value (highlight_choice w);
              Storage.created_at := Storage.current_timestamp (internal_db w);
              Storage.content := text |} /\
    (forall k, k <> id ->
       Storage.user_query (internal_db w') !! k = Storage.user_query (internal_db w) !! k) /\
    Storage.query_result (internal_db w') = Storage.query_result (internal_db w) /\
    messages w' = messages w /\ stands w' = stands w.
Proof.
  intros selected id room Hlimit Hn Hentry Htext Hconn Hroom.
  destruct (Wgui.create_tasks w) as [r w'] eqn:Hrun.
  unfold Wgui.create_tasks in Hrun. unfold bind at 1 in Hrun. rewrite Hlimit in Hrun.
  destruct (Z.ltb_spec n 1); [lia|]. unfold bind at 1, get at 1 in Hrun.
  fold selected in Hrun.
  destruct selected as [|name rest] eqn:Hsel.
  { exfalso. revert Hentry. rewrite get_user_entry_run. cbv zeta.
    destruct (SyntaxHighlighter.is_valid_entry _ [] w) as [[[]|] w1] eqn:Hv;
      try (intros [= <- _]; done); try discriminate.
    destruct (is_valid_entry_cases
                (Str.strip (entry w ++ String Storage.newline EmptyString)) [] w)
      as [(Hok & _ & _ & Hin & _) | (m & Hno)].
    - by intros ? ?%not_elem_of_nil.
    - by apply not_elem_of_nil in Hin.
    - rewrite Hno in Hv. discriminate. }
  unfold bind at 1 in Hrun. rewrite Hentry in Hrun.
  destruct text as [|c text]; [done|]. cbn [String.length Nat.eqb] in Hrun.
  unfold bind at 1, get at 1 in Hrun. unfold bind at 1 in Hrun.
  rewrite (save_query_run _ _ _ _ Hconn) in Hrun.
  rewrite (enqueue_run _ _ _ _ _ room) in Hrun; [| exact Hconn | reflexivity].
  destruct (Nat.leb_spec (List.length (name :: rest)) room); [| lia].
  injection Hrun as <- <-. eexists. split; [reflexivity|].
  cbn [q set_q set_messages set_internal_db internal_db messages stands
       Storage.user_query Storage.set_user_query Storage.query_result].
  split; [reflexivity|]. split; [apply next_rowid_fresh|].
  split; [| split; [| repeat split]].
  - rewrite lookup_insert_eq. reflexivity.
  - intros k Hk. rewrite lookup_insert_ne by done. reflexivity.
Qed.

Lemma create_tasks_enqueues_all_witness :
  exists w',
    Wgui.create_tasks (H := Sample.loads_empty_filter) (Sample.relational_world "SELECT 1")
    = (Ok tt, w') /\
    q w' = [QueryTask.new "A" 1 "SELECT 1" 25] /\
    Storage.stands_number <$> Storage.user_query (internal_db w') !! 1 = Some 1 /\
    messages w' = [].
Proof.
  assert (Hlimit : Wgui.get_fetch_size (Sample.relational_world "SELECT 1")
                   = (Ok 25, Sample.relational_world "SELECT 1")) by reflexivity.
  assert (Hn : 1 <= 25) by lia.
  assert (Hentry : Wgui.get_user_entry (H := Sample.loads_empty_filter)
                     (Wgui.selected_names (stands (Sample.relational_world "SELECT 1")))
                     (Sample.relational_world "SELECT 1")
                   = (Ok "SELECT 1", Sample.relational_world "SELECT 1")) by reflexivity.
  assert (Htext : "SELECT 1" <> "") by discriminate.
  assert (Hconn : SQLiteDB.connection (storage (Sample.relational_world "SELECT 1")) <> None)
    by discriminate.
  assert (Hroom : (List.length (Wgui.selected_names
                                  (stands (Sample.relational_world "SELECT 1")))
                   <= Z.to_nat (MAX_QUEUE_SIZE (Sample.relational_world "SELECT 1")
                                - Z.of_nat (List.length
                                              (q (Sample.relational_world "SELECT 1")))))%nat)
    by (apply Nat.leb_le; reflexivity).
  destruct (create_tasks_enqueues_all (H := Sample.loads_empty_filter)
              (Sample.relational_world "SELECT 1") 25 "SELECT 1"
              Hlimit Hn Hentry Htext Hconn Hroom)
    as (w' & Hrun & Hq & _ & Hrow & _ & _ & Hm & _).
  exists w'. split; [exact Hrun|]. split; [exact Hq|]. split; [| exact Hm].
  change (Storage.stands_number <$>
            Storage.user_query (internal_db w')
            !! Storage.next_rowid
                 (Storage.user_query (internal_db (Sample.relational_world "SELECT 1")))
          = Some 1).
  rewrite Hrow. reflexivity.
Defined.

Lemma pivot_rows_lines (results : list (string * list record))
    (rows : list (string * pyvalue)) :
  Wgui.pivot_rows results = Ok rows ->
  Forall2 (fun r row => row.1 = r.1 /\
                        exists k rest more, r.2 = ((k, row.2) :: rest) :: more)
    results rows.
Proof.
  revert rows. induction results as [|[name rs] results IH]; intros rows.
  - intros [= <-]. constructor.
  - cbn. unfold Wgui.pivot_row. cbn.
    destruct rs as [|[|[k v] rest] more]; try discriminate.
    destruct (Wgui.pivot_rows results) as [xs|]; [| discriminate].
    intros [= <-]. constructor; [| by apply IH].
    split; [reflexivity|]. cbn. eauto.
Qed.

(** X18.  When [make_pivot] returns a table, the first stand's result is
    one record of one field, the table has one line per stand in the
    order of the results, and each line holds the stand's name and the
    first value of the first record of that stand. *)
Theorem make_pivot_one_line_per_stand (results : list (string * list record))
    (rows : list (string * pyvalue)) :
  Wgui.make_pivot results = Ok (Some rows) ->
  (exists name k v rest, results = (name, [[(k, v)]]) :: rest) /\
  map fst rows = map fst results /\
  Forall2 (fun r row => row.1 = r.1 /\
                        exists k rest more, r.2 = ((k, row.2) :: rest) :: more)
    results rows.
Proof.
  unfold Wgui.make_pivot.
  destruct results as [|[name rs] rest]; [discriminate|]. cbn [snd].
  destruct rs as [|only [|]]; try discriminate.
  destruct only as [|[k v] [|]]; try discriminate. cbn [List.length Nat.eqb].
  destruct (Wgui.pivot_rows _) as [xs|] eqn:Hrows; [| discriminate].
  intros [= <-]. pose proof (pivot_rows_lines _ _ Hrows) as Hlines.
  split; [eauto|]. split; [| exact Hlines].
  clear Hrows. induction Hlines as [|r row l l' [Hfst _] _ IH]; [reflexivity|].
  cbn. by rewrite Hfst, IH.
Qed.

Lemma make_pivot_one_line_per_stand_witness :
  Wgui.make_pivot Sample.uneven_results = Ok (Some [("A", PInt 1); ("B", PInt 7)]) /\
  map fst [("A", PInt 1); ("B", PInt 7)] = map fst Sample.uneven_results.
Proof.
  split; [reflexivity|].
  destruct (make_pivot_one_line_per_stand Sample.uneven_results
              [("A", PInt 1); ("B", PInt 7)] eq_refl) as (_ & Hnames & _).
  exact Hnames.
Defined.

(** X19.  [export_result] of an id no query has raises and changes
    nothing: [TypeError] from unpacking the missing row on a connected
    store, [AssertionError] on a store that is not connected. *)
Theorem export_result_unknown_query `{JsonParser} (id : Z) (w : World) :
  Storage.user_query (internal_db w) !! id = None ->
  Wgui.export_result id w
  = (Raise (match SQLiteDB.connection (storage w) with
            | Some _ => TypeError "cannot unpack non-iterable NoneType object"
            | None => AssertionError "Должно присутсвовать соединение с хранилищем"
            end), w).
Proof.
  intros Hnone. destruct w as [st qu cap sto fs en hc ms ev db].
  cbn [internal_db storage] in *. unfold Wgui.export_result.
  cbv [bind on_storage_db zoom Storage.results_by_query_id Storage.query_by_id self io
       get ret raise fst snd Storage.no_connection internal_db storage set_internal_db
       set_storage stands q MAX_QUEUE_SIZE fetch_size entry highlight_choice messages env].
  destruct (SQLiteDB.connection sto) as [h|] eqn:Hc; rewrite ?Hc; cbv beta iota;
    rewrite ?Hc; cbv beta iota; [| reflexivity].
  rewrite Hnone. reflexivity.
Qed.

Lemma export_result_unknown_query_witness :
  Wgui.export_result (H := Sample.loads_empty_filter) 7 (Sample.relational_world "SELECT 1")
  = (Raise (TypeError "cannot unpack non-iterable NoneType object"),
     Sample.relational_world "SELECT 1").
Proof.
  apply (export_result_unknown_query (H := Sample.loads_empty_filter) 7
           (Sample.relational_world "SELECT 1")).
  reflexivity.
Defined.

Lemma selected_names_set_checkbox (b : bool) (l : list Stand.t) :
  Wgui.selected_names (map (Stand.set_checkbox b) l)
  = if b then map Stand.name l else [].
Proof.
  unfold Wgui.selected_names. induction l as [|s l IH]; [by destruct b|].
  cbn [map]. destruct b.
  - rewrite filter_cons_True by reflexivity. cbn. by rewrite IH.
  - rewrite filter_cons_False by (cbn; discriminate). exact IH.
Qed.

(** X20.  After [select_all] every stand is selected, in the order of the
    registry; after [deselect_all] none is; [deselect_all] after
    [select_all] is [deselect_all]; and a submission with a valid limit
    right after [deselect_all] only shows the "choose a stand" error. *)
Theorem select_all_then_deselect_all `{JsonParser} (w : World) :
  Wgui.selected_names (stands (Wgui.select_all w).2) = map Stand.name (stands w) /\
  Wgui.selected_names (stands (Wgui.deselect_all w).2) = [] /\
  (Wgui.select_all ;;; Wgui.deselect_all) w = Wgui.deselect_all w /\
  (Wgui.is_positive_int (fetch_size w) = true ->
   (Wgui.deselect_all ;;; Wgui.create_tasks) w
   = (Ok tt,
      set_messages
        (messages w
         ++ [showerror "Ошибка" "Выберите адрес(-а) БД перед выполнением запроса"])
        (Wgui.deselect_all w).2)).
Proof.
  split; [| split; [| split]].
  - apply (selected_names_set_checkbox true).
  - apply (selected_names_set_checkbox false).
  - cbv [bind Wgui.select_all Wgui.deselect_all modify].
    unfold set_stands. cbn. rewrite map_map. reflexivity.
  - intros Hpos. unfold bind at 1. unfold Wgui.deselect_all at 1, modify at 1.
    set (w0 := set_stands _ w).
    change ((Wgui.deselect_all w).2) with w0.
    change (messages w) with (messages w0).
    destruct (get_fetch_size_cases w0) as [(r & _ & Hr & Hrun) | [Hsmall _]].
    2:{ exfalso. change (fetch_size w0) with (fetch_size w) in Hsmall.
        unfold Wgui.is_positive_int in Hpos.
        destruct (Str.int (fetch_size w)) as [n|]; [| discriminate].
        specialize (Hsmall n eq_refl). destruct (Z.ltb_spec n 1); [discriminate | lia]. }
    unfold Wgui.create_tasks. unfold bind at 1. rewrite Hrun.
    destruct (Z.ltb_spec r 1); [lia|].
    unfold bind at 1, get at 1.
    replace (Wgui.selected_names (stands w0)) with (@nil string)
      by (symmetry; apply (selected_names_set_checkbox false)).
    reflexivity.
Qed.
